(** * The triangle renderer of eigemx/gl: call sequences of [main] and its callbacks

    The program under [src/triangle.cpp] is one straight line of GLFW, GLAD,
    OpenGL and spdlog calls around a single event loop; [src/unnamed/part_000]
    and [src/unnamed/part_001] are earlier translation units of the same
    program.  This development embeds them as programs over a small monad
    that records every library call issued, threads the state of a mock
    window system and GPU driver (the two external collaborators of the
    program, modelled as a call-counting harness would), and models the
    [return] statements of [main] as early exits and a call through a GL
    entry point that was never loaded as the death of the process.

    Conventions.
    - C [int], [unsigned int] and pointers are [Z]; [nullptr] is [0].
    - a [float] literal is the [Z] holding its IEEE-754 binary32 bit pattern;
      [f32_value] decodes a pattern to the rational it denotes.
    - memory handed to the driver is a list of bytes (each a [Z] in 0..255),
      least significant byte first; [sizeof(float)] and [sizeof(unsigned int)]
      are 4.
    - symbolic GL and GLFW enumerators passed as arguments are constructors of
      small inductive types. *)

From Stdlib Require Import ZArith QArith List String Lia.
From stdpp Require Import base gmap list strings.
Import ListNotations.

Local Open Scope string_scope.
Local Open Scope list_scope.
Local Open Scope Z_scope.

(** ** Library vocabulary *)

Inductive WindowHint :=
  | GLFW_CONTEXT_VERSION_MAJOR
  | GLFW_CONTEXT_VERSION_MINOR
  | GLFW_OPENGL_PROFILE
  | GLFW_OPENGL_FORWARD_COMPAT.

Inductive Key := GLFW_KEY_ESCAPE.

Inductive ShaderType := GL_VERTEX_SHADER | GL_FRAGMENT_SHADER.

Inductive ObjectParam := GL_COMPILE_STATUS | GL_LINK_STATUS.

Inductive BufferTarget := GL_ARRAY_BUFFER | GL_ELEMENT_ARRAY_BUFFER.

Inductive BufferUsage := GL_STREAM_DRAW | GL_STATIC_DRAW | GL_DYNAMIC_DRAW.

Inductive DataType := GL_FLOAT | GL_UNSIGNED_INT.

Inductive DrawMode := GL_POINTS | GL_LINES | GL_TRIANGLES.

Inductive ClearMask :=
  | GL_COLOR_BUFFER_BIT
  | GL_DEPTH_BUFFER_BIT
  | GL_STENCIL_BUFFER_BIT.

(** Integer constants of [GLFW/glfw3.h] and [glad/glad.h] that the program
    passes or compares as plain [int]s. *)
Definition nullptr : Z := 0.
Definition GLFW_RELEASE : Z := 0.
Definition GLFW_PRESS : Z := 1.
Definition GLFW_OPENGL_CORE_PROFILE : Z := 0x00032001.
Definition GL_TRUE : Z := 1.
Definition GL_FALSE : Z := 0.

(** An argument of a log call: the values substituted for the [{}] holes of
    the format string. *)
Inductive LogArg :=
  | ArgInt (n : Z)
  | ArgText (s : string).

(** One call into a library, with the arguments the program passes.  Output
    parameters ([&success], [info_log], [&VAO], ...) are not arguments here:
    what the library writes through them is the call's answer. *)
Inductive Call :=
  (* logging *)
  | spdlog_info (fmt : string) (args : list LogArg)
  | spdlog_error (fmt : string) (args : list LogArg)
  | fmt_println (fmt : string) (args : list LogArg)
  (* window system *)
  | glfwInit
  | glfwWindowHint (hint : WindowHint) (value : Z)
  | glfwCreateWindow (width height : Z) (title : string)
  | glfwTerminate
  | glfwMakeContextCurrent (window : Z)
  | glfwSetFramebufferSizeCallback (window : Z)
  | glfwWindowShouldClose (window : Z)
  | glfwGetKey (window : Z) (key : Key)
  | glfwSetWindowShouldClose (window : Z) (value : Z)
  | glfwSwapBuffers (window : Z)
  | glfwPollEvents
  (* loader *)
  | gladLoadGLLoader
  (* GPU driver *)
  | glViewport (x y width height : Z)
  | glCreateShader (type : ShaderType)
  | glShaderSource (shader count : Z) (source : string)
  | glCompileShader (shader : Z)
  | glGetShaderiv (shader : Z) (pname : ObjectParam)
  | glGetShaderInfoLog (shader bufSize : Z)
  | glCreateProgram
  | glAttachShader (program shader : Z)
  | glLinkProgram (program : Z)
  | glGetProgramiv (program : Z) (pname : ObjectParam)
  | glGetProgramInfoLog (program bufSize : Z)
  | glDeleteShader (shader : Z)
  | glGenVertexArrays (n : Z)
  | glGenBuffers (n : Z)
  | glBindVertexArray (array : Z)
  | glBindBuffer (target : BufferTarget) (buffer : Z)
  | glBufferData (target : BufferTarget) (size : Z) (data : list Z)
      (usage : BufferUsage)
  | glVertexAttribPointer (index size : Z) (type : DataType) (normalized : Z)
      (stride pointer : Z)
  | glEnableVertexAttribArray (index : Z)
  | glClearColor (red green blue alpha : Z)
  | glClear (mask : ClearMask)
  | glUseProgram (program : Z)
  | glDrawElements (mode : DrawMode) (count : Z) (type : DataType) (indices : Z)
  | glDeleteVertexArrays (n : Z) (array : Z)
  | glDeleteBuffers (n : Z) (buffer : Z)
  | glDeleteProgram (program : Z).

(** What the platform delivers to the window while [glfwPollEvents] runs. *)
Inductive Event :=
  | WindowCloseRequested
  | KeyInput (key : Key) (action : Z)
  | FramebufferResized (width height : Z).

(** ** binary32 literals and byte images *)

Definition f32_sign (w : Z) : Z := Z.shiftr w 31.
Definition f32_exponent (w : Z) : Z := Z.land (Z.shiftr w 23) 0xFF.
Definition f32_fraction (w : Z) : Z := Z.land w 0x7FFFFF.

Definition pow2Q (e : Z) : Q :=
  if 0 <=? e then inject_Z (2 ^ e) else / inject_Z (2 ^ (- e)).

(** The rational denoted by a finite binary32 pattern (infinities and NaNs,
    exponent 255, do not occur in the program and decode to 0). *)
Definition f32_value (w : Z) : Q :=
  let magnitude :=
    if f32_exponent w =? 0 then
      (inject_Z (f32_fraction w) * pow2Q (-149))%Q
    else if f32_exponent w =? 255 then 0%Q
    else (inject_Z (0x800000 + f32_fraction w) * pow2Q (f32_exponent w - 150))%Q
  in if f32_sign w =? 0 then magnitude else (- magnitude)%Q.

Definition le_bytes32 (w : Z) : list Z :=
  [Z.land w 0xFF; Z.land (Z.shiftr w 8) 0xFF;
   Z.land (Z.shiftr w 16) 0xFF; Z.land (Z.shiftr w 24) 0xFF].

Definition bytes_of_words (ws : list Z) : list Z := flat_map le_bytes32 ws.

Definition word_of_le_bytes (bs : list Z) : Z :=
  fold_right (fun b acc => b + 256 * acc) 0 bs.

Fixpoint words_of_bytes (n : nat) (bs : list Z) : list Z :=
  match n with
  | O => []
  | S n' => word_of_le_bytes (firstn 4 bs) :: words_of_bytes n' (skipn 4 bs)
  end.

Definition sizeof_float : Z := 4.
Definition sizeof_unsigned_int : Z := 4.

(** The literals of the two translation units. *)
Definition f32_0_0 : Z := 0x00000000.       (* 0.0f *)
Definition f32_0_5 : Z := 0x3F000000.       (* 0.5f *)
Definition f32_m0_5 : Z := 0xBF000000.      (* -0.5f *)
Definition f32_1_0 : Z := 0x3F800000.       (* 1.0f *)
Definition f32_0_11 : Z := 0x3DE147AE.      (* 0.11f *)
Definition f32_0_2 : Z := 0x3E4CCCCD.       (* 0.2f *)
Definition f32_0_3 : Z := 0x3E99999A.       (* 0.3f *)

(** ** The platform: what the libraries answer *)

(** The behaviour of the libraries that the program cannot influence: whether
    a window and the GL entry points can be had, what the shader compiler and
    linker report, and whether the build defines [__APPLE__]. *)
Record Env := {
  env_apple : bool;
  env_window : Z;              (* result of glfwCreateWindow; 0 is nullptr *)
  env_glad : Z;                (* result of gladLoadGLLoader *)
  env_vertex_status : Z;       (* GL_COMPILE_STATUS of a vertex shader *)
  env_vertex_log : string;
  env_fragment_status : Z;     (* GL_COMPILE_STATUS of a fragment shader *)
  env_fragment_log : string;
  env_link_status : Z;         (* GL_LINK_STATUS of a program *)
  env_link_log : string
}.

(** State of the window system. *)
Record Glfw := {
  glfw_initialized : bool;
  window_open : bool;
  should_close : Z;            (* the window's close flag, an int *)
  escape_key : Z;              (* last reported state of the Escape key *)
  resize_callback : option Z   (* window with a framebuffer-size callback *)
}.

(** State of the GPU driver: live objects, what the bound buffers hold, a
    counter of delete calls that named no live object, and whether
    [gladLoadGLLoader] has filled in the pointers through which the program
    reaches the [gl*] functions. *)
Record Gl := {
  viewport : Z * Z * Z * Z;
  next_name : Z;
  shaders : gmap Z (ShaderType * Z);
  programs : gmap Z Z;
  vertex_arrays : gset Z;
  buffers : gmap Z (list Z);
  array_buffer_binding : Z;
  element_array_buffer_binding : Z;
  stale_deletes : nat;
  entry_points_loaded : bool
}.

Record Driver := { glfw : Glfw; gl : Gl }.

Definition boot : Driver :=
  {| glfw := {| glfw_initialized := false; window_open := false;
                should_close := 0; escape_key := GLFW_RELEASE;
                resize_callback := None |};
     gl := {| viewport := (0, 0, 0, 0); next_name := 1;
              shaders := ∅; programs := ∅; vertex_arrays := ∅; buffers := ∅;
              array_buffer_binding := 0; element_array_buffer_binding := 0;
              stale_deletes := 0; entry_points_loaded := false |} |}.

Definition with_glfw (f : Glfw -> Glfw) (d : Driver) : Driver :=
  {| glfw := f (glfw d); gl := gl d |}.

Definition set_should_close (v : Z) (w : Glfw) : Glfw :=
  {| glfw_initialized := glfw_initialized w; window_open := window_open w;
     should_close := v; escape_key := escape_key w;
     resize_callback := resize_callback w |}.

Definition set_escape_key (v : Z) (w : Glfw) : Glfw :=
  {| glfw_initialized := glfw_initialized w; window_open := window_open w;
     should_close := should_close w; escape_key := v;
     resize_callback := resize_callback w |}.

Definition set_resize_callback (v : option Z) (w : Glfw) : Glfw :=
  {| glfw_initialized := glfw_initialized w; window_open := window_open w;
     should_close := should_close w; escape_key := escape_key w;
     resize_callback := v |}.

Definition set_glfw_initialized (v : bool) (w : Glfw) : Glfw :=
  {| glfw_initialized := v; window_open := window_open w;
     should_close := should_close w; escape_key := escape_key w;
     resize_callback := resize_callback w |}.

Definition set_window_open (v : bool) (w : Glfw) : Glfw :=
  {| glfw_initialized := glfw_initialized w; window_open := v;
     should_close := should_close w; escape_key := escape_key w;
     resize_callback := resize_callback w |}.

Definition set_viewport (v : Z * Z * Z * Z) (g : Gl) : Gl :=
  {| viewport := v; next_name := next_name g; shaders := shaders g;
     programs := programs g; vertex_arrays := vertex_arrays g;
     buffers := buffers g; array_buffer_binding := array_buffer_binding g;
     element_array_buffer_binding := element_array_buffer_binding g;
     stale_deletes := stale_deletes g;
     entry_points_loaded := entry_points_loaded g |}.

Definition set_shaders (v : gmap Z (ShaderType * Z)) (g : Gl) : Gl :=
  {| viewport := viewport g; next_name := next_name g; shaders := v;
     programs := programs g; vertex_arrays := vertex_arrays g;
     buffers := buffers g; array_buffer_binding := array_buffer_binding g;
     element_array_buffer_binding := element_array_buffer_binding g;
     stale_deletes := stale_deletes g;
     entry_points_loaded := entry_points_loaded g |}.

Definition set_programs (v : gmap Z Z) (g : Gl) : Gl :=
  {| viewport := viewport g; next_name := next_name g; shaders := shaders g;
     programs := v; vertex_arrays := vertex_arrays g;
     buffers := buffers g; array_buffer_binding := array_buffer_binding g;
     element_array_buffer_binding := element_array_buffer_binding g;
     stale_deletes := stale_deletes g;
     entry_points_loaded := entry_points_loaded g |}.

Definition set_vertex_arrays (v : gset Z) (g : Gl) : Gl :=
  {| viewport := viewport g; next_name := next_name g; shaders := shaders g;
     programs := programs g; vertex_arrays := v;
     buffers := buffers g; array_buffer_binding := array_buffer_binding g;
     element_array_buffer_binding := element_array_buffer_binding g;
     stale_deletes := stale_deletes g;
     entry_points_loaded := entry_points_loaded g |}.

Definition set_buffers (v : gmap Z (list Z)) (g : Gl) : Gl :=
  {| viewport := viewport g; next_name := next_name g; shaders := shaders g;
     programs := programs g; vertex_arrays := vertex_arrays g;
     buffers := v; array_buffer_binding := array_buffer_binding g;
     element_array_buffer_binding := element_array_buffer_binding g;
     stale_deletes := stale_deletes g;
     entry_points_loaded := entry_points_loaded g |}.

Definition set_binding (t : BufferTarget) (v : Z) (g : Gl) : Gl :=
  {| viewport := viewport g; next_name := next_name g; shaders := shaders g;
     programs := programs g; vertex_arrays := vertex_arrays g;
     buffers := buffers g;
     array_buffer_binding :=
       match t with GL_ARRAY_BUFFER => v | _ => array_buffer_binding g end;
     element_array_buffer_binding :=
       match t with
       | GL_ELEMENT_ARRAY_BUFFER => v
       | _ => element_array_buffer_binding g
       end;
     stale_deletes := stale_deletes g;
     entry_points_loaded := entry_points_loaded g |}.

Definition bump_name (g : Gl) : Gl :=
  {| viewport := viewport g; next_name := next_name g + 1;
     shaders := shaders g; programs := programs g;
     vertex_arrays := vertex_arrays g; buffers := buffers g;
     array_buffer_binding := array_buffer_binding g;
     element_array_buffer_binding := element_array_buffer_binding g;
     stale_deletes := stale_deletes g;
     entry_points_loaded := entry_points_loaded g |}.

Definition count_stale_delete (g : Gl) : Gl :=
  {| viewport := viewport g; next_name := next_name g; shaders := shaders g;
     programs := programs g; vertex_arrays := vertex_arrays g;
     buffers := buffers g; array_buffer_binding := array_buffer_binding g;
     element_array_buffer_binding := element_array_buffer_binding g;
     stale_deletes := S (stale_deletes g);
     entry_points_loaded := entry_points_loaded g |}.

Definition set_entry_points_loaded (v : bool) (g : Gl) : Gl :=
  {| viewport := viewport g; next_name := next_name g; shaders := shaders g;
     programs := programs g; vertex_arrays := vertex_arrays g;
     buffers := buffers g; array_buffer_binding := array_buffer_binding g;
     element_array_buffer_binding := element_array_buffer_binding g;
     stale_deletes := stale_deletes g;
     entry_points_loaded := v |}.

Definition binding (t : BufferTarget) (g : Gl) : Z :=
  match t with
  | GL_ARRAY_BUFFER => array_buffer_binding g
  | GL_ELEMENT_ARRAY_BUFFER => element_array_buffer_binding g
  end.

(** ** The mock libraries *)

Section Libraries.

Variable env : Env.

Definition compile_status (t : ShaderType) : Z :=
  match t with
  | GL_VERTEX_SHADER => env_vertex_status env
  | GL_FRAGMENT_SHADER => env_fragment_status env
  end.

Definition compile_log (t : ShaderType) : string :=
  match t with
  | GL_VERTEX_SHADER => env_vertex_log env
  | GL_FRAGMENT_SHADER => env_fragment_log env
  end.

(** Effect of a call on the window system. *)
Definition exec_glfw (c : Call) (w : Glfw) : Glfw :=
  match c with
  | glfwInit => set_glfw_initialized true w
  | glfwCreateWindow _ _ _ =>
      if env_window env =? nullptr then w else set_window_open true w
  | glfwTerminate =>
      set_resize_callback None
        (set_window_open false (set_glfw_initialized false w))
  | glfwSetFramebufferSizeCallback win => set_resize_callback (Some win) w
  | glfwSetWindowShouldClose _ v => set_should_close v w
  | _ => w
  end.

(** Effect of a call on the GPU driver.  A loader call that succeeds fills
    in the entry points.  Object names come from one
    counter; a [glGen*] call creates the one object the program asks for;
    [glBufferData] replaces the data store of the buffer bound to the
    target by the first [size] bytes found at [data]; a delete call removes
    the named object, or is counted when no such object is live. *)
Definition exec_gl (c : Call) (g : Gl) : Gl :=
  match c with
  | gladLoadGLLoader =>
      if env_glad env =? 0 then g else set_entry_points_loaded true g
  | glViewport x y w h => set_viewport (x, y, w, h) g
  | glCreateShader t =>
      bump_name (set_shaders (<[next_name g := (t, GL_FALSE)]> (shaders g)) g)
  | glCompileShader s =>
      set_shaders
        (alter (fun o => (fst o, compile_status (fst o))) s (shaders g)) g
  | glCreateProgram =>
      bump_name (set_programs (<[next_name g := GL_FALSE]> (programs g)) g)
  | glLinkProgram p =>
      set_programs (alter (fun _ => env_link_status env) p (programs g)) g
  | glDeleteShader s =>
      match shaders g !! s with
      | Some _ => set_shaders (delete s (shaders g)) g
      | None => count_stale_delete g
      end
  | glDeleteProgram p =>
      match programs g !! p with
      | Some _ => set_programs (delete p (programs g)) g
      | None => count_stale_delete g
      end
  | glGenVertexArrays _ =>
      bump_name (set_vertex_arrays ({[next_name g]} ∪ vertex_arrays g) g)
  | glGenBuffers _ =>
      bump_name (set_buffers (<[next_name g := []]> (buffers g)) g)
  | glBindBuffer t b => set_binding t b g
  | glBufferData t size data _ =>
      match buffers g !! binding t g with
      | Some _ =>
          set_buffers
            (<[binding t g := firstn (Z.to_nat size) data]> (buffers g)) g
      | None => g
      end
  | glDeleteVertexArrays _ a =>
      if decide (a ∈ vertex_arrays g)
      then set_vertex_arrays (vertex_arrays g ∖ {[a]}) g
      else count_stale_delete g
  | glDeleteBuffers _ b =>
      match buffers g !! b with
      | Some _ => set_buffers (delete b (buffers g)) g
      | None => count_stale_delete g
      end
  | _ => g
  end.

Definition exec (c : Call) (d : Driver) : Driver :=
  {| glfw := exec_glfw c (glfw d); gl := exec_gl c (gl d) |}.

(** The integer a call hands back, by return value or output parameter. *)
Definition answer (c : Call) (d : Driver) : Z :=
  match c with
  | glfwCreateWindow _ _ _ => env_window env
  | gladLoadGLLoader => env_glad env
  | glfwWindowShouldClose _ => should_close (glfw d)
  | glfwGetKey _ GLFW_KEY_ESCAPE => escape_key (glfw d)
  | glCreateShader _ | glCreateProgram
  | glGenVertexArrays _ | glGenBuffers _ => next_name (gl d)
  | glGetShaderiv s GL_COMPILE_STATUS =>
      match shaders (gl d) !! s with Some o => snd o | None => GL_FALSE end
  | glGetProgramiv p GL_LINK_STATUS =>
      match programs (gl d) !! p with Some st => st | None => GL_FALSE end
  | _ => 0
  end.

(** What [glGetShaderInfoLog] and [glGetProgramInfoLog] leave in a buffer of
    [bufSize] characters: the log up to the room there is beside the
    terminating NUL, so at most [bufSize - 1] characters of it. *)
Definition info_log_text (bufSize : Z) (log : string) : string :=
  String.substring 0 (Z.to_nat (bufSize - 1)) log.

(** The text a call writes into the buffer it is given; the buffer is read
    back as a C string.  A name that denotes no live object yields no
    text. *)
Definition answer_text (c : Call) (d : Driver) : string :=
  match c with
  | glGetShaderInfoLog s bufSize =>
      match shaders (gl d) !! s with
      | Some o => info_log_text bufSize (compile_log (fst o))
      | None => ""
      end
  | glGetProgramInfoLog p bufSize =>
      match programs (gl d) !! p with
      | Some _ => info_log_text bufSize (env_link_log env)
      | None => ""
      end
  | _ => ""
  end.

End Libraries.

(** ** Programs *)

(** A call into the GPU driver (a [gl*] function). *)
Definition is_gl_call (c : Call) : bool :=
  match c with
  | glViewport _ _ _ _ | glCreateShader _ | glShaderSource _ _ _
  | glCompileShader _ | glGetShaderiv _ _ | glGetShaderInfoLog _ _
  | glCreateProgram | glAttachShader _ _ | glLinkProgram _
  | glGetProgramiv _ _ | glGetProgramInfoLog _ _ | glDeleteShader _
  | glGenVertexArrays _ | glGenBuffers _ | glBindVertexArray _
  | glBindBuffer _ _ | glBufferData _ _ _ _
  | glVertexAttribPointer _ _ _ _ _ _ | glEnableVertexAttribArray _
  | glClearColor _ _ _ _ | glClear _ | glUseProgram _
  | glDrawElements _ _ _ _ | glDeleteVertexArrays _ _ | glDeleteBuffers _ _
  | glDeleteProgram _ => true
  | _ => false
  end.

(** How a piece of [main] ends: it falls through with a value, [main] has
    executed a [return], the observed input ended while the render loop was
    still running, or the process died calling [at_call] through an entry
    point that was never loaded. *)
Inductive Result (A : Type) :=
  | Done (a : A)
  | Exit (status : Z)
  | Running
  | Crashed (at_call : Call).

Arguments Done {A} a.
Arguments Exit {A} status.
Arguments Running {A}.
Arguments Crashed {A} at_call.

Definition Prog (A : Type) : Type := Driver -> Result A * Driver * list Call.

Definition ret {A} (a : A) : Prog A := fun d => (Done a, d, []).

Definition bind {A B} (m : Prog A) (k : A -> Prog B) : Prog B := fun d =>
  match m d with
  | (Done a, d1, t1) =>
      match k a d1 with (r, d2, t2) => (r, d2, t1 ++ t2) end
  | (Exit s, d1, t1) => (Exit s, d1, t1)
  | (Running, d1, t1) => (Running, d1, t1)
  | (Crashed c, d1, t1) => (Crashed c, d1, t1)
  end.

Definition exit {A} (status : Z) : Prog A := fun d => (Exit status, d, []).

Definition running {A} : Prog A := fun d => (Running, d, []).

Definition modify (f : Driver -> Driver) : Prog unit :=
  fun d => (Done tt, f d, []).

Declare Scope prog_scope.
Delimit Scope prog_scope with prog.
Bind Scope prog_scope with Prog.

Notation "x <- m ;; k" := (bind m (fun x => k))
  (at level 100, m at next level, k at level 200, right associativity)
  : prog_scope.
Notation "m ;; k" := (bind m (fun _ => k))
  (at level 100, k at level 200, right associativity) : prog_scope.

Definition when (b : bool) (p : Prog unit) : Prog unit :=
  if b then p else ret tt.

(** [static_cast<bool>] of an [int]. *)
Definition to_bool (x : Z) : bool := negb (x =? 0).

Definition result_of {A} (o : Result A * Driver * list Call) : Result A :=
  fst (fst o).
Definition driver_of {A} (o : Result A * Driver * list Call) : Driver :=
  snd (fst o).
Definition trace_of {A} (o : Result A * Driver * list Call) : list Call :=
  snd o.

Section Calls.

Variable env : Env.

Definition call (c : Call) : Prog unit :=
  fun d => (Done tt, exec env c d, [c]).

Definition ask (c : Call) : Prog Z :=
  fun d => (Done (answer env c d), exec env c d, [c]).

Definition ask_text (c : Call) : Prog string :=
  fun d => (Done (answer_text env c d), exec env c d, [c]).

(** GLAD declares every [gl*] function as a pointer that is null until
    [gladLoadGLLoader] has succeeded.  [entry_point_missing c d] says that
    [c] would go through such a null pointer in state [d]; [checked p c]
    is the call [p c] of a program that may find itself there: the process
    dies before the driver is entered, so the call is not recorded. *)
Definition entry_point_missing (c : Call) (d : Driver) : bool :=
  is_gl_call c && negb (entry_points_loaded (gl d)).

Definition checked {A} (p : Call -> Prog A) (c : Call) : Prog A :=
  fun d => if entry_point_missing c d then (Crashed c, d, []) else p c d.

(** [glfwPollEvents]: the window system handles what the platform has
    queued, in order.  A close request raises the close flag, key input
    updates the key state, and a framebuffer resize runs the registered
    callback, here [on_resize], on the calling thread. *)
Definition deliver (on_resize : Z -> Z -> Z -> Prog unit) (ev : Event)
  : Prog unit :=
  match ev with
  | WindowCloseRequested => modify (with_glfw (set_should_close GL_TRUE))
  | KeyInput GLFW_KEY_ESCAPE action =>
      modify (with_glfw (set_escape_key action))
  | FramebufferResized width height => fun d =>
      match resize_callback (glfw d) with
      | Some window => on_resize window width height d
      | None => ret tt d
      end
  end.

Fixpoint deliver_all (on_resize : Z -> Z -> Z -> Prog unit)
    (events : list Event) : Prog unit :=
  match events with
  | [] => ret tt
  | ev :: rest =>
      (deliver on_resize ev ;; deliver_all on_resize rest)%prog
  end.

Definition poll_events (on_resize : Z -> Z -> Z -> Prog unit)
    (events : list Event) : Prog unit :=
  (call glfwPollEvents ;; deliver_all on_resize events)%prog.

End Calls.

(** ** src/triangle.cpp *)

Module Triangle.

Definition WINDOW_WIDTH : Z := 800.
Definition WINDOW_HEIGHT : Z := 600.

(** [float vertices[]]: bottom left, bottom right, top. *)
Definition vertices : list Z :=
  [f32_m0_5; f32_m0_5; f32_0_0;
   f32_0_5;  f32_m0_5; f32_0_0;
   f32_0_0;  f32_0_5;  f32_0_0].

(** [unsigned int indices[]]: the first triangle. *)
Definition indices : list Z := [0; 1; 2].

(** [sizeof] of an array, given the size of an element. *)
Definition sizeof_array (element_size : Z) (elements : list Z) : Z :=
  Z.of_nat (length elements) * element_size.

(** The objects [main] keeps in local variables from setup to teardown. *)
Record Locals := {
  window : Z;
  shader_program : Z;
  VAO : Z;
  VBO : Z;
  EBO : Z
}.

Section Program.

(** [shaders::vertex_shader_src] and [shaders::fragment_shader_src] of
    [triangle_shader.H], a header that is not among the sources. *)
Variables vertex_shader_src fragment_shader_src : string.

Variable env : Env.

Local Abbreviation invoke := (call env).
Local Abbreviation query := (ask env).
Local Abbreviation query_text := (ask_text env).

Local Open Scope prog_scope.

(** Lines 259-262. *)
Definition framebuffer_resize_callback (window width height : Z)
  : Prog unit :=
  invoke (spdlog_info "Resizing framebuffer to {}x{}"
            [ArgInt width; ArgInt height]) ;;
  invoke (glViewport 0 0 width height).

(** Lines 264-269. *)
Definition escape_key_pressed_callback (window : Z) : Prog unit :=
  key <- query (glfwGetKey window GLFW_KEY_ESCAPE) ;;
  when (key =? GLFW_PRESS)
    (invoke (spdlog_info "Escape key pressed" []) ;;
     invoke (glfwSetWindowShouldClose window 1)).

(** Lines 30-209: everything [main] does before the loop.  A failed
    window creation or loader call leaves through [exit]; failed shader
    compilation or linking only logs. *)
Definition setup : Prog Locals :=
  invoke (spdlog_info "Initializing GLFW" []) ;;
  invoke glfwInit ;;
  invoke (glfwWindowHint GLFW_CONTEXT_VERSION_MAJOR 3) ;;
  invoke (glfwWindowHint GLFW_CONTEXT_VERSION_MINOR 3) ;;
  invoke (glfwWindowHint GLFW_OPENGL_PROFILE GLFW_OPENGL_CORE_PROFILE) ;;
  window <- query (glfwCreateWindow WINDOW_WIDTH WINDOW_HEIGHT "gl") ;;
  when (window =? nullptr)
    (invoke (spdlog_error "Failed to create a GLFW window. Exiting." []) ;;
     invoke glfwTerminate ;;
     exit (-1)) ;;
  when (env_apple env)
    (invoke (glfwWindowHint GLFW_OPENGL_FORWARD_COMPAT GL_TRUE)) ;;
  invoke (glfwMakeContextCurrent window) ;;
  invoke (glfwSetFramebufferSizeCallback window) ;;
  loaded <- query gladLoadGLLoader ;;
  when (negb (to_bool loaded))
    (invoke (spdlog_error "Failed to initialize GLAD" []) ;;
     exit (-1)) ;;
  invoke (glViewport 0 0 WINDOW_WIDTH WINDOW_HEIGHT) ;;
  vertex_shader <- query (glCreateShader GL_VERTEX_SHADER) ;;
  invoke (spdlog_info "Compiling vertex shader" []) ;;
  invoke (glShaderSource vertex_shader 1 vertex_shader_src) ;;
  invoke (glCompileShader vertex_shader) ;;
  success <- query (glGetShaderiv vertex_shader GL_COMPILE_STATUS) ;;
  when (negb (to_bool success))
    (info_log <- query_text (glGetShaderInfoLog vertex_shader 512) ;;
     invoke (spdlog_error "Vertex shader compilation failed: {}"
               [ArgText info_log])) ;;
  fragment_shader <- query (glCreateShader GL_FRAGMENT_SHADER) ;;
  invoke (glShaderSource fragment_shader 1 fragment_shader_src) ;;
  invoke (glCompileShader fragment_shader) ;;
  success <- query (glGetShaderiv fragment_shader GL_COMPILE_STATUS) ;;
  when (negb (to_bool success))
    (info_log <- query_text (glGetShaderInfoLog fragment_shader 512) ;;
     invoke (spdlog_error "Fragment shader compilation failed: {}"
               [ArgText info_log])) ;;
  shader_program <- query glCreateProgram ;;
  invoke (glAttachShader shader_program vertex_shader) ;;
  invoke (glAttachShader shader_program fragment_shader) ;;
  invoke (glLinkProgram shader_program) ;;
  success <- query (glGetProgramiv shader_program GL_LINK_STATUS) ;;
  when (negb (to_bool success))
    (info_log <- query_text (glGetProgramInfoLog shader_program 512) ;;
     invoke (spdlog_error "Shader program compilation failed: {}"
               [ArgText info_log])) ;;
  invoke (glDeleteShader vertex_shader) ;;
  invoke (glDeleteShader fragment_shader) ;;
  VAO <- query (glGenVertexArrays 1) ;;
  VBO <- query (glGenBuffers 1) ;;
  EBO <- query (glGenBuffers 1) ;;
  invoke (glBindVertexArray VAO) ;;
  invoke (spdlog_info "Copying triangle vertex data to vertix buffer" []) ;;
  invoke (glBindBuffer GL_ARRAY_BUFFER VBO) ;;
  invoke (glBufferData GL_ARRAY_BUFFER (sizeof_array sizeof_float vertices)
            (bytes_of_words vertices) GL_STATIC_DRAW) ;;
  invoke (spdlog_info
            "Copying triangle element indices to element buffer" []) ;;
  invoke (glBindBuffer GL_ELEMENT_ARRAY_BUFFER EBO) ;;
  invoke (glBufferData GL_ELEMENT_ARRAY_BUFFER
            (sizeof_array sizeof_unsigned_int indices)
            (bytes_of_words indices) GL_STATIC_DRAW) ;;
  invoke (glVertexAttribPointer 0 3 GL_FLOAT GL_FALSE (3 * sizeof_float) 0) ;;
  invoke (glEnableVertexAttribArray 0) ;;
  ret {| window := window; shader_program := shader_program;
         VAO := VAO; VBO := VBO; EBO := EBO |}.

(** Lines 217-247: the body of the [while]. [events] is what the platform
    has queued when this iteration reaches [glfwPollEvents]. *)
Definition loop_body (l : Locals) (events : list Event) : Prog unit :=
  escape_key_pressed_callback (window l) ;;
  invoke (glClearColor f32_0_11 f32_0_11 f32_0_11 f32_1_0) ;;
  invoke (glClear GL_COLOR_BUFFER_BIT) ;;
  invoke (glUseProgram (shader_program l)) ;;
  invoke (glBindVertexArray (VAO l)) ;;
  invoke (glDrawElements GL_TRIANGLES 3 GL_UNSIGNED_INT 0) ;;
  invoke (glBindVertexArray 0) ;;
  invoke (glfwSwapBuffers (window l)) ;;
  poll_events env framebuffer_resize_callback events.

(** Line 215: [while (!static_cast<bool>(glfwWindowShouldClose(window)))].
    [polls] lists, for each coming call of [glfwPollEvents], the events it
    will find; when the list is used up the observation ends with the loop
    still [Running]. *)
Fixpoint render_loop (l : Locals) (polls : list (list Event))
  : Prog unit :=
  flag <- query (glfwWindowShouldClose (window l)) ;;
  if negb (to_bool flag) then
    match polls with
    | [] => running
    | events :: rest => loop_body l events ;; render_loop l rest
    end
  else ret tt.

(** Lines 250-256. *)
Definition teardown (l : Locals) : Prog unit :=
  invoke (glDeleteVertexArrays 1 (VAO l)) ;;
  invoke (glDeleteBuffers 1 (VBO l)) ;;
  invoke (glDeleteBuffers 1 (EBO l)) ;;
  invoke (glDeleteProgram (shader_program l)) ;;
  invoke glfwTerminate ;;
  exit 0.

(** Lines 29-257: [main], as its three phases in sequence. *)
Definition main (polls : list (list Event)) : Prog unit :=
  l <- setup ;;
  render_loop l polls ;;
  teardown l.

End Program.

End Triangle.

(** ** src/unnamed/part_000

    An earlier translation unit of the same program: its text uploads the
    vertex data first thing, has no index buffer, no vertex array and no
    program object, and logs through [fmt::println].  Its first GPU calls
    (lines 53-83) come before the window, the context and the loader call of
    line 109, so this program is embedded with the checked calls: a [gl*]
    call made while the entry points are not loaded ends the run.  The
    programs of [src/triangle.cpp] and [src/unnamed/part_001] call the loader
    before their first [gl*] call, as is proved of their traces below, and
    are embedded with the plain calls. *)

Module Part000.

Definition WINDOW_WIDTH : Z := 800.
Definition WINDOW_HEIGHT : Z := 600.

Definition newline : string := String (Ascii.ascii_of_nat 10) EmptyString.

(** The C string [vertex_shader_src] points to (it ends at the first NUL). *)
Definition vertex_shader_src : string :=
  String.concat newline
    ["#version 330 core";
     "layout (location = 0) in vec3 aPos;";
     "void main()";
     "{";
     "   gl_Position = vec4(aPos.x, aPos.y, aPos.z, 1.0);";
     "}"].

(** [std::array<float, 9> vertices]. *)
Definition vertices : list Z :=
  [f32_m0_5; f32_m0_5; f32_0_0;
   f32_0_5;  f32_m0_5; f32_0_0;
   f32_0_0;  f32_0_5;  f32_0_0].

(** [std::array::size]: the number of elements. *)
Definition size (elements : list Z) : Z := Z.of_nat (length elements).

Section Program.

Variable env : Env.

Local Abbreviation invoke := (checked (call env)).
Local Abbreviation query := (checked (ask env)).
Local Abbreviation query_text := (checked (ask_text env)).

Local Open Scope prog_scope.

(** Lines 148-150. *)
Definition framebuffer_resize_callback (window width height : Z)
  : Prog unit :=
  invoke (glViewport 0 0 width height).

(** Lines 152-156. *)
Definition escape_key_pressed_callback (window : Z) : Prog unit :=
  key <- query (glfwGetKey window GLFW_KEY_ESCAPE) ;;
  when (key =? GLFW_PRESS)
    (invoke (glfwSetWindowShouldClose window 1)).

(** Lines 123-141. *)
Definition loop_body (window : Z) (events : list Event) : Prog unit :=
  escape_key_pressed_callback window ;;
  invoke (glClearColor f32_0_2 f32_0_3 f32_0_3 f32_1_0) ;;
  invoke (glClear GL_COLOR_BUFFER_BIT) ;;
  invoke (glfwSwapBuffers window) ;;
  poll_events env framebuffer_resize_callback events.

(** Line 121. *)
Fixpoint render_loop (window : Z) (polls : list (list Event))
  : Prog unit :=
  flag <- query (glfwWindowShouldClose window) ;;
  if negb (to_bool flag) then
    match polls with
    | [] => running
    | events :: rest => loop_body window events ;; render_loop window rest
    end
  else ret tt.

(** Lines 32-146. *)
Definition main (polls : list (list Event)) : Prog unit :=
  invoke glfwInit ;;
  VBO <- query (glGenBuffers 1) ;;
  invoke (glBindBuffer GL_ARRAY_BUFFER VBO) ;;
  invoke (glBufferData GL_ARRAY_BUFFER (size vertices)
            (bytes_of_words vertices) GL_STATIC_DRAW) ;;
  vertex_shader <- query (glCreateShader GL_VERTEX_SHADER) ;;
  invoke (glShaderSource vertex_shader 1 vertex_shader_src) ;;
  success <- query (glGetShaderiv vertex_shader GL_COMPILE_STATUS) ;;
  when (negb (to_bool success))
    (infoLog <- query_text (glGetShaderInfoLog vertex_shader 512) ;;
     invoke (fmt_println "ERROR::SHADER::VERTEX::COMPILATION_FAILED: {}"
               [ArgText infoLog])) ;;
  invoke (glfwWindowHint GLFW_CONTEXT_VERSION_MAJOR 3) ;;
  invoke (glfwWindowHint GLFW_CONTEXT_VERSION_MINOR 3) ;;
  invoke (glfwWindowHint GLFW_OPENGL_PROFILE GLFW_OPENGL_CORE_PROFILE) ;;
  window <- query (glfwCreateWindow WINDOW_WIDTH WINDOW_HEIGHT "gl") ;;
  when (window =? nullptr)
    (invoke (fmt_println "Failed to create a GLFW window. Exiting." []) ;;
     invoke glfwTerminate ;;
     exit (-1)) ;;
  invoke (glfwMakeContextCurrent window) ;;
  loaded <- query gladLoadGLLoader ;;
  when (negb (to_bool loaded))
    (invoke (fmt_println "Failed to initialize GLAD" []) ;;
     exit (-1)) ;;
  invoke (glViewport 0 0 WINDOW_WIDTH WINDOW_HEIGHT) ;;
  invoke (glfwSetFramebufferSizeCallback window) ;;
  render_loop window polls ;;
  invoke glfwTerminate ;;
  exit 0.

End Program.

End Part000.

(** ** src/unnamed/part_001

    The window-only translation unit: it opens the window, loads the GL entry
    points and clears the screen in a loop.  It creates no GPU object. *)

Module Part001.

Definition WINDOW_WIDTH : Z := 800.
Definition WINDOW_HEIGHT : Z := 600.

Section Program.

Variable env : Env.

Local Abbreviation invoke := (call env).
Local Abbreviation query := (ask env).

Local Open Scope prog_scope.

(** Lines 88-90. *)
Definition framebuffer_resize_callback (window width height : Z)
  : Prog unit :=
  invoke (glViewport 0 0 width height).

(** Lines 92-96. *)
Definition escape_key_pressed_callback (window : Z) : Prog unit :=
  key <- query (glfwGetKey window GLFW_KEY_ESCAPE) ;;
  when (key =? GLFW_PRESS)
    (invoke (glfwSetWindowShouldClose window 1)).

(** Lines 63-81. *)
Definition loop_body (window : Z) (events : list Event) : Prog unit :=
  escape_key_pressed_callback window ;;
  invoke (glClearColor f32_0_2 f32_0_3 f32_0_3 f32_1_0) ;;
  invoke (glClear GL_COLOR_BUFFER_BIT) ;;
  invoke (glfwSwapBuffers window) ;;
  poll_events env framebuffer_resize_callback events.

(** Line 61. *)
Fixpoint render_loop (window : Z) (polls : list (list Event))
  : Prog unit :=
  flag <- query (glfwWindowShouldClose window) ;;
  if negb (to_bool flag) then
    match polls with
    | [] => running
    | events :: rest => loop_body window events ;; render_loop window rest
    end
  else ret tt.

(** Lines 23-86. *)
Definition main (polls : list (list Event)) : Prog unit :=
  invoke glfwInit ;;
  invoke (glfwWindowHint GLFW_CONTEXT_VERSION_MAJOR 3) ;;
  invoke (glfwWindowHint GLFW_CONTEXT_VERSION_MINOR 3) ;;
  invoke (glfwWindowHint GLFW_OPENGL_PROFILE GLFW_OPENGL_CORE_PROFILE) ;;
  window <- query (glfwCreateWindow WINDOW_WIDTH WINDOW_HEIGHT "gl") ;;
  when (window =? nullptr)
    (invoke (fmt_println "Failed to create a GLFW window. Exiting." []) ;;
     invoke glfwTerminate ;;
     exit (-1)) ;;
  invoke (glfwMakeContextCurrent window) ;;
  loaded <- query gladLoadGLLoader ;;
  when (negb (to_bool loaded))
    (invoke (fmt_println "Failed to initialize GLAD" []) ;;
     exit (-1)) ;;
  invoke (glViewport 0 0 WINDOW_WIDTH WINDOW_HEIGHT) ;;
  invoke (glfwSetFramebufferSizeCallback window) ;;
  render_loop window polls ;;
  invoke glfwTerminate ;;
  exit 0.

End Program.

End Part001.

(** ** Observations on traces and states *)

Definition is_buffer_write (c : Call) : bool :=
  match c with glBufferData _ _ _ _ => true | _ => false end.

Definition is_viewport (c : Call) : bool :=
  match c with glViewport _ _ _ _ => true | _ => false end.

Definition is_draw (c : Call) : bool :=
  match c with glDrawElements _ _ _ _ => true | _ => false end.

Definition is_set_close (c : Call) : bool :=
  match c with glfwSetWindowShouldClose _ _ => true | _ => false end.

Definition is_should_close (c : Call) : bool :=
  match c with glfwWindowShouldClose _ => true | _ => false end.

Definition is_release (c : Call) : bool :=
  match c with
  | glfwTerminate | glDeleteVertexArrays _ _ | glDeleteBuffers _ _
  | glDeleteProgram _ => true
  | _ => false
  end.

(** A diagnostic: fetching an info log, or an error-level log line. *)
Definition is_diagnostic (c : Call) : bool :=
  match c with
  | glGetShaderInfoLog _ _ | glGetProgramInfoLog _ _ | spdlog_error _ _ => true
  | _ => false
  end.

Definition count (p : Call -> bool) (t : list Call) : nat :=
  length (List.filter p t).

(** What one queued event does to the mock state when the callback of
    [src/triangle.cpp] is the one registered, and the calls that callback
    issues. *)
Definition resize_calls (width height : Z) : list Call :=
  [spdlog_info "Resizing framebuffer to {}x{}" [ArgInt width; ArgInt height];
   glViewport 0 0 width height].

Definition event_calls (registered : option Z) (ev : Event) : list Call :=
  match ev, registered with
  | FramebufferResized width height, Some _ => resize_calls width height
  | _, _ => []
  end.

Definition event_glfw (ev : Event) (w : Glfw) : Glfw :=
  match ev with
  | WindowCloseRequested => set_should_close GL_TRUE w
  | KeyInput GLFW_KEY_ESCAPE action => set_escape_key action w
  | FramebufferResized _ _ => w
  end.

Definition event_gl (registered : option Z) (ev : Event) (g : Gl) : Gl :=
  match ev, registered with
  | FramebufferResized width height, Some _ =>
      set_viewport (0, 0, width, height) g
  | _, _ => g
  end.

Definition event_state (ev : Event) (d : Driver) : Driver :=
  {| glfw := event_glfw ev (glfw d);
     gl := event_gl (resize_callback (glfw d)) ev (gl d) |}.

Definition events_state (events : list Event) (d : Driver) : Driver :=
  fold_left (fun d ev => event_state ev d) events d.

(** The Escape-key check of one iteration, as calls and as state change. *)
Definition key_check_calls (window : Z) (d : Driver) : list Call :=
  glfwGetKey window GLFW_KEY_ESCAPE ::
  (if escape_key (glfw d) =? GLFW_PRESS
   then [spdlog_info "Escape key pressed" []; glfwSetWindowShouldClose window 1]
   else []).

Definition key_check_glfw (w : Glfw) : Glfw :=
  if escape_key w =? GLFW_PRESS then set_should_close 1 w else w.

Definition key_check_state (d : Driver) : Driver :=
  {| glfw := key_check_glfw (glfw d); gl := gl d |}.

(** The calls every iteration issues between the key check and the
    callbacks run by the poll. *)
Definition frame_calls (l : Triangle.Locals) : list Call :=
  [glClearColor f32_0_11 f32_0_11 f32_0_11 f32_1_0;
   glClear GL_COLOR_BUFFER_BIT;
   glUseProgram (Triangle.shader_program l);
   glBindVertexArray (Triangle.VAO l);
   glDrawElements GL_TRIANGLES 3 GL_UNSIGNED_INT 0;
   glBindVertexArray 0;
   glfwSwapBuffers (Triangle.window l);
   glfwPollEvents].

Definition teardown_calls (l : Triangle.Locals) : list Call :=
  [glDeleteVertexArrays 1 (Triangle.VAO l);
   glDeleteBuffers 1 (Triangle.VBO l);
   glDeleteBuffers 1 (Triangle.EBO l);
   glDeleteProgram (Triangle.shader_program l);
   glfwTerminate].

(** The locals of [main] once setup is through: the mock hands out the
    names 1 and 2 to the two shaders, so the program is 3, the vertex array 4
    and the buffers 5 and 6. *)
Definition locals (env : Env) : Triangle.Locals :=
  {| Triangle.window := env_window env; Triangle.shader_program := 3;
     Triangle.VAO := 4; Triangle.VBO := 5; Triangle.EBO := 6 |}.

(** The mock state when the loop is first reached. *)
Definition setup_state (env : Env) : Driver :=
  {| glfw := {| glfw_initialized := true; window_open := true;
                should_close := 0; escape_key := GLFW_RELEASE;
                resize_callback := Some (env_window env) |};
     gl := {| viewport := (0, 0, 800, 600); next_name := 7;
              shaders := ∅;
              programs := {[ 3 := env_link_status env ]};
              vertex_arrays := {[ 4 ]};
              buffers := {[ 5 := bytes_of_words Triangle.vertices;
                            6 := bytes_of_words Triangle.indices ]};
              array_buffer_binding := 5; element_array_buffer_binding := 6;
              stale_deletes := 0; entry_points_loaded := true |} |}.

(** What [main] adds to the trace after a status query: nothing when the
    status is nonzero, else the info-log query and the error line, which
    carries the text [log] found in [info_log]. *)
Definition diagnostic (status : Z) (get_log : Call) (fmt log : string)
  : list Call :=
  if to_bool status then [] else [get_log; spdlog_error fmt [ArgText log]].

(** The calls of a setup that gets its window and its GL entry points. *)
Definition setup_calls (vs fs : string) (env : Env) : list Call :=
  [spdlog_info "Initializing GLFW" [];
   glfwInit;
   glfwWindowHint GLFW_CONTEXT_VERSION_MAJOR 3;
   glfwWindowHint GLFW_CONTEXT_VERSION_MINOR 3;
   glfwWindowHint GLFW_OPENGL_PROFILE GLFW_OPENGL_CORE_PROFILE;
   glfwCreateWindow 800 600 "gl"] ++
  (if env_apple env
   then [glfwWindowHint GLFW_OPENGL_FORWARD_COMPAT GL_TRUE] else []) ++
  [glfwMakeContextCurrent (env_window env);
   glfwSetFramebufferSizeCallback (env_window env);
   gladLoadGLLoader;
   glViewport 0 0 800 600;
   glCreateShader GL_VERTEX_SHADER;
   spdlog_info "Compiling vertex shader" [];
   glShaderSource 1 1 vs;
   glCompileShader 1;
   glGetShaderiv 1 GL_COMPILE_STATUS] ++
  diagnostic (env_vertex_status env) (glGetShaderInfoLog 1 512)
    "Vertex shader compilation failed: {}"
    (info_log_text 512 (env_vertex_log env)) ++
  [glCreateShader GL_FRAGMENT_SHADER;
   glShaderSource 2 1 fs;
   glCompileShader 2;
   glGetShaderiv 2 GL_COMPILE_STATUS] ++
  diagnostic (env_fragment_status env) (glGetShaderInfoLog 2 512)
    "Fragment shader compilation failed: {}"
    (info_log_text 512 (env_fragment_log env)) ++
  [glCreateProgram;
   glAttachShader 3 1;
   glAttachShader 3 2;
   glLinkProgram 3;
   glGetProgramiv 3 GL_LINK_STATUS] ++
  diagnostic (env_link_status env) (glGetProgramInfoLog 3 512)
    "Shader program compilation failed: {}"
    (info_log_text 512 (env_link_log env)) ++
  [glDeleteShader 1;
   glDeleteShader 2;
   glGenVertexArrays 1;
   glGenBuffers 1;
   glGenBuffers 1;
   glBindVertexArray 4;
   spdlog_info "Copying triangle vertex data to vertix buffer" [];
   glBindBuffer GL_ARRAY_BUFFER 5;
   glBufferData GL_ARRAY_BUFFER 36 (bytes_of_words Triangle.vertices)
     GL_STATIC_DRAW;
   spdlog_info "Copying triangle element indices to element buffer" [];
   glBindBuffer GL_ELEMENT_ARRAY_BUFFER 6;
   glBufferData GL_ELEMENT_ARRAY_BUFFER 12 (bytes_of_words Triangle.indices)
     GL_STATIC_DRAW;
   glVertexAttribPointer 0 3 GL_FLOAT GL_FALSE 12 0;
   glEnableVertexAttribArray 0].

(** The same platform with a compiler and linker that report success. *)
Definition succeed (env : Env) : Env :=
  {| env_apple := env_apple env; env_window := env_window env;
     env_glad := env_glad env;
     env_vertex_status := GL_TRUE; env_vertex_log := env_vertex_log env;
     env_fragment_status := GL_TRUE; env_fragment_log := env_fragment_log env;
     env_link_status := GL_TRUE; env_link_log := env_link_log env |}.

(** [g'] differs from [g] at most in the viewport rectangle. *)
Definition only_viewport (g g' : Gl) : Prop :=
  g' = set_viewport (viewport g') g.

(** [w'] differs from [w] at most in the close flag and the key state. *)
Definition only_input (w w' : Glfw) : Prop :=
  w' = set_should_close (should_close w') (set_escape_key (escape_key w') w).

(** The shape of one iteration of the render loop of [src/triangle.cpp],
    after its loop-head test. *)
Definition close_check (window : Z) (t : list Call) : Prop :=
  t = [glfwGetKey window GLFW_KEY_ESCAPE] \/
  t = [glfwGetKey window GLFW_KEY_ESCAPE;
       spdlog_info "Escape key pressed" [];
       glfwSetWindowShouldClose window 1].

Definition resize_callbacks (t : list Call) : Prop :=
  exists sizes : list (Z * Z),
    t = flat_map (fun s => resize_calls (fst s) (snd s)) sizes.

Definition iteration_shape (l : Triangle.Locals) (t : list Call) : Prop :=
  exists check callbacks,
    t = check ++ frame_calls l ++ callbacks /\
    close_check (Triangle.window l) check /\
    resize_callbacks callbacks.

(** The calls that can occur between two loop-head tests. *)
Definition loop_call (l : Triangle.Locals) (c : Call) : Prop :=
  In c [glfwGetKey (Triangle.window l) GLFW_KEY_ESCAPE;
        spdlog_info "Escape key pressed" [];
        glfwSetWindowShouldClose (Triangle.window l) 1] \/
  In c (frame_calls l) \/
  exists width height, In c (resize_calls width height).

(** The trace of a loop whose iterations, after each loop-head test, are
    [iterations], followed by the test that ends it. *)
Definition loop_calls (window : Z) (iterations : list (list Call))
  : list Call :=
  flat_map (fun t => glfwWindowShouldClose window :: t) iterations ++
  [glfwWindowShouldClose window].

(** Runs of the render loop of [src/triangle.cpp], iteration by iteration:
    from state [d] with [polls] still to come, the loop ends or the
    observation stops in state [d'] after the iterations listed. *)
Inductive loop_run (l : Triangle.Locals)
  : list (list Event) -> Driver -> Result unit -> Driver ->
    list (list Call) -> Prop :=
  | loop_closed polls d :
      to_bool (should_close (glfw d)) = true ->
      loop_run l polls d (Done tt) d []
  | loop_unobserved d :
      should_close (glfw d) = 0 ->
      loop_run l [] d Running d []
  | loop_iteration events rest d r d' iterations :
      should_close (glfw d) = 0 ->
      loop_run l rest (events_state events (key_check_state d)) r d'
        iterations ->
      loop_run l (events :: rest) d r d'
        ((key_check_calls (Triangle.window l) d ++ frame_calls l ++
          flat_map (event_calls (resize_callback (glfw d))) events)
         :: iterations).

(** The state a sequence of calls leaves behind. *)
Definition replay (env : Env) (calls : list Call) (d : Driver) : Driver :=
  fold_left (fun d c => exec env c d) calls d.

(** ** Sample platforms and inputs *)

Definition sample_vertex_src : string := "void main() { gl_Position = vec4(0); }".
Definition sample_fragment_src : string := "void main() { }".

(** Everything works. *)
Definition platform_ok : Env :=
  {| env_apple := false; env_window := 0x5000; env_glad := 1;
     env_vertex_status := GL_TRUE; env_vertex_log := "";
     env_fragment_status := GL_TRUE; env_fragment_log := "";
     env_link_status := GL_TRUE; env_link_log := "" |}.

(** No window can be created. *)
Definition platform_no_window : Env :=
  {| env_apple := false; env_window := nullptr; env_glad := 1;
     env_vertex_status := GL_TRUE; env_vertex_log := "";
     env_fragment_status := GL_TRUE; env_fragment_log := "";
     env_link_status := GL_TRUE; env_link_log := "" |}.

(** The GL entry points cannot be loaded. *)
Definition platform_no_loader : Env :=
  {| env_apple := false; env_window := 0x5000; env_glad := 0;
     env_vertex_status := GL_TRUE; env_vertex_log := "";
     env_fragment_status := GL_TRUE; env_fragment_log := "";
     env_link_status := GL_TRUE; env_link_log := "" |}.

(** Both shaders are rejected and the program does not link. *)
Definition platform_bad_shaders : Env :=
  {| env_apple := false; env_window := 0x5000; env_glad := 1;
     env_vertex_status := GL_FALSE;
     env_vertex_log := "0:1(1): error: syntax error";
     env_fragment_status := GL_FALSE;
     env_fragment_log := "0:2(1): error: unexpected token";
     env_link_status := GL_FALSE;
     env_link_log := "error: linking with uncompiled shader" |}.

(** A resize, then the Escape key goes down, then nothing more. *)
Definition polls_escape : list (list Event) :=
  [[FramebufferResized 1024 768];
   [KeyInput GLFW_KEY_ESCAPE GLFW_PRESS];
   []].

(** The user closes the window during the second poll. *)
Definition polls_close : list (list Event) :=
  [[]; [FramebufferResized 640 480; WindowCloseRequested]; []].

(** Case analysis on what the platform answers: the window pointer and the
    loader result are nonzero, each status is zero, positive or negative. *)
Ltac platform_cases env :=
  let apple := fresh "apple" in
  let win := fresh "win" in
  let glad := fresh "glad" in
  let vstat := fresh "vstat" in
  let fstat := fresh "fstat" in
  let lstat := fresh "lstat" in
  destruct env as [apple win glad vstat ? fstat ? lstat ?];
  cbn [env_apple env_window env_glad env_vertex_status env_fragment_status
       env_link_status env_vertex_log env_fragment_log env_link_log] in *;
  unfold nullptr in *;
  destruct win; try (exfalso; congruence);
  destruct glad; try (exfalso; congruence);
  destruct apple, vstat, fstat, lstat; try (exfalso; congruence).

(** ** Further observations, for the properties beyond the claims *)

(** A call that creates a GPU object. *)
Definition is_gpu_create (c : Call) : bool :=
  match c with
  | glCreateShader _ | glCreateProgram | glGenVertexArrays _
  | glGenBuffers _ => true
  | _ => false
  end.

(** A call that deletes a GPU object. *)
Definition is_gpu_delete (c : Call) : bool :=
  match c with
  | glDeleteShader _ | glDeleteProgram _ | glDeleteVertexArrays _ _
  | glDeleteBuffers _ _ => true
  | _ => false
  end.

Definition is_compile (c : Call) : bool :=
  match c with glCompileShader _ => true | _ => false end.

Definition is_create_window (c : Call) : bool :=
  match c with glfwCreateWindow _ _ _ => true | _ => false end.

Definition is_swap (c : Call) : bool :=
  match c with glfwSwapBuffers _ => true | _ => false end.

Definition is_poll (c : Call) : bool :=
  match c with glfwPollEvents => true | _ => false end.

(** The size carried by the last resize event of a batch, if any. *)
Fixpoint last_resize (events : list Event) : option (Z * Z) :=
  match events with
  | [] => None
  | ev :: rest =>
      match last_resize rest with
      | Some size => Some size
      | None =>
          match ev with
          | FramebufferResized width height => Some (width, height)
          | _ => None
          end
      end
  end.

Definition is_resize (ev : Event) : bool :=
  match ev with FramebufferResized _ _ => true | _ => false end.

(** An event that neither asks to close the window nor reports the Escape
    key going down. *)
Definition is_quiet (ev : Event) : bool :=
  match ev with
  | WindowCloseRequested => false
  | KeyInput GLFW_KEY_ESCAPE action => negb (action =? GLFW_PRESS)
  | FramebufferResized _ _ => true
  end.

(** The viewport a size stands for. *)
Definition viewport_of (size : Z * Z) : Z * Z * Z * Z :=
  (0, 0, fst size, snd size).

(** The calls of [src/unnamed/part_001] between two loop-head tests: the
    key check, the fixed calls, and what the resize callback issues. *)
Definition plain_key_check_calls (window : Z) (d : Driver) : list Call :=
  glfwGetKey window GLFW_KEY_ESCAPE ::
  (if escape_key (glfw d) =? GLFW_PRESS
   then [glfwSetWindowShouldClose window 1]
   else []).

Definition plain_frame_calls (window : Z) : list Call :=
  [glClearColor f32_0_2 f32_0_3 f32_0_3 f32_1_0;
   glClear GL_COLOR_BUFFER_BIT;
   glfwSwapBuffers window;
   glfwPollEvents].

Definition plain_event_calls (registered : option Z) (ev : Event)
  : list Call :=
  match ev, registered with
  | FramebufferResized width height, Some _ => [glViewport 0 0 width height]
  | _, _ => []
  end.

Definition plain_iteration_calls (window : Z) (events : list Event)
    (d : Driver) : list Call :=
  plain_key_check_calls window d ++ plain_frame_calls window ++
  flat_map (plain_event_calls (resize_callback (glfw d))) events.

(** A call that can occur in the loop of that translation unit. *)
Definition plain_loop_call (window : Z) (c : Call) : Prop :=
  In c [glfwWindowShouldClose window;
        glfwGetKey window GLFW_KEY_ESCAPE;
        glfwSetWindowShouldClose window 1] \/
  In c (plain_frame_calls window) \/
  exists width height, c = glViewport 0 0 width height.

(** The calls it issues from the window hints to the loop, when the window
    and the GL entry points are there. *)
Definition plain_startup_calls (env : Env) : list Call :=
  [glfwWindowHint GLFW_CONTEXT_VERSION_MAJOR 3;
   glfwWindowHint GLFW_CONTEXT_VERSION_MINOR 3;
   glfwWindowHint GLFW_OPENGL_PROFILE GLFW_OPENGL_CORE_PROFILE;
   glfwCreateWindow 800 600 "gl";
   glfwMakeContextCurrent (env_window env);
   gladLoadGLLoader;
   glViewport 0 0 800 600;
   glfwSetFramebufferSizeCallback (env_window env)].

(** The mock state in which [src/unnamed/part_001] reaches its loop. *)
Definition part001_loop_state (env : Env) : Driver :=
  {| glfw := {| glfw_initialized := true; window_open := true;
                should_close := 0; escape_key := GLFW_RELEASE;
                resize_callback := Some (env_window env) |};
     gl := {| viewport := (0, 0, 800, 600); next_name := 1;
              shaders := ∅; programs := ∅; vertex_arrays := ∅; buffers := ∅;
              array_buffer_binding := 0; element_array_buffer_binding := 0;
              stale_deletes := 0; entry_points_loaded := true |} |}.

(** The calls of [main] of [src/triangle.cpp] up to the window creation,
    and from there to the loader call. *)
Definition startup_calls : list Call :=
  [spdlog_info "Initializing GLFW" [];
   glfwInit;
   glfwWindowHint GLFW_CONTEXT_VERSION_MAJOR 3;
   glfwWindowHint GLFW_CONTEXT_VERSION_MINOR 3;
   glfwWindowHint GLFW_OPENGL_PROFILE GLFW_OPENGL_CORE_PROFILE;
   glfwCreateWindow 800 600 "gl"].

Definition context_calls (env : Env) : list Call :=
  (if env_apple env
   then [glfwWindowHint GLFW_OPENGL_FORWARD_COMPAT GL_TRUE] else []) ++
  [glfwMakeContextCurrent (env_window env);
   glfwSetFramebufferSizeCallback (env_window env);
   gladLoadGLLoader].

Definition is_forward_compat (c : Call) : bool :=
  match c with
  | glfwWindowHint GLFW_OPENGL_FORWARD_COMPAT _ => true
  | _ => false
  end.

(** Everything works, in a build that defines [__APPLE__]. *)
Definition platform_apple : Env :=
  {| env_apple := true; env_window := 0x5000; env_glad := 1;
     env_vertex_status := GL_TRUE; env_vertex_log := "";
     env_fragment_status := GL_TRUE; env_fragment_log := "";
     env_link_status := GL_TRUE; env_link_log := "" |}.

(** The loop of [src/unnamed/part_001] as a function of the mock state and
    of the input: the outcome, the state reached and the calls issued. *)
Fixpoint plain_loop (window : Z) (polls : list (list Event)) (d : Driver)
  : Result unit * Driver * list Call :=
  if to_bool (should_close (glfw d)) then
    (Done tt, d, [glfwWindowShouldClose window])
  else
    match polls with
    | [] => (Running, d, [glfwWindowShouldClose window])
    | events :: rest =>
        match plain_loop window rest (events_state events (key_check_state d))
        with
        | (r, d', t) =>
            (r, d',
             glfwWindowShouldClose window ::
             plain_iteration_calls window events d ++ t)
        end
    end.

(** What [src/unnamed/part_001] issues after [glfwInit] when no window can
    be created, and when the loader fails. *)
Definition plain_window_failure_calls : list Call :=
  [glfwWindowHint GLFW_CONTEXT_VERSION_MAJOR 3;
   glfwWindowHint GLFW_CONTEXT_VERSION_MINOR 3;
   glfwWindowHint GLFW_OPENGL_PROFILE GLFW_OPENGL_CORE_PROFILE;
   glfwCreateWindow 800 600 "gl";
   fmt_println "Failed to create a GLFW window. Exiting." [];
   glfwTerminate].

Definition plain_loader_failure_calls (env : Env) : list Call :=
  [glfwWindowHint GLFW_CONTEXT_VERSION_MAJOR 3;
   glfwWindowHint GLFW_CONTEXT_VERSION_MINOR 3;
   glfwWindowHint GLFW_OPENGL_PROFILE GLFW_OPENGL_CORE_PROFILE;
   glfwCreateWindow 800 600 "gl";
   glfwMakeContextCurrent (env_window env);
   gladLoadGLLoader;
   fmt_println "Failed to initialize GLAD" []].

(** The window-system state it is in when the loader has failed: the
    window is open and no callback is registered yet. *)
Definition plain_loader_failure_glfw : Glfw :=
  {| glfw_initialized := true; window_open := true; should_close := 0;
     escape_key := GLFW_RELEASE; resize_callback := None |}.

(** Evaluate a [main] whose loop is not reached. *)
Ltac run_to_exit env :=
  destruct env as [? ? ? ? ? ? ? ? ?];
  cbn [env_window env_glad] in *; unfold nullptr in *; subst;
  repeat match goal with
         | H : ?w <> 0 |- _ => destruct w; [exfalso; congruence | |]; clear H
         end;
  vm_compute; reflexivity.

(** Evaluate a [main] up to its loop and from the end of the loop on, for
    an arbitrary outcome of the loop. *)
Ltac run_around_loop env loop :=
  destruct env as [? ? ? ? ? ? ? ? ?];
  cbn [env_window env_glad] in *; unfold nullptr in *;
  repeat match goal with
         | H : ?w <> 0 |- _ => destruct w; [exfalso; congruence | |]; clear H
         end;
  match goal with
  | |- context [loop ?E] =>
      pattern (loop E); generalize (loop E);
      let L := fresh "L" in
      intros L; vm_compute;
      destruct (L _ _ _) as [[[[]| | |] ?] ?]; vm_compute; reflexivity
  end.

(** ** Basic facts about the monad and the mock *)

Lemma bind_run {A B} (m : Prog A) (k : A -> Prog B) d a d1 t1 :
  m d = (Done a, d1, t1) ->
  bind m k d =
    (result_of (k a d1), driver_of (k a d1), t1 ++ trace_of (k a d1)).
Proof.
  intros Hm. unfold bind. rewrite Hm.
  destruct (k a d1) as [[r d2] t2]. reflexivity.
Qed.

Lemma bind_exit {A B} (m : Prog A) (k : A -> Prog B) d s d1 t1 :
  m d = (Exit s, d1, t1) -> bind m k d = (Exit s, d1, t1).
Proof. intros Hm. unfold bind. rewrite Hm. reflexivity. Qed.

Lemma bind_running {A B} (m : Prog A) (k : A -> Prog B) d d1 t1 :
  m d = (Running, d1, t1) -> bind m k d = (Running, d1, t1).
Proof. intros Hm. unfold bind. rewrite Hm. reflexivity. Qed.

Lemma bind_crashed {A B} (m : Prog A) (k : A -> Prog B) d c d1 t1 :
  m d = (Crashed c, d1, t1) -> bind m k d = (Crashed c, d1, t1).
Proof. intros Hm. unfold bind. rewrite Hm. reflexivity. Qed.

Lemma outcome_eta {A} (o : Result A * Driver * list Call) :
  o = (result_of o, driver_of o, trace_of o).
Proof. destruct o as [[r d] t]. reflexivity. Qed.

Lemma to_bool_false (x : Z) : to_bool x = false <-> x = 0.
Proof.
  unfold to_bool. destruct (Z.eqb_spec x 0); simpl; split; congruence.
Qed.

(** A checked call is the plain call wherever the entry points are loaded,
    and for every call that is no [gl*] function. *)
Lemma checked_loaded {A} (p : Call -> Prog A) c d :
  entry_points_loaded (gl d) = true -> checked p c d = p c d.
Proof.
  intros Hl. unfold checked, entry_point_missing. rewrite Hl.
  rewrite andb_false_r. reflexivity.
Qed.

Lemma checked_other {A} (p : Call -> Prog A) c d :
  is_gl_call c = false -> checked p c d = p c d.
Proof.
  intros Hc. unfold checked, entry_point_missing. rewrite Hc. reflexivity.
Qed.

Lemma checked_missing {A} (p : Call -> Prog A) c d :
  is_gl_call c = true -> entry_points_loaded (gl d) = false ->
  checked p c d = (Crashed c, d, []).
Proof.
  intros Hc Hl. unfold checked, entry_point_missing. rewrite Hc, Hl.
  reflexivity.
Qed.

(** The text left in the buffer is the whole log when the log fits, and
    never fills the buffer. *)
Lemma substring_whole (m : nat) : forall s : string,
  (String.length s <= m)%nat -> String.substring 0 m s = s.
Proof.
  induction m as [|m IH]; intros [|a s] Hlen; cbn in *;
    try reflexivity; try lia.
  rewrite IH by lia. reflexivity.
Qed.

Lemma substring_short (m : nat) : forall s : string,
  (String.length (String.substring 0 m s) <= m)%nat.
Proof.
  induction m as [|m IH]; intros [|a s]; cbn; try lia.
  specialize (IH s). lia.
Qed.

Lemma info_log_text_whole (bufSize : Z) (log : string) :
  Z.of_nat (String.length log) < bufSize -> info_log_text bufSize log = log.
Proof.
  intros Hlen. unfold info_log_text. apply substring_whole. lia.
Qed.

Lemma info_log_text_short (bufSize : Z) (log : string) :
  0 < bufSize ->
  Z.of_nat (String.length (info_log_text bufSize log)) < bufSize.
Proof.
  intros Hpos. unfold info_log_text.
  pose proof (substring_short (Z.to_nat (bufSize - 1)) log). lia.
Qed.

Lemma count_app (p : Call -> bool) (t1 t2 : list Call) :
  count p (t1 ++ t2) = (count p t1 + count p t2)%nat.
Proof. unfold count. rewrite List.filter_app, length_app. reflexivity. Qed.

(** ** The event loop of src/triangle.cpp *)

Section LoopFacts.

Variable env : Env.

Lemma event_state_callback ev d :
  resize_callback (glfw (event_state ev d)) = resize_callback (glfw d).
Proof. destruct ev as [|[] a|w h]; reflexivity. Qed.

Lemma deliver_run ev d :
  deliver (Triangle.framebuffer_resize_callback env) ev d =
    (Done tt, event_state ev d, event_calls (resize_callback (glfw d)) ev).
Proof.
  destruct d as [w g].
  destruct ev as [|[] a|width height]; try reflexivity.
  unfold event_state. simpl. destruct (resize_callback w); reflexivity.
Qed.

Lemma deliver_all_run events : forall d,
  deliver_all (Triangle.framebuffer_resize_callback env) events d =
    (Done tt, events_state events d,
     flat_map (event_calls (resize_callback (glfw d))) events).
Proof.
  induction events as [|ev rest IH]; intros d; [reflexivity|].
  cbn [deliver_all]. rewrite (bind_run _ _ _ _ _ _ (deliver_run ev d)).
  rewrite IH. unfold result_of, driver_of, trace_of. cbn [fst snd].
  rewrite event_state_callback. reflexivity.
Qed.

Lemma loop_body_run l events d :
  Triangle.loop_body env l events d =
    (Done tt, events_state events (key_check_state d),
     key_check_calls (Triangle.window l) d ++ frame_calls l ++
     flat_map (event_calls (resize_callback (glfw d))) events).
Proof.
  destruct d as [w g].
  unfold Triangle.loop_body, Triangle.escape_key_pressed_callback,
    poll_events, key_check_calls, key_check_state, key_check_glfw.
  unfold bind at 1. unfold bind at 1. cbn [ask answer glfw escape_key].
  destruct (escape_key w =? GLFW_PRESS) eqn:Hkey; cbn -[deliver_all];
    rewrite deliver_all_run; cbn; reflexivity.
Qed.

End LoopFacts.

Section RenderLoop.

Variable env : Env.
Variable l : Triangle.Locals.

Lemma render_loop_closed polls d :
  to_bool (should_close (glfw d)) = true ->
  Triangle.render_loop env l polls d =
    (Done tt, d, [glfwWindowShouldClose (Triangle.window l)]).
Proof.
  intros Hflag. destruct d as [w g]. simpl in Hflag.
  destruct polls; cbn; rewrite Hflag; reflexivity.
Qed.

Lemma render_loop_unobserved d :
  should_close (glfw d) = 0 ->
  Triangle.render_loop env l [] d =
    (Running, d, [glfwWindowShouldClose (Triangle.window l)]).
Proof.
  intros Hflag. destruct d as [w g]. simpl in Hflag.
  cbn. rewrite Hflag. reflexivity.
Qed.

Lemma render_loop_iteration events rest d :
  should_close (glfw d) = 0 ->
  let next :=
    Triangle.render_loop env l rest (events_state events (key_check_state d))
  in
  Triangle.render_loop env l (events :: rest) d =
    (result_of next, driver_of next,
     glfwWindowShouldClose (Triangle.window l) ::
     (key_check_calls (Triangle.window l) d ++ frame_calls l ++
      flat_map (event_calls (resize_callback (glfw d))) events) ++
     trace_of next).
Proof.
  intros Hflag next. destruct d as [w g]. simpl in Hflag.
  cbn [Triangle.render_loop]. unfold bind at 1.
  cbn [ask answer glfw exec exec_glfw exec_gl gl]. rewrite Hflag.
  cbn [to_bool Z.eqb negb].
  rewrite (bind_run _ _ _ _ _ _ (loop_body_run env l events _)).
  reflexivity.
Qed.

(** The function follows the relation: every run of [render_loop] is a
    [loop_run], and its trace is the iterations between loop-head tests. *)
Lemma render_loop_sound polls : forall d,
  exists iterations,
    loop_run l polls d
      (result_of (Triangle.render_loop env l polls d))
      (driver_of (Triangle.render_loop env l polls d)) iterations /\
    trace_of (Triangle.render_loop env l polls d) =
      loop_calls (Triangle.window l) iterations.
Proof.
  induction polls as [|events rest IH]; intros d.
  - destruct (to_bool (should_close (glfw d))) eqn:Hflag.
    + exists []. rewrite (render_loop_closed _ _ Hflag).
      split; [constructor; exact Hflag | reflexivity].
    + apply to_bool_false in Hflag. exists [].
      rewrite (render_loop_unobserved _ Hflag).
      split; [constructor; exact Hflag | reflexivity].
  - destruct (to_bool (should_close (glfw d))) eqn:Hflag.
    + exists []. rewrite (render_loop_closed _ _ Hflag).
      split; [constructor; exact Hflag | reflexivity].
    + apply to_bool_false in Hflag.
      destruct (IH (events_state events (key_check_state d)))
        as (iterations & Hrun & Htrace).
      eexists. rewrite (render_loop_iteration _ _ _ Hflag).
      unfold result_of, driver_of, trace_of in *. cbn [fst snd].
      split; [econstructor; eassumption|].
      rewrite Htrace. unfold loop_calls. cbn [flat_map app].
      rewrite <- !app_assoc. reflexivity.
Qed.

End RenderLoop.

(** ** What an iteration can and cannot change *)

Lemma only_viewport_refl g : only_viewport g g.
Proof. destruct g; reflexivity. Qed.

Lemma only_viewport_trans g1 g2 g3 :
  only_viewport g1 g2 -> only_viewport g2 g3 -> only_viewport g1 g3.
Proof.
  unfold only_viewport. intros H12 H23. rewrite H23 at 1. rewrite H12.
  reflexivity.
Qed.

Lemma only_input_refl w : only_input w w.
Proof. destruct w; reflexivity. Qed.

Lemma only_input_trans w1 w2 w3 :
  only_input w1 w2 -> only_input w2 w3 -> only_input w1 w3.
Proof.
  unfold only_input. intros H12 H23. rewrite H23 at 1. rewrite H12.
  reflexivity.
Qed.

Lemma event_gl_only_viewport registered ev g :
  only_viewport g (event_gl registered ev g).
Proof.
  destruct ev as [|[] a|w h]; try apply only_viewport_refl.
  destruct registered; [reflexivity | apply only_viewport_refl].
Qed.

Lemma event_glfw_only_input ev w : only_input w (event_glfw ev w).
Proof.
  destruct ev as [|[] a|width height]; try apply only_input_refl;
    destruct w; reflexivity.
Qed.

Lemma key_check_only_input w : only_input w (key_check_glfw w).
Proof.
  unfold key_check_glfw. destruct (escape_key w =? GLFW_PRESS);
    [destruct w; reflexivity | apply only_input_refl].
Qed.

Lemma event_glfw_monotone ev w :
  to_bool (should_close w) = true ->
  to_bool (should_close (event_glfw ev w)) = true.
Proof. destruct ev as [|[] a|width height]; intros H; auto. Qed.

Lemma events_state_gl events : forall d,
  only_viewport (gl d) (gl (events_state events d)).
Proof.
  induction events as [|ev rest IH]; intros d; [apply only_viewport_refl|].
  unfold events_state in *. cbn [fold_left].
  eapply only_viewport_trans; [|apply IH].
  apply event_gl_only_viewport.
Qed.

Lemma events_state_glfw events : forall d,
  only_input (glfw d) (glfw (events_state events d)).
Proof.
  induction events as [|ev rest IH]; intros d; [apply only_input_refl|].
  unfold events_state in *. cbn [fold_left].
  eapply only_input_trans; [|apply IH].
  apply event_glfw_only_input.
Qed.

Lemma events_state_monotone events : forall d,
  to_bool (should_close (glfw d)) = true ->
  to_bool (should_close (glfw (events_state events d))) = true.
Proof.
  induction events as [|ev rest IH]; intros d H; [exact H|].
  unfold events_state in *. cbn [fold_left]. apply IH.
  apply event_glfw_monotone. exact H.
Qed.

Lemma events_state_close_request events : forall d,
  In WindowCloseRequested events ->
  to_bool (should_close (glfw (events_state events d))) = true.
Proof.
  induction events as [|ev rest IH]; intros d Hin; [destruct Hin|].
  unfold events_state in *. cbn [fold_left].
  destruct Hin as [-> | Hin]; [|apply IH; exact Hin].
  apply (events_state_monotone rest). reflexivity.
Qed.

Lemma key_check_monotone w :
  to_bool (should_close w) = true ->
  to_bool (should_close (key_check_glfw w)) = true.
Proof.
  unfold key_check_glfw. destruct (escape_key w =? GLFW_PRESS); auto.
Qed.

Lemma key_check_pressed w :
  escape_key w = GLFW_PRESS ->
  to_bool (should_close (key_check_glfw w)) = true.
Proof. unfold key_check_glfw. intros ->. reflexivity. Qed.

(** Events reach the window system the same way whatever the GPU state is. *)
Lemma events_state_glfw_eq events : forall d1 d2,
  glfw d1 = glfw d2 ->
  glfw (events_state events d1) = glfw (events_state events d2).
Proof.
  induction events as [|ev rest IH]; intros d1 d2 H; [exact H|].
  unfold events_state in *. cbn [fold_left]. apply IH.
  cbn. rewrite H. reflexivity.
Qed.

(** ** Properties of loop runs, by induction on [loop_run] *)

Section LoopRuns.

Variable l : Triangle.Locals.

Lemma key_check_calls_shape d :
  close_check (Triangle.window l) (key_check_calls (Triangle.window l) d).
Proof.
  unfold key_check_calls, close_check.
  destruct (escape_key (glfw d) =? GLFW_PRESS); auto.
Qed.

Lemma event_calls_shape registered events :
  resize_callbacks (flat_map (event_calls registered) events).
Proof.
  induction events as [|ev rest [sizes IH]]; [exists []; reflexivity|].
  cbn [flat_map]. rewrite IH.
  destruct ev as [|[] a|w h]; try (exists sizes; reflexivity).
  destruct registered; [|exists sizes; reflexivity].
  exists ((w, h) :: sizes). reflexivity.
Qed.

Lemma loop_run_shapes polls d r d' iterations :
  loop_run l polls d r d' iterations ->
  Forall (iteration_shape l) iterations.
Proof.
  induction 1; constructor; auto.
  eexists _, _. split; [reflexivity|].
  split; [apply key_check_calls_shape | apply event_calls_shape].
Qed.

Lemma loop_run_length polls d r d' iterations :
  loop_run l polls d r d' iterations ->
  (length iterations <= length polls)%nat.
Proof. induction 1; simpl; lia. Qed.

Lemma loop_run_state polls d r d' iterations :
  loop_run l polls d r d' iterations ->
  only_viewport (gl d) (gl d') /\ only_input (glfw d) (glfw d').
Proof.
  induction 1 as [| |events rest d r d' its Hflag Hrun [IHg IHw]];
    try (split; [apply only_viewport_refl | apply only_input_refl]).
  split.
  - eapply only_viewport_trans; [|exact IHg].
    apply (events_state_gl events (key_check_state d)).
  - eapply only_input_trans; [|exact IHw].
    eapply only_input_trans;
      [|apply (events_state_glfw events (key_check_state d))].
    apply key_check_only_input.
Qed.

Lemma loop_run_result polls d r d' iterations :
  loop_run l polls d r d' iterations ->
  (r = Done tt /\ to_bool (should_close (glfw d')) = true) \/
  (r = Running /\ should_close (glfw d') = 0).
Proof. induction 1; auto. Qed.

(** The loop reads nothing of the GPU state: two runs from states with the
    same window-system state go through the same iterations. *)
Lemma loop_run_glfw_only polls d1 r1 d1' its1 :
  loop_run l polls d1 r1 d1' its1 ->
  forall d2 r2 d2' its2,
    glfw d1 = glfw d2 ->
    loop_run l polls d2 r2 d2' its2 ->
    r1 = r2 /\ its1 = its2 /\ glfw d1' = glfw d2'.
Proof.
  induction 1 as [polls d1 Hflag|d1 Hflag
                 |events rest d1 r1 d1' its1 Hflag Hrun IH];
    intros d2 r2 d2' its2 Heq Hrun2.
  - rewrite Heq in Hflag.
    inversion Hrun2; subst; auto;
      match goal with
      | H : should_close _ = 0 |- _ => rewrite H in Hflag; discriminate
      end.
  - rewrite Heq in Hflag.
    inversion Hrun2; subst; auto.
    match goal with
    | H : to_bool _ = true |- _ => rewrite Hflag in H; discriminate
    end.
  - inversion Hrun2; subst.
    + rewrite <- Heq in *.
      match goal with
      | H : to_bool _ = true |- _ => rewrite Hflag in H; discriminate
      end.
    + match goal with
      | H : loop_run _ rest _ r2 d2' _ |- _ =>
          destruct (IH _ _ _ _ (events_state_glfw_eq events
                      (key_check_state d1) (key_check_state d2)
                      ltac:(cbn; rewrite Heq; reflexivity)) H)
            as (-> & -> & Hw)
      end.
      unfold key_check_calls. rewrite Heq. auto.
Qed.

End LoopRuns.

(** ** Setup of src/triangle.cpp *)

Section Setup.

Variables vs fs : string.

(** One evaluation of [setup] per shape of the platform's answers. *)
Lemma setup_full env :
  env_window env <> nullptr -> env_glad env <> 0 ->
  Triangle.setup vs fs env boot =
    (Done (locals env), setup_state env, setup_calls vs fs env).
Proof.
  intros Hw Hg. platform_cases env; vm_compute; reflexivity.
Qed.

Lemma setup_run env :
  env_window env <> nullptr -> env_glad env <> 0 ->
  result_of (Triangle.setup vs fs env boot) = Done (locals env) /\
  driver_of (Triangle.setup vs fs env boot) = setup_state env.
Proof. intros Hw Hg. rewrite (setup_full env Hw Hg). auto. Qed.

Lemma setup_calls_soft env :
  List.filter (fun c => negb (is_diagnostic c)) (setup_calls vs fs env) =
  setup_calls vs fs (succeed env).
Proof.
  unfold setup_calls, diagnostic. cbn [succeed env_apple env_window
    env_vertex_status env_fragment_status env_link_status env_vertex_log
    env_fragment_log env_link_log].
  destruct (env_apple env), (to_bool (env_vertex_status env)),
    (to_bool (env_fragment_status env)), (to_bool (env_link_status env));
    reflexivity.
Qed.

Lemma setup_calls_uploads env :
  List.filter is_buffer_write (setup_calls vs fs env) =
    [glBufferData GL_ARRAY_BUFFER 36 (bytes_of_words Triangle.vertices)
       GL_STATIC_DRAW;
     glBufferData GL_ELEMENT_ARRAY_BUFFER 12
       (bytes_of_words Triangle.indices) GL_STATIC_DRAW].
Proof.
  unfold setup_calls, diagnostic.
  destruct (env_apple env), (to_bool (env_vertex_status env)),
    (to_bool (env_fragment_status env)), (to_bool (env_link_status env));
    reflexivity.
Qed.

Lemma setup_calls_quiet env :
  count is_release (setup_calls vs fs env) = 0%nat /\
  count is_set_close (setup_calls vs fs env) = 0%nat /\
  count is_should_close (setup_calls vs fs env) = 0%nat.
Proof.
  unfold setup_calls, diagnostic.
  destruct (env_apple env), (to_bool (env_vertex_status env)),
    (to_bool (env_fragment_status env)), (to_bool (env_link_status env));
    auto.
Qed.

Lemma diagnostic_logged status get_log fmt log :
  status = 0 ->
  In (spdlog_error fmt [ArgText log]) (diagnostic status get_log fmt log).
Proof. intros ->. right. left. reflexivity. Qed.

Lemma setup_calls_vertex_diagnostic env :
  env_vertex_status env = 0 ->
  In (spdlog_error "Vertex shader compilation failed: {}"
        [ArgText (info_log_text 512 (env_vertex_log env))])
     (setup_calls vs fs env).
Proof.
  intros Hs. unfold setup_calls.
  do 3 (apply in_or_app; right). apply in_or_app; left.
  apply diagnostic_logged. exact Hs.
Qed.

Lemma setup_calls_fragment_diagnostic env :
  env_fragment_status env = 0 ->
  In (spdlog_error "Fragment shader compilation failed: {}"
        [ArgText (info_log_text 512 (env_fragment_log env))])
     (setup_calls vs fs env).
Proof.
  intros Hs. unfold setup_calls.
  do 5 (apply in_or_app; right). apply in_or_app; left.
  apply diagnostic_logged. exact Hs.
Qed.

Lemma setup_calls_link_diagnostic env :
  env_link_status env = 0 ->
  In (spdlog_error "Shader program compilation failed: {}"
        [ArgText (info_log_text 512 (env_link_log env))])
     (setup_calls vs fs env).
Proof.
  intros Hs. unfold setup_calls.
  do 7 (apply in_or_app; right). apply in_or_app; left.
  apply diagnostic_logged. exact Hs.
Qed.

End Setup.

(** ** Teardown and the whole of [main] *)

Lemma replay_gl env calls : forall d,
  gl (replay env calls d) = fold_left (fun g c => exec_gl env c g) calls (gl d).
Proof.
  induction calls as [|c rest IH]; intros d; [reflexivity|].
  unfold replay in *. cbn [fold_left]. rewrite IH. reflexivity.
Qed.

Lemma replay_glfw env calls : forall d,
  glfw (replay env calls d) =
    fold_left (fun w c => exec_glfw env c w) calls (glfw d).
Proof.
  induction calls as [|c rest IH]; intros d; [reflexivity|].
  unfold replay in *. cbn [fold_left]. rewrite IH. reflexivity.
Qed.

Lemma teardown_run env l d :
  Triangle.teardown env l d =
    (Exit 0, replay env (teardown_calls l) d, teardown_calls l).
Proof. reflexivity. Qed.

Section Main.

Variables vs fs : string.
Variable env : Env.
Hypothesis window_created : env_window env <> nullptr.
Hypothesis loader_ok : env_glad env <> 0.

Lemma main_run polls :
  let loop :=
    Triangle.render_loop env (locals env) polls (setup_state env) in
  Triangle.main vs fs env polls boot =
    match result_of loop with
    | Done _ =>
        (Exit 0, replay env (teardown_calls (locals env)) (driver_of loop),
         setup_calls vs fs env ++ trace_of loop ++
         teardown_calls (locals env))
    | Exit s =>
        (Exit s, driver_of loop,
         setup_calls vs fs env ++ trace_of loop)
    | Running =>
        (Running, driver_of loop,
         setup_calls vs fs env ++ trace_of loop)
    | Crashed c =>
        (Crashed c, driver_of loop,
         setup_calls vs fs env ++ trace_of loop)
    end.
Proof.
  intros loop. unfold Triangle.main.
  rewrite (bind_run _ _ _ _ _ _
             (setup_full vs fs env window_created loader_ok)).
  subst loop.
  destruct (Triangle.render_loop env (locals env) polls (setup_state env))
    as [[r d] t] eqn:Hloop.
  destruct r as [[]|s| |c].
  - rewrite (bind_run _ _ _ _ _ _ Hloop), teardown_run. reflexivity.
  - rewrite (bind_exit _ _ _ _ _ _ Hloop). reflexivity.
  - rewrite (bind_running _ _ _ _ _ Hloop). reflexivity.
  - rewrite (bind_crashed _ _ _ _ _ _ Hloop). reflexivity.
Qed.

End Main.

(** ** Calls of a given kind inside an iteration *)

Lemma filter_resize_callbacks (p : Call -> bool) t :
  (forall w h, List.filter p (resize_calls w h) = []) ->
  resize_callbacks t -> List.filter p t = [].
Proof.
  intros Hp [sizes ->].
  induction sizes as [|s rest IH]; [reflexivity|].
  cbn [flat_map]. rewrite List.filter_app, Hp, IH. reflexivity.
Qed.

Lemma iteration_draws l t :
  iteration_shape l t ->
  List.filter is_draw t = [glDrawElements GL_TRIANGLES 3 GL_UNSIGNED_INT 0].
Proof.
  intros (check & callbacks & -> & Hcheck & Hcb).
  rewrite !List.filter_app.
  rewrite (filter_resize_callbacks is_draw callbacks); [|reflexivity|exact Hcb].
  destruct Hcheck as [-> | ->]; reflexivity.
Qed.

(** ** The claims *)

(** C1.  Every iteration of the render loop of [main], that is every pass
    entered with the close flag unset, issues after the loop-head test: the
    Escape-key query (with the log line and the flag-setting call when the key
    is down), then [glClearColor] with the fixed colour and [glClear] of the
    colour buffer, [glUseProgram] and [glBindVertexArray] of the program and
    vertex array made by setup, one [glDrawElements GL_TRIANGLES 3
    GL_UNSIGNED_INT 0], [glBindVertexArray 0], [glfwSwapBuffers] and
    [glfwPollEvents], followed only by what the resize callback issues for the
    events that poll delivers.  The trace of [main] is the trace of setup,
    these iterations each behind its loop-head test, the test that ends the
    loop, and then either nothing (the observation stopped) or the teardown
    calls. *)
Theorem render_loop_iteration_sequence vs fs env polls :
  env_window env <> nullptr -> env_glad env <> 0 ->
  exists iterations after r d',
    loop_run (locals env) polls (setup_state env) r d' iterations /\
    trace_of (Triangle.main vs fs env polls boot) =
      setup_calls vs fs env ++
      loop_calls (env_window env) iterations ++ after /\
    (after = [] \/ after = teardown_calls (locals env)) /\
    (length iterations <= length polls)%nat /\
    Forall (fun t =>
              iteration_shape (locals env) t /\
              List.filter is_draw t =
                [glDrawElements GL_TRIANGLES 3 GL_UNSIGNED_INT 0])
           iterations.
Proof.
  intros Hw Hg.
  destruct (render_loop_sound env (locals env) polls (setup_state env))
    as (iterations & Hrun & Htrace).
  pose proof (loop_run_shapes _ _ _ _ _ _ Hrun) as Hshapes.
  pose proof (loop_run_length _ _ _ _ _ _ Hrun) as Hlen.
  pose proof (main_run vs fs env Hw Hg polls) as Hmain. cbv zeta in Hmain.
  assert (Hall : Forall (fun t =>
            iteration_shape (locals env) t /\
            List.filter is_draw t =
              [glDrawElements GL_TRIANGLES 3 GL_UNSIGNED_INT 0]) iterations).
  { eapply List.Forall_impl; [|exact Hshapes].
    intros t Ht. split; [exact Ht | eapply iteration_draws; exact Ht]. }
  destruct (result_of (Triangle.render_loop env (locals env) polls
                         (setup_state env))) as [[]|s| |c] eqn:Hres.
  - exists iterations, (teardown_calls (locals env)). do 2 eexists.
    split; [exact Hrun|]. rewrite Hmain. cbn [trace_of snd].
    fold (trace_of (Triangle.render_loop env (locals env) polls
                      (setup_state env))).
    rewrite Htrace. auto.
  - exists iterations, []. do 2 eexists.
    split; [exact Hrun|]. rewrite Hmain. cbn [trace_of snd].
    fold (trace_of (Triangle.render_loop env (locals env) polls
                      (setup_state env))).
    rewrite Htrace, app_nil_r. auto.
  - exists iterations, []. do 2 eexists.
    split; [exact Hrun|]. rewrite Hmain. cbn [trace_of snd].
    fold (trace_of (Triangle.render_loop env (locals env) polls
                      (setup_state env))).
    rewrite Htrace, app_nil_r. auto.
  - exists iterations, []. do 2 eexists.
    split; [exact Hrun|]. rewrite Hmain. cbn [trace_of snd].
    fold (trace_of (Triangle.render_loop env (locals env) polls
                      (setup_state env))).
    rewrite Htrace, app_nil_r. auto.
Qed.

Lemma render_loop_iteration_sequence_witness :
  env_window platform_ok <> nullptr /\ env_glad platform_ok <> 0 /\
  exists iterations after r d',
    loop_run (locals platform_ok) polls_escape (setup_state platform_ok) r d'
      iterations /\
    trace_of (Triangle.main sample_vertex_src sample_fragment_src platform_ok
                polls_escape boot) =
      setup_calls sample_vertex_src sample_fragment_src platform_ok ++
      loop_calls (env_window platform_ok) iterations ++ after /\
    (after = [] \/ after = teardown_calls (locals platform_ok)) /\
    (length iterations <= length polls_escape)%nat /\
    Forall (fun t =>
              iteration_shape (locals platform_ok) t /\
              List.filter is_draw t =
                [glDrawElements GL_TRIANGLES 3 GL_UNSIGNED_INT 0])
           iterations.
Proof.
  split; [vm_compute; discriminate|].
  split; [vm_compute; discriminate|].
  apply (render_loop_iteration_sequence sample_vertex_src sample_fragment_src
           platform_ok polls_escape); vm_compute; discriminate.
Defined.

(** The run of [main] when no window can be created. *)
Lemma window_creation_failure_run vs fs env polls :
  env_window env = nullptr ->
  Triangle.main vs fs env polls boot =
    (Exit (-1), boot,
     [spdlog_info "Initializing GLFW" [];
      glfwInit;
      glfwWindowHint GLFW_CONTEXT_VERSION_MAJOR 3;
      glfwWindowHint GLFW_CONTEXT_VERSION_MINOR 3;
      glfwWindowHint GLFW_OPENGL_PROFILE GLFW_OPENGL_CORE_PROFILE;
      glfwCreateWindow 800 600 "gl";
      spdlog_error "Failed to create a GLFW window. Exiting." [];
      glfwTerminate]).
Proof.
  intros Hw. destruct env as [apple win glad vstat ? fstat ? lstat ?].
  cbn [env_window] in Hw. subst win. vm_compute. reflexivity.
Qed.

(** C2.  When [glfwCreateWindow] returns [nullptr], [main] logs the error,
    calls [glfwTerminate] and returns -1: its whole trace is the start-up
    calls, the error line and the terminate call, whatever input is waiting,
    and the mock ends as it started, with the window system shut down and no
    GPU object made. *)
Theorem window_creation_failure vs fs env polls :
  env_window env = nullptr ->
  Triangle.main vs fs env polls boot =
    (Exit (-1), boot,
     [spdlog_info "Initializing GLFW" [];
      glfwInit;
      glfwWindowHint GLFW_CONTEXT_VERSION_MAJOR 3;
      glfwWindowHint GLFW_CONTEXT_VERSION_MINOR 3;
      glfwWindowHint GLFW_OPENGL_PROFILE GLFW_OPENGL_CORE_PROFILE;
      glfwCreateWindow 800 600 "gl";
      spdlog_error "Failed to create a GLFW window. Exiting." [];
      glfwTerminate]).
Proof. apply window_creation_failure_run. Qed.

Lemma window_creation_failure_witness :
  env_window platform_no_window = nullptr /\
  Triangle.main sample_vertex_src sample_fragment_src platform_no_window
    polls_close boot =
    (Exit (-1), boot,
     [spdlog_info "Initializing GLFW" [];
      glfwInit;
      glfwWindowHint GLFW_CONTEXT_VERSION_MAJOR 3;
      glfwWindowHint GLFW_CONTEXT_VERSION_MINOR 3;
      glfwWindowHint GLFW_OPENGL_PROFILE GLFW_OPENGL_CORE_PROFILE;
      glfwCreateWindow 800 600 "gl";
      spdlog_error "Failed to create a GLFW window. Exiting." [];
      glfwTerminate]).
Proof.
  split; [reflexivity|].
  apply (window_creation_failure sample_vertex_src sample_fragment_src
           platform_no_window polls_close).
  reflexivity.
Defined.

(** The calls of [main] up to and including the loader call, on a platform
    that does create the window. *)
Lemma loader_prefix vs fs env polls :
  env_window env <> nullptr -> env_glad env = 0 ->
  Triangle.main vs fs env polls boot =
    (Exit (-1),
     {| glfw := {| glfw_initialized := true; window_open := true;
                   should_close := 0; escape_key := GLFW_RELEASE;
                   resize_callback := Some (env_window env) |};
        gl := gl boot |},
     [spdlog_info "Initializing GLFW" [];
      glfwInit;
      glfwWindowHint GLFW_CONTEXT_VERSION_MAJOR 3;
      glfwWindowHint GLFW_CONTEXT_VERSION_MINOR 3;
      glfwWindowHint GLFW_OPENGL_PROFILE GLFW_OPENGL_CORE_PROFILE;
      glfwCreateWindow 800 600 "gl"] ++
     (if env_apple env
      then [glfwWindowHint GLFW_OPENGL_FORWARD_COMPAT GL_TRUE] else []) ++
     [glfwMakeContextCurrent (env_window env);
      glfwSetFramebufferSizeCallback (env_window env);
      gladLoadGLLoader;
      spdlog_error "Failed to initialize GLAD" []]).
Proof.
  intros Hw Hg. destruct env as [apple win glad vstat ? fstat ? lstat ?].
  cbn [env_window env_glad env_apple] in *. subst glad. unfold nullptr in Hw.
  destruct win; try congruence; destruct apple; vm_compute; reflexivity.
Qed.

(** C9.  When [gladLoadGLLoader] returns 0 (the window having been created),
    [main] logs "Failed to initialize GLAD" and returns -1 at once: the error
    line is the last call of the run, whatever input is waiting, no GPU call
    has been made, and none of the teardown calls ([glDeleteVertexArrays],
    [glDeleteBuffers], [glDeleteProgram], [glfwTerminate]) occurs. *)
Theorem loader_failure_exits vs fs env polls :
  env_window env <> nullptr -> env_glad env = 0 ->
  result_of (Triangle.main vs fs env polls boot) = Exit (-1) /\
  trace_of (Triangle.main vs fs env polls boot) =
    [spdlog_info "Initializing GLFW" [];
     glfwInit;
     glfwWindowHint GLFW_CONTEXT_VERSION_MAJOR 3;
     glfwWindowHint GLFW_CONTEXT_VERSION_MINOR 3;
     glfwWindowHint GLFW_OPENGL_PROFILE GLFW_OPENGL_CORE_PROFILE;
     glfwCreateWindow 800 600 "gl"] ++
    (if env_apple env
     then [glfwWindowHint GLFW_OPENGL_FORWARD_COMPAT GL_TRUE] else []) ++
    [glfwMakeContextCurrent (env_window env);
     glfwSetFramebufferSizeCallback (env_window env);
     gladLoadGLLoader;
     spdlog_error "Failed to initialize GLAD" []] /\
  count is_release (trace_of (Triangle.main vs fs env polls boot)) = 0%nat.
Proof.
  intros Hw Hg. rewrite (loader_prefix vs fs env polls Hw Hg).
  split; [reflexivity|]. split; [reflexivity|].
  cbn [trace_of snd]. destruct (env_apple env); reflexivity.
Qed.

Lemma loader_failure_exits_witness :
  env_window platform_no_loader <> nullptr /\
  env_glad platform_no_loader = 0 /\
  result_of (Triangle.main sample_vertex_src sample_fragment_src
               platform_no_loader polls_close boot) = Exit (-1) /\
  count is_release
    (trace_of (Triangle.main sample_vertex_src sample_fragment_src
                 platform_no_loader polls_close boot)) = 0%nat.
Proof.
  split; [vm_compute; discriminate|]. split; [reflexivity|].
  pose proof (loader_failure_exits sample_vertex_src sample_fragment_src
                platform_no_loader polls_close) as H.
  destruct H as (Hres & _ & Hrel);
    [vm_compute; discriminate | reflexivity |].
  split; [exact Hres | exact Hrel].
Defined.

(** C10.  On the loader-failure path [main] returns -1 without ever calling
    [glfwTerminate]: when it returns, the window system is still initialized
    and the window still open.  The window-creation-failure path does call
    [glfwTerminate] before it returns and leaves the window system shut
    down. *)
Theorem loader_failure_leaves_window vs fs env polls :
  env_window env <> nullptr -> env_glad env = 0 ->
  (~ In glfwTerminate (trace_of (Triangle.main vs fs env polls boot)) /\
   glfw_initialized (glfw (driver_of (Triangle.main vs fs env polls boot)))
     = true /\
   window_open (glfw (driver_of (Triangle.main vs fs env polls boot)))
     = true) /\
  (forall env',
     env_window env' = nullptr ->
     In glfwTerminate (trace_of (Triangle.main vs fs env' polls boot)) /\
     glfw_initialized (glfw (driver_of (Triangle.main vs fs env' polls boot)))
       = false).
Proof.
  intros Hw Hg. split.
  - rewrite (loader_prefix vs fs env polls Hw Hg).
    cbn [trace_of driver_of fst snd glfw glfw_initialized window_open].
    split; [|split; reflexivity].
    destruct (env_apple env); cbn; intuition discriminate.
  - intros env' Hw'. rewrite (window_creation_failure_run vs fs env' polls Hw').
    cbn. intuition.
Qed.

Lemma loader_failure_leaves_window_witness :
  env_window platform_no_loader <> nullptr /\
  env_glad platform_no_loader = 0 /\
  ~ In glfwTerminate
      (trace_of (Triangle.main sample_vertex_src sample_fragment_src
                   platform_no_loader polls_close boot)) /\
  window_open
    (glfw (driver_of (Triangle.main sample_vertex_src sample_fragment_src
                        platform_no_loader polls_close boot))) = true.
Proof.
  split; [vm_compute; discriminate|]. split; [reflexivity|].
  pose proof (loader_failure_leaves_window sample_vertex_src
                sample_fragment_src platform_no_loader polls_close) as H.
  destruct H as ((Hno & _ & Hopen) & _);
    [vm_compute; discriminate | reflexivity |].
  split; [exact Hno | exact Hopen].
Defined.

(** ** The two ways a run of [main] past setup can be observed to end *)

Lemma main_cases vs fs env polls :
  env_window env <> nullptr -> env_glad env <> 0 ->
  exists iterations r d',
    loop_run (locals env) polls (setup_state env) r d' iterations /\
    ((r = Done tt /\
      to_bool (should_close (glfw d')) = true /\
      Triangle.main vs fs env polls boot =
        (Exit 0, replay env (teardown_calls (locals env)) d',
         setup_calls vs fs env ++
         loop_calls (env_window env) iterations ++
         teardown_calls (locals env))) \/
     (r = Running /\
      should_close (glfw d') = 0 /\
      Triangle.main vs fs env polls boot =
        (Running, d',
         setup_calls vs fs env ++
         loop_calls (env_window env) iterations))).
Proof.
  intros Hw Hg.
  destruct (render_loop_sound env (locals env) polls (setup_state env))
    as (iterations & Hrun & Htrace).
  pose proof (main_run vs fs env Hw Hg polls) as Hmain. cbv zeta in Hmain.
  rewrite Htrace in Hmain. cbn [locals Triangle.window] in Hmain.
  exists iterations. do 2 eexists. split; [exact Hrun|].
  destruct (loop_run_result _ _ _ _ _ _ Hrun) as [[Hr Hflag] | [Hr Hflag]];
    rewrite Hr in Hmain; [left | right]; auto.
Qed.

(** ** Every call of the loop is of a known kind *)

Lemma filter_all (p : Call -> bool) t :
  Forall (fun c => p c = true) t -> List.filter p t = t.
Proof.
  induction 1 as [|c rest Hc _ IH]; [reflexivity|].
  cbn [List.filter]. rewrite Hc, IH. reflexivity.
Qed.

Lemma iteration_loop_calls l t :
  iteration_shape l t -> Forall (loop_call l) t.
Proof.
  intros (check & callbacks & -> & Hcheck & [sizes ->]).
  apply Forall_app. split; [|apply Forall_app; split].
  - apply List.Forall_forall. intros c Hc. left.
    destruct Hcheck as [-> | ->]; cbn in *; intuition.
  - apply List.Forall_forall. intros c Hc. right. left. exact Hc.
  - apply List.Forall_forall. intros c Hc. right. right.
    apply in_flat_map in Hc. destruct Hc as ([w h] & _ & Hc). eauto.
Qed.

Lemma loop_calls_forall (P : Call -> Prop) l iterations :
  P (glfwWindowShouldClose (Triangle.window l)) ->
  (forall c, loop_call l c -> P c) ->
  Forall (iteration_shape l) iterations ->
  Forall P (loop_calls (Triangle.window l) iterations).
Proof.
  intros Hhead Hcall Hshapes. unfold loop_calls.
  apply Forall_app. split; [|repeat constructor; exact Hhead].
  induction Hshapes as [|t rest Ht _ IH]; [constructor|].
  cbn [flat_map]. constructor; [exact Hhead|].
  apply Forall_app. split; [|exact IH].
  eapply List.Forall_impl; [exact Hcall|].
  apply iteration_loop_calls. exact Ht.
Qed.

Lemma loop_call_plain l c : loop_call l c -> is_diagnostic c = false.
Proof.
  intros [H | [H | (w & h & H)]]; cbn in H;
    repeat (destruct H as [<- | H]; [reflexivity|]); destruct H.
Qed.

Lemma loop_call_set_close l c :
  loop_call l c -> is_set_close c = true ->
  c = glfwSetWindowShouldClose (Triangle.window l) 1.
Proof.
  intros [H | [H | (w & h & H)]] Hset; cbn in H;
    repeat (destruct H as [<- | H];
            [first [reflexivity | discriminate Hset]|]);
    destruct H.
Qed.


Lemma loop_calls_plain l iterations :
  Forall (iteration_shape l) iterations ->
  List.filter (fun c => negb (is_diagnostic c))
    (loop_calls (Triangle.window l) iterations) =
  loop_calls (Triangle.window l) iterations.
Proof.
  intros Hshapes. apply filter_all.
  apply loop_calls_forall; [reflexivity | | exact Hshapes].
  intros c Hc. rewrite (loop_call_plain l c Hc). reflexivity.
Qed.

(** C3.  On a platform that gives [main] its window and its GL entry points,
    whatever the three statuses are: setup runs to its end and the loop-head
    test is reached; [main] does not return -1 and ends exactly as it does
    when all three statuses report success; its trace, once the info-log
    queries and error lines are taken out, is call for call the trace of that
    successful run; and for each status that is 0 the error line is in the
    trace, carrying the text the driver wrote into the 512 characters of
    [info_log].  That text is the driver's log cut to the 511 characters the
    buffer has room for beside the terminating NUL: it is always shorter
    than 512 characters, and it is the whole log whenever the log is. *)
Theorem shader_failure_is_soft vs fs env polls :
  env_window env <> nullptr -> env_glad env <> 0 ->
  let bad := Triangle.main vs fs env polls boot in
  let good := Triangle.main vs fs (succeed env) polls boot in
  result_of (Triangle.setup vs fs env boot) = Done (locals env) /\
  In (glfwWindowShouldClose (env_window env)) (trace_of bad) /\
  result_of bad <> Exit (-1) /\
  result_of bad = result_of good /\
  List.filter (fun c => negb (is_diagnostic c)) (trace_of bad) =
    trace_of good /\
  (env_vertex_status env = 0 ->
   In (spdlog_error "Vertex shader compilation failed: {}"
         [ArgText (info_log_text 512 (env_vertex_log env))])
      (trace_of bad)) /\
  (env_fragment_status env = 0 ->
   In (spdlog_error "Fragment shader compilation failed: {}"
         [ArgText (info_log_text 512 (env_fragment_log env))])
      (trace_of bad)) /\
  (env_link_status env = 0 ->
   In (spdlog_error "Shader program compilation failed: {}"
         [ArgText (info_log_text 512 (env_link_log env))])
      (trace_of bad)) /\
  (forall log : string,
     Z.of_nat (String.length (info_log_text 512 log)) < 512 /\
     (Z.of_nat (String.length log) < 512 -> info_log_text 512 log = log)).
Proof.
  intros Hw Hg bad good.
  destruct (main_cases vs fs env polls Hw Hg)
    as (its & r & d' & Hrun & Hbad).
  destruct (main_cases vs fs (succeed env) polls Hw Hg)
    as (its2 & r2 & d2' & Hrun2 & Hgood).
  change (locals (succeed env)) with (locals env) in *.
  change (env_window (succeed env)) with (env_window env) in *.
  assert (Hglfw : glfw (setup_state env) = glfw (setup_state (succeed env)))
    by reflexivity.
  destruct (loop_run_glfw_only _ _ _ _ _ _ Hrun _ _ _ _ Hglfw Hrun2)
    as (<- & <- & _).
  pose proof (loop_run_shapes _ _ _ _ _ _ Hrun) as Hshapes.
  pose proof (loop_calls_plain (locals env) its Hshapes) as Hplain.
  cbn [locals Triangle.window] in Hplain.
  assert (Htrace : exists after,
            trace_of bad =
              setup_calls vs fs env ++ loop_calls (env_window env) its ++ after).
  { subst bad.
    destruct Hbad as [(_ & _ & ->) | (_ & _ & ->)]; cbn [trace_of snd];
      [eexists; reflexivity | exists []; rewrite app_nil_r; reflexivity]. }
  destruct Htrace as (after & Htrace).
  split; [apply (setup_run vs fs env Hw Hg)|].
  split.
  { rewrite Htrace. apply in_or_app. right. apply in_or_app. left.
    unfold loop_calls. apply in_or_app. right. left. reflexivity. }
  split.
  { subst bad. destruct Hbad as [(_ & _ & ->) | (_ & _ & ->)];
      cbn; discriminate. }
  split.
  { subst bad good.
    destruct Hbad as [(Hr & _ & ->) | (Hr & _ & ->)];
      destruct Hgood as [(Hr2 & _ & ->) | (Hr2 & _ & ->)];
      try reflexivity; congruence. }
  split.
  { subst bad good.
    destruct Hbad as [(Hr & _ & ->) | (Hr & _ & ->)];
      destruct Hgood as [(Hr2 & _ & ->) | (Hr2 & _ & ->)];
      try congruence; cbn [trace_of snd];
      rewrite !List.filter_app, setup_calls_soft, Hplain; reflexivity. }
  rewrite Htrace.
  split; [|split; [|split]];
    [intros Hs; apply in_or_app; left ..
    |intros log; split;
       [apply info_log_text_short; lia | apply info_log_text_whole]].
  - apply setup_calls_vertex_diagnostic; exact Hs.
  - apply setup_calls_fragment_diagnostic; exact Hs.
  - apply setup_calls_link_diagnostic; exact Hs.
Qed.

Lemma shader_failure_is_soft_witness :
  env_window platform_bad_shaders <> nullptr /\
  env_glad platform_bad_shaders <> 0 /\
  result_of (Triangle.main sample_vertex_src sample_fragment_src
               platform_bad_shaders polls_escape boot) =
  result_of (Triangle.main sample_vertex_src sample_fragment_src
               (succeed platform_bad_shaders) polls_escape boot) /\
  In (spdlog_error "Vertex shader compilation failed: {}"
        [ArgText "0:1(1): error: syntax error"])
     (trace_of (Triangle.main sample_vertex_src sample_fragment_src
                  platform_bad_shaders polls_escape boot)).
Proof.
  split; [vm_compute; discriminate|].
  split; [vm_compute; discriminate|].
  pose proof (shader_failure_is_soft sample_vertex_src sample_fragment_src
                platform_bad_shaders polls_escape) as H.
  destruct H as (_ & _ & _ & Hres & _ & Hvertex & _);
    [vm_compute; discriminate | vm_compute; discriminate |].
  split; [exact Hres | exact (Hvertex eq_refl)].
Defined.

(** ** Teardown *)

Lemma loop_call_kinds l c :
  loop_call l c ->
  is_release c = false /\ is_buffer_write c = false /\
  is_should_close c = false.
Proof.
  intros [H | [H | (w & h & H)]]; cbn in H;
    repeat (destruct H as [<- | H]; [auto|]); destruct H.
Qed.

Lemma count_none (p : Call -> bool) t :
  Forall (fun c => p c = false) t -> count p t = 0%nat.
Proof.
  unfold count. induction 1 as [|c rest Hc _ IH]; [reflexivity|].
  cbn [List.filter]. rewrite Hc. exact IH.
Qed.

Lemma loop_calls_release_free l iterations :
  Forall (iteration_shape l) iterations ->
  count is_release (loop_calls (Triangle.window l) iterations) = 0%nat.
Proof.
  intros Hshapes. apply count_none.
  apply loop_calls_forall; [reflexivity | | exact Hshapes].
  intros c Hc. apply (loop_call_kinds l c Hc).
Qed.

Lemma loop_calls_write_free l iterations :
  Forall (iteration_shape l) iterations ->
  count is_buffer_write (loop_calls (Triangle.window l) iterations) = 0%nat.
Proof.
  intros Hshapes. apply count_none.
  apply loop_calls_forall; [reflexivity | | exact Hshapes].
  intros c Hc. apply (loop_call_kinds l c Hc).
Qed.

(** The GPU state teardown leaves, from the state setup made and any
    viewport. *)
Lemma teardown_gl env v :
  fold_left (fun g c => exec_gl env c g) (teardown_calls (locals env))
    (set_viewport v (gl (setup_state env))) =
  {| viewport := v; next_name := 7; shaders := ∅; programs := ∅;
     vertex_arrays := ∅; buffers := ∅; array_buffer_binding := 5;
     element_array_buffer_binding := 6; stale_deletes := 0;
     entry_points_loaded := true |}.
Proof. vm_compute. reflexivity. Qed.

Lemma teardown_glfw env l w :
  fold_left (fun w c => exec_glfw env c w) (teardown_calls l) w =
  {| glfw_initialized := false; window_open := false;
     should_close := should_close w; escape_key := escape_key w;
     resize_callback := None |}.
Proof. reflexivity. Qed.

(** C4.  When the render loop of [main] has ended, the run finishes with
    [glDeleteVertexArrays] on the vertex array, [glDeleteBuffers] on the
    vertex buffer, [glDeleteBuffers] on the index buffer, [glDeleteProgram]
    on the program and [glfwTerminate], in this order, and returns 0.  None
    of these calls occurs earlier in the run, so each object is deleted
    once; the mock ends with no shader, program, vertex array or buffer
    alive, with no delete call that named a dead object, and with the
    window closed and the window system shut down. *)
Theorem teardown_releases_everything vs fs env polls :
  env_window env <> nullptr -> env_glad env <> 0 ->
  result_of (Triangle.main vs fs env polls boot) <> Running ->
  let final := driver_of (Triangle.main vs fs env polls boot) in
  result_of (Triangle.main vs fs env polls boot) = Exit 0 /\
  (exists before,
     trace_of (Triangle.main vs fs env polls boot) =
       before ++
       [glDeleteVertexArrays 1 4; glDeleteBuffers 1 5; glDeleteBuffers 1 6;
        glDeleteProgram 3; glfwTerminate] /\
     count is_release before = 0%nat) /\
  shaders (gl final) = ∅ /\ programs (gl final) = ∅ /\
  vertex_arrays (gl final) = ∅ /\ buffers (gl final) = ∅ /\
  stale_deletes (gl final) = 0%nat /\
  window_open (glfw final) = false /\
  glfw_initialized (glfw final) = false.
Proof.
  intros Hw Hg Hended final. subst final.
  destruct (main_cases vs fs env polls Hw Hg)
    as (its & r & d' & Hrun & [(_ & _ & Hmain) | (_ & _ & Hmain)]);
    rewrite Hmain in *; [|exfalso; apply Hended; reflexivity].
  pose proof (loop_run_shapes _ _ _ _ _ _ Hrun) as Hshapes.
  destruct (loop_run_state _ _ _ _ _ _ Hrun) as [Hgl _].
  cbn [result_of driver_of trace_of fst snd].
  rewrite replay_gl, replay_glfw, teardown_glfw, Hgl, teardown_gl.
  split; [reflexivity|]. split; [|repeat split].
  exists (setup_calls vs fs env ++ loop_calls (env_window env) its).
  split; [rewrite <- app_assoc; reflexivity|].
  rewrite count_app.
  destruct (setup_calls_quiet vs fs env) as (-> & _).
  apply (loop_calls_release_free (locals env) its Hshapes).
Qed.

Lemma teardown_releases_everything_witness :
  env_window platform_ok <> nullptr /\ env_glad platform_ok <> 0 /\
  result_of (Triangle.main sample_vertex_src sample_fragment_src platform_ok
               polls_close boot) <> Running /\
  result_of (Triangle.main sample_vertex_src sample_fragment_src platform_ok
               polls_close boot) = Exit 0 /\
  buffers (gl (driver_of (Triangle.main sample_vertex_src
                            sample_fragment_src platform_ok polls_close
                            boot))) = ∅ /\
  stale_deletes (gl (driver_of (Triangle.main sample_vertex_src
                                  sample_fragment_src platform_ok polls_close
                                  boot))) = 0%nat.
Proof.
  split; [vm_compute; discriminate|].
  split; [vm_compute; discriminate|].
  split; [vm_compute; discriminate|].
  pose proof (teardown_releases_everything sample_vertex_src
                sample_fragment_src platform_ok polls_close) as H.
  destruct H as (Hres & _ & _ & _ & _ & Hbuf & Hstale & _);
    [vm_compute; discriminate | vm_compute; discriminate
    | vm_compute; discriminate |].
  split; [exact Hres|]. split; [exact Hbuf | exact Hstale].
Defined.

(** ** Resizing *)

(** C5.  A framebuffer-resize event of width [W] and height [H], delivered
    by [glfwPollEvents] to the registered callback, makes the program issue
    exactly one [glViewport] call, with arguments (0, 0, W, H), and no
    [glBufferData] call; afterwards the viewport is (0, 0, W, H), every
    buffer holds the bytes it held before, nothing else of the GPU state has
    changed, and the window-system state is untouched. *)
Theorem resize_updates_viewport_only env window W H d :
  resize_callback (glfw d) = Some window ->
  let handled :=
    deliver (Triangle.framebuffer_resize_callback env)
      (FramebufferResized W H) d in
  handled = Triangle.framebuffer_resize_callback env window W H d /\
  result_of handled = Done tt /\
  List.filter is_viewport (trace_of handled) = [glViewport 0 0 W H] /\
  count is_buffer_write (trace_of handled) = 0%nat /\
  viewport (gl (driver_of handled)) = (0, 0, W, H) /\
  buffers (gl (driver_of handled)) = buffers (gl d) /\
  only_viewport (gl d) (gl (driver_of handled)) /\
  glfw (driver_of handled) = glfw d.
Proof.
  intros Hcb handled. subst handled. destruct d as [w g].
  cbn [deliver glfw] in *. rewrite Hcb. cbn. repeat split.
Qed.

Lemma resize_updates_viewport_only_witness :
  resize_callback (glfw (setup_state platform_ok)) = Some 0x5000 /\
  List.filter is_viewport
    (trace_of (deliver (Triangle.framebuffer_resize_callback platform_ok)
                 (FramebufferResized 1024 768) (setup_state platform_ok))) =
    [glViewport 0 0 1024 768] /\
  buffers (gl (driver_of
                 (deliver (Triangle.framebuffer_resize_callback platform_ok)
                    (FramebufferResized 1024 768) (setup_state platform_ok)))) =
  buffers (gl (setup_state platform_ok)).
Proof.
  split; [reflexivity|].
  pose proof (resize_updates_viewport_only platform_ok 0x5000 1024 768
                (setup_state platform_ok)) as H.
  destruct H as (_ & _ & Hview & _ & _ & Hbuf & _); [reflexivity|].
  split; [exact Hview | exact Hbuf].
Defined.

(** ** Leaving the loop *)

Section Closing.

Variable env : Env.
Variable l : Triangle.Locals.

Lemma loop_run_deterministic polls d r1 d1 its1 :
  loop_run l polls d r1 d1 its1 ->
  forall r2 d2 its2,
    loop_run l polls d r2 d2 its2 -> r1 = r2 /\ d1 = d2 /\ its1 = its2.
Proof.
  induction 1 as [polls d Hflag|d Hflag|events rest d r1 d1 its1 Hflag _ IH];
    intros r2 d2 its2 Hrun2; inversion Hrun2; subst; auto;
    try match goal with
        | H : should_close _ = 0, H' : to_bool _ = true |- _ =>
            rewrite H in H'; discriminate
        end.
  match goal with
  | H : loop_run _ rest _ r2 d2 _ |- _ =>
      destruct (IH _ _ _ H) as (-> & -> & ->)
  end.
  auto.
Qed.

Lemma loop_run_more_input polls d d' its rest :
  loop_run l polls d (Done tt) d' its ->
  loop_run l (polls ++ rest) d (Done tt) d' its.
Proof.
  intros Hrun. remember (Done tt) as r eqn:Hr.
  induction Hrun; try discriminate; cbn [app]; constructor; auto.
Qed.

Lemma render_loop_more_input polls rest d :
  result_of (Triangle.render_loop env l polls d) = Done tt ->
  Triangle.render_loop env l (polls ++ rest) d =
  Triangle.render_loop env l polls d.
Proof.
  intros Hdone.
  destruct (render_loop_sound env l polls d) as (its & Hrun & Htrace).
  destruct (render_loop_sound env l (polls ++ rest) d)
    as (its2 & Hrun2 & Htrace2).
  rewrite Hdone in Hrun.
  destruct (loop_run_deterministic _ _ _ _ _
              (loop_run_more_input _ _ _ _ rest Hrun) _ _ _ Hrun2)
    as (Hr & Hd & <-).
  rewrite (outcome_eta (Triangle.render_loop env l (polls ++ rest) d)),
    (outcome_eta (Triangle.render_loop env l polls d)).
  rewrite <- Hr, <- Hd, Htrace, Htrace2, Hdone. reflexivity.
Qed.

Lemma render_loop_last_iteration events rest d :
  should_close (glfw d) = 0 ->
  to_bool (should_close
             (glfw (driver_of (Triangle.loop_body env l events d)))) = true ->
  Triangle.render_loop env l (events :: rest) d =
    (Done tt, driver_of (Triangle.loop_body env l events d),
     glfwWindowShouldClose (Triangle.window l) ::
     trace_of (Triangle.loop_body env l events d) ++
     [glfwWindowShouldClose (Triangle.window l)]).
Proof.
  intros Hopen Hset.
  rewrite (render_loop_iteration env l events rest d Hopen). cbv zeta.
  rewrite (loop_body_run env l events d) in *.
  cbn [driver_of trace_of fst snd] in *.
  rewrite (render_loop_closed env l rest _ Hset). reflexivity.
Qed.

Lemma loop_body_sets_flag events d :
  escape_key (glfw d) = GLFW_PRESS \/ In WindowCloseRequested events ->
  to_bool (should_close
             (glfw (driver_of (Triangle.loop_body env l events d)))) = true.
Proof.
  intros Hsource. rewrite (loop_body_run env l events d).
  cbn [driver_of fst snd].
  destruct Hsource as [Hkey | Hclose].
  - apply events_state_monotone. cbn [key_check_state glfw].
    apply key_check_pressed. exact Hkey.
  - apply events_state_close_request. exact Hclose.
Qed.

Lemma render_loop_close_request polls : forall d,
  Exists (fun events => In WindowCloseRequested events) polls ->
  result_of (Triangle.render_loop env l polls d) = Done tt.
Proof.
  induction polls as [|events rest IH]; intros d Hex;
    inversion Hex as [? ? Hhere | ? ? Hlater]; subst;
    destruct (to_bool (should_close (glfw d))) eqn:Hflag;
    try (rewrite (render_loop_closed env l _ _ Hflag); reflexivity);
    apply to_bool_false in Hflag.
  - rewrite (render_loop_last_iteration events rest d Hflag
               (loop_body_sets_flag events d (or_intror Hhere))).
    reflexivity.
  - rewrite (render_loop_iteration env l events rest d Hflag). cbv zeta.
    cbn [result_of fst]. apply IH. exact Hlater.
Qed.

End Closing.

(** C6.  (1) When the loop-head test finds the close flag set, the loop is
    over: [render_loop] makes that one [glfwWindowShouldClose] call and
    returns, whatever input is still to come.  (2) When the flag is unset at
    the head of an iteration and that iteration finds the Escape key down, or
    its [glfwPollEvents] delivers a close request, the flag is set when the
    iteration ends and the next loop-head test ends the loop: this iteration
    is the last.  (3) For a run of [main] that got past setup and returned 0,
    input queued after the close is never looked at: the run is the same with
    any further polls appended.  (4) Such a run does return 0 as soon as the
    input holds a close request. *)
Theorem close_flag_ends_loop env l :
  (forall polls d,
     to_bool (should_close (glfw d)) = true ->
     Triangle.render_loop env l polls d =
       (Done tt, d, [glfwWindowShouldClose (Triangle.window l)])) /\
  (forall events rest d,
     should_close (glfw d) = 0 ->
     escape_key (glfw d) = GLFW_PRESS \/ In WindowCloseRequested events ->
     to_bool (should_close
                (glfw (driver_of (Triangle.loop_body env l events d)))) = true /\
     Triangle.render_loop env l (events :: rest) d =
       (Done tt, driver_of (Triangle.loop_body env l events d),
        glfwWindowShouldClose (Triangle.window l) ::
        trace_of (Triangle.loop_body env l events d) ++
        [glfwWindowShouldClose (Triangle.window l)])) /\
  (forall vs fs polls rest,
     env_window env <> nullptr -> env_glad env <> 0 ->
     result_of (Triangle.main vs fs env polls boot) = Exit 0 ->
     Triangle.main vs fs env (polls ++ rest) boot =
     Triangle.main vs fs env polls boot) /\
  (forall vs fs polls,
     env_window env <> nullptr -> env_glad env <> 0 ->
     Exists (fun events => In WindowCloseRequested events) polls ->
     result_of (Triangle.main vs fs env polls boot) = Exit 0).
Proof.
  split; [|split; [|split]].
  - intros polls d Hset. apply render_loop_closed. exact Hset.
  - intros events rest d Hopen Hsource.
    pose proof (loop_body_sets_flag env l events d Hsource) as Hset.
    split; [exact Hset|].
    apply render_loop_last_iteration; assumption.
  - intros vs fs polls rest Hw Hg Hexit.
    rewrite (main_run vs fs env Hw Hg (polls ++ rest)).
    rewrite (main_run vs fs env Hw Hg polls) in *. cbv zeta in *.
    destruct (render_loop_sound env (locals env) polls (setup_state env))
      as (its & Hrun & _).
    destruct (loop_run_result _ _ _ _ _ _ Hrun) as [[Hr _] | [Hr _]];
      rewrite Hr in Hexit; [|discriminate].
    rewrite (render_loop_more_input env (locals env) polls rest _ Hr).
    reflexivity.
  - intros vs fs polls Hw Hg Hclose.
    rewrite (main_run vs fs env Hw Hg polls). cbv zeta.
    rewrite (render_loop_close_request env (locals env) polls _ Hclose).
    reflexivity.
Qed.

Lemma close_flag_ends_loop_witness :
  should_close (glfw (setup_state platform_ok)) = 0 /\
  In WindowCloseRequested [FramebufferResized 640 480; WindowCloseRequested] /\
  Triangle.render_loop platform_ok (locals platform_ok)
    ([FramebufferResized 640 480; WindowCloseRequested] :: [[]; []])
    (setup_state platform_ok) =
    (Done tt,
     driver_of (Triangle.loop_body platform_ok (locals platform_ok)
                  [FramebufferResized 640 480; WindowCloseRequested]
                  (setup_state platform_ok)),
     glfwWindowShouldClose 0x5000 ::
     trace_of (Triangle.loop_body platform_ok (locals platform_ok)
                 [FramebufferResized 640 480; WindowCloseRequested]
                 (setup_state platform_ok)) ++
     [glfwWindowShouldClose 0x5000]).
Proof.
  split; [reflexivity|]. split; [right; left; reflexivity|].
  pose proof (close_flag_ends_loop platform_ok (locals platform_ok)) as H.
  destruct H as (_ & Hlast & _).
  apply (Hlast [FramebufferResized 640 480; WindowCloseRequested] [[]; []]
           (setup_state platform_ok));
    [reflexivity | right; right; left; reflexivity].
Defined.

(** ** The close flag *)

Lemma count_none_in (p : Call -> bool) t c :
  count p t = 0%nat -> In c t -> p c = false.
Proof.
  unfold count. induction t as [|c' rest IH]; intros Hcount []; subst.
  - cbn [List.filter] in Hcount. destruct (p c); [discriminate|reflexivity].
  - apply IH; [|assumption]. cbn [List.filter] in Hcount.
    destruct (p c'); [discriminate|exact Hcount].
Qed.

Lemma loop_calls_set_close l iterations c :
  Forall (iteration_shape l) iterations ->
  In c (loop_calls (Triangle.window l) iterations) ->
  is_set_close c = true ->
  c = glfwSetWindowShouldClose (Triangle.window l) 1.
Proof.
  intros Hshapes Hin Hset.
  assert (Hall : Forall
            (fun c => is_set_close c = true ->
                      c = glfwSetWindowShouldClose (Triangle.window l) 1)
            (loop_calls (Triangle.window l) iterations)).
  { apply loop_calls_forall; [discriminate | | exact Hshapes].
    intros c' Hc'. apply loop_call_set_close. exact Hc'. }
  apply (proj1 (List.Forall_forall _ _) Hall c Hin Hset).
Qed.

(** C7.  In an iteration that finds the Escape key down, the program calls
    [glfwSetWindowShouldClose] exactly once, with value 1; in an iteration
    that does not, it does not call it.  An iteration never lowers the flag:
    if it is set before, it is set after.  And in no run of [main], on any
    platform and input, is [glfwSetWindowShouldClose] called with a value
    other than 1. *)
Theorem escape_sets_flag_once env l events d :
  (escape_key (glfw d) = GLFW_PRESS ->
   List.filter is_set_close (trace_of (Triangle.loop_body env l events d)) =
     [glfwSetWindowShouldClose (Triangle.window l) 1]) /\
  (escape_key (glfw d) <> GLFW_PRESS ->
   List.filter is_set_close (trace_of (Triangle.loop_body env l events d)) =
     []) /\
  (to_bool (should_close (glfw d)) = true ->
   to_bool (should_close
              (glfw (driver_of (Triangle.loop_body env l events d)))) = true) /\
  (forall vs fs polls window value,
     In (glfwSetWindowShouldClose window value)
        (trace_of (Triangle.main vs fs env polls boot)) ->
     value = 1).
Proof.
  rewrite (loop_body_run env l events d).
  cbn [trace_of driver_of fst snd].
  assert (Hcallbacks :
            List.filter is_set_close
              (flat_map (event_calls (resize_callback (glfw d))) events) = []).
  { apply filter_resize_callbacks; [reflexivity|].
    apply event_calls_shape. }
  split; [|split; [|split]].
  - intros Hkey. rewrite !List.filter_app, Hcallbacks.
    unfold key_check_calls. rewrite Hkey. reflexivity.
  - intros Hkey. rewrite !List.filter_app, Hcallbacks.
    unfold key_check_calls.
    destruct (Z.eqb_spec (escape_key (glfw d)) GLFW_PRESS);
      [contradiction | reflexivity].
  - intros Hset. apply events_state_monotone. cbn [key_check_state glfw].
    apply key_check_monotone. exact Hset.
  - intros vs fs polls window value Hin.
    destruct (Z.eq_dec (env_window env) nullptr) as [Hw | Hw].
    { rewrite (window_creation_failure_run vs fs env polls Hw) in Hin.
      cbn in Hin. intuition discriminate. }
    destruct (Z.eq_dec (env_glad env) 0) as [Hg | Hg].
    { rewrite (loader_prefix vs fs env polls Hw Hg) in Hin.
      cbn [trace_of snd] in Hin.
      destruct (env_apple env); cbn in Hin; intuition discriminate. }
    destruct (main_cases vs fs env polls Hw Hg)
      as (its & r & d' & Hrun & Hmain).
    pose proof (loop_run_shapes _ _ _ _ _ _ Hrun) as Hshapes.
    assert (Hparts :
              In (glfwSetWindowShouldClose window value)
                 (setup_calls vs fs env) \/
              In (glfwSetWindowShouldClose window value)
                 (loop_calls (env_window env) its) \/
              In (glfwSetWindowShouldClose window value)
                 (teardown_calls (locals env))).
    { destruct Hmain as [(_ & _ & Hmain) | (_ & _ & Hmain)];
        rewrite Hmain in Hin; cbn [trace_of snd] in Hin;
        apply in_app_or in Hin; destruct Hin as [Hin | Hin]; auto.
      apply in_app_or in Hin; destruct Hin as [Hin | Hin]; auto. }
    destruct Hparts as [Hin' | [Hin' | Hin']].
    + destruct (setup_calls_quiet vs fs env) as (_ & Hquiet & _).
      pose proof (count_none_in _ _ _ Hquiet Hin') as Habs. discriminate.
    + pose proof (loop_calls_set_close (locals env) its _ Hshapes Hin'
                    eq_refl) as Heq.
      injection Heq as _ ->. reflexivity.
    + cbn in Hin'. intuition discriminate.
Qed.

Lemma escape_sets_flag_once_witness :
  escape_key
    (glfw (with_glfw (set_escape_key GLFW_PRESS) (setup_state platform_ok))) =
    GLFW_PRESS /\
  List.filter is_set_close
    (trace_of (Triangle.loop_body platform_ok (locals platform_ok) []
                 (with_glfw (set_escape_key GLFW_PRESS)
                    (setup_state platform_ok)))) =
    [glfwSetWindowShouldClose 0x5000 1].
Proof.
  split; [reflexivity|].
  pose proof (escape_sets_flag_once platform_ok (locals platform_ok) []
                (with_glfw (set_escape_key GLFW_PRESS)
                   (setup_state platform_ok))) as H.
  destruct H as (Hpressed & _).
  apply Hpressed. reflexivity.
Defined.

(** ** Buffer uploads *)

(** The vertex and index arrays, read back from their byte images. *)
Lemma vertices_bytes :
  length (bytes_of_words Triangle.vertices) = 36%nat /\
  words_of_bytes 9 (bytes_of_words Triangle.vertices) = Triangle.vertices /\
  Forall2 Qeq (map f32_value Triangle.vertices)
    [- (1 # 2); - (1 # 2); 0; 1 # 2; - (1 # 2); 0; 0; 1 # 2; 0]%Q.
Proof.
  split; [reflexivity|]. split; [reflexivity|].
  repeat constructor; vm_compute; reflexivity.
Qed.

Lemma indices_bytes :
  length (bytes_of_words Triangle.indices) = 12%nat /\
  words_of_bytes 3 (bytes_of_words Triangle.indices) = [0; 1; 2].
Proof. split; reflexivity. Qed.

(** In [src/triangle.cpp] the two uploads are complete, happen once each,
    and the buffers keep their contents for as long as the loop runs: the
    only [glBufferData] calls of a run are the one passing all 36 bytes of
    [vertices] and the one passing all 12 bytes of [indices], and in every
    state the loop can end in, buffer 5 holds the 36 bytes and buffer 6 the
    12. *)
Lemma triangle_uploads_complete vs fs env polls :
  env_window env <> nullptr -> env_glad env <> 0 ->
  List.filter is_buffer_write
    (trace_of (Triangle.main vs fs env polls boot)) =
    [glBufferData GL_ARRAY_BUFFER
       (Triangle.sizeof_array sizeof_float Triangle.vertices)
       (bytes_of_words Triangle.vertices) GL_STATIC_DRAW;
     glBufferData GL_ELEMENT_ARRAY_BUFFER
       (Triangle.sizeof_array sizeof_unsigned_int Triangle.indices)
       (bytes_of_words Triangle.indices) GL_STATIC_DRAW] /\
  Triangle.sizeof_array sizeof_float Triangle.vertices = 36 /\
  Triangle.sizeof_array sizeof_unsigned_int Triangle.indices = 12 /\
  buffers (gl (driver_of (Triangle.setup vs fs env boot))) =
    {[ 5 := bytes_of_words Triangle.vertices;
       6 := bytes_of_words Triangle.indices ]} /\
  (forall r d' iterations,
     loop_run (locals env) polls (setup_state env) r d' iterations ->
     buffers (gl d') =
       {[ 5 := bytes_of_words Triangle.vertices;
          6 := bytes_of_words Triangle.indices ]}).
Proof.
  intros Hw Hg.
  split; [|split; [reflexivity|split; [reflexivity|split]]].
  - destruct (main_cases vs fs env polls Hw Hg)
      as (its & r & d' & Hrun & Hmain).
    pose proof (loop_run_shapes _ _ _ _ _ _ Hrun) as Hshapes.
    pose proof (loop_calls_write_free (locals env) its Hshapes) as Hfree.
    unfold count in Hfree. apply length_zero_iff_nil in Hfree.
    cbn [locals Triangle.window] in Hfree.
    destruct Hmain as [(_ & _ & ->) | (_ & _ & ->)]; cbn [trace_of snd];
      rewrite !List.filter_app, setup_calls_uploads, Hfree; reflexivity.
  - rewrite (setup_full vs fs env Hw Hg). reflexivity.
  - intros r d' its Hrun.
    destruct (loop_run_state _ _ _ _ _ _ Hrun) as [Hgl _].
    rewrite Hgl. reflexivity.
Qed.

(** The one run [main] of [src/unnamed/part_000] has, whatever the platform
    answers and whatever input is queued: [glfwInit], and then the call of
    [glGenBuffers] at line 53 through an entry point that nothing has
    loaded. *)
Lemma part000_run env polls :
  Part000.main env polls boot =
    (Crashed (glGenBuffers 1), with_glfw (set_glfw_initialized true) boot,
     [glfwInit]).
Proof. reflexivity. Qed.

(** C8.  In [src/unnamed/part_000] the vertex upload is never made.  Every
    run of its [main] dies at [glGenBuffers] (line 53), the first call after
    [glfwInit], because the loader call that would fill in the entry point
    only comes at line 109: the trace of the run is [glfwInit] alone, so it
    holds no [glBufferData] call, and the driver ends without any buffer.
    The size the upload of line 65 is written to pass, [vertices.size()], is
    9, while the array it points to, the same nine floats as in
    [src/triangle.cpp], is 36 bytes long.  [main] of [src/triangle.cpp],
    given its window and its entry points, makes exactly the two uploads,
    of all 36 and all 12 bytes. *)
Theorem part000_makes_no_upload :
  (forall env polls,
     result_of (Part000.main env polls boot) = Crashed (glGenBuffers 1) /\
     trace_of (Part000.main env polls boot) = [glfwInit] /\
     count is_buffer_write (trace_of (Part000.main env polls boot)) = 0%nat /\
     buffers (gl (driver_of (Part000.main env polls boot))) = ∅) /\
  Part000.size Part000.vertices = 9 /\
  length (bytes_of_words Part000.vertices) = 36%nat /\
  Part000.vertices = Triangle.vertices /\
  (forall vs fs env polls,
     env_window env <> nullptr -> env_glad env <> 0 ->
     List.filter is_buffer_write
       (trace_of (Triangle.main vs fs env polls boot)) =
       [glBufferData GL_ARRAY_BUFFER 36 (bytes_of_words Triangle.vertices)
          GL_STATIC_DRAW;
        glBufferData GL_ELEMENT_ARRAY_BUFFER 12
          (bytes_of_words Triangle.indices) GL_STATIC_DRAW]).
Proof.
  split; [|split; [|split; [|split]]]; try reflexivity.
  - intros env polls. rewrite part000_run. repeat split.
  - intros vs fs env polls Hw Hg.
    exact (proj1 (triangle_uploads_complete vs fs env polls Hw Hg)).
Qed.

(** * Properties beyond the claims *)

(** ** Tools for traces *)

Lemma count_cons (p : Call -> bool) c t :
  count p (c :: t) = ((if p c then 1 else 0) + count p t)%nat.
Proof. unfold count. cbn [List.filter]. destruct (p c); reflexivity. Qed.

(** A call of kind [p] found in [A ++ B], where [A] has none of that kind,
    lies in [B]. *)
Lemma split_past_prefix (p : Call -> bool) A : forall B pre c post,
  count p A = 0%nat ->
  A ++ B = pre ++ c :: post -> p c = true ->
  exists mid, pre = A ++ mid /\ B = mid ++ c :: post.
Proof.
  induction A as [|a A IH]; intros B pre c post Hcount Heq Hc.
  - exists pre. split; [reflexivity | exact Heq].
  - rewrite count_cons in Hcount.
    destruct (p a) eqn:Hpa; [discriminate|]. cbn in Hcount.
    destruct pre as [|a' pre]; cbn [app] in Heq.
    + injection Heq as -> _. congruence.
    + injection Heq as -> Heq.
      destruct (IH B pre c post Hcount Heq Hc) as (mid & -> & HB).
      exists mid. split; [reflexivity | exact HB].
Qed.

Lemma count_positive_in (p : Call -> bool) t c :
  In c t -> p c = true -> (0 < count p t)%nat.
Proof.
  intros Hin Hc. destruct (count p t) eqn:Hcount; [|lia].
  rewrite (count_none_in p t c Hcount Hin) in Hc. discriminate.
Qed.

(** ** Exit status of [main] in src/triangle.cpp *)

(** X1.  [main] returns -1 exactly when the window pointer is null or the
    loader returns 0; in every other run it returns 0 or is still in its
    loop when the observation ends. *)
Theorem triangle_exit_status vs fs env polls :
  (result_of (Triangle.main vs fs env polls boot) = Exit (-1) <->
   env_window env = nullptr \/ env_glad env = 0) /\
  (result_of (Triangle.main vs fs env polls boot) = Exit 0 \/
   result_of (Triangle.main vs fs env polls boot) = Exit (-1) \/
   result_of (Triangle.main vs fs env polls boot) = Running).
Proof.
  destruct (Z.eq_dec (env_window env) nullptr) as [Hw | Hw].
  { rewrite (window_creation_failure_run vs fs env polls Hw).
    cbn [result_of fst]. tauto. }
  destruct (Z.eq_dec (env_glad env) 0) as [Hg | Hg].
  { rewrite (loader_prefix vs fs env polls Hw Hg).
    cbn [result_of fst]. tauto. }
  destruct (main_cases vs fs env polls Hw Hg)
    as (its & r & d' & _ & [(_ & _ & ->) | (_ & _ & ->)]);
    cbn [result_of fst]; (split; [split|]; [discriminate | tauto | tauto]).
Qed.

(** ** Order of the start-up calls in src/triangle.cpp *)

Lemma nth_error_decompose (t : list Call) : forall n c,
  nth_error t n = Some c -> t = firstn n t ++ c :: skipn (S n) t.
Proof.
  induction t as [|a t IH]; intros [|n] c H; try discriminate.
  - injection H as ->. reflexivity.
  - cbn [nth_error] in H. cbn [firstn skipn app]. f_equal.
    apply IH. exact H.
Qed.

Lemma in_elt_count (p : Call -> bool) pre c post :
  p c = true -> (0 < count p (pre ++ c :: post))%nat.
Proof.
  intros Hc. apply (count_positive_in p _ c); [|exact Hc].
  apply in_elt.
Qed.

(** Every run that gets a window starts with [startup_calls]; what follows
    creates no further window. *)
Lemma triangle_trace_startup vs fs env polls :
  env_window env <> nullptr ->
  exists after,
    trace_of (Triangle.main vs fs env polls boot) = startup_calls ++ after /\
    count is_create_window after = 0%nat.
Proof.
  intros Hw. destruct (Z.eq_dec (env_glad env) 0) as [Hg | Hg].
  { rewrite (loader_prefix vs fs env polls Hw Hg). cbn [trace_of snd].
    eexists. split; [reflexivity|]. destruct (env_apple env); reflexivity. }
  destruct (main_cases vs fs env polls Hw Hg)
    as (its & r & d' & Hrun & Hmain).
  pose proof (loop_run_shapes _ _ _ _ _ _ Hrun) as Hshapes.
  assert (Hloop : count is_create_window
                    (loop_calls (env_window env) its) = 0%nat).
  { apply count_none.
    apply (loop_calls_forall _ (locals env) its); [reflexivity | | exact Hshapes].
    intros c [H | [H | (w & h & H)]]; cbn in H;
      repeat (destruct H as [<- | H]; [reflexivity|]); destruct H. }
  assert (Hsetup : exists rest,
            setup_calls vs fs env = startup_calls ++ rest /\
            count is_create_window rest = 0%nat).
  { unfold setup_calls, diagnostic. eexists. split; [reflexivity|].
    destruct (env_apple env), (to_bool (env_vertex_status env)),
      (to_bool (env_fragment_status env)), (to_bool (env_link_status env));
      reflexivity. }
  destruct Hsetup as (rest & Hsetup & Hrest).
  destruct Hmain as [(_ & _ & ->) | (_ & _ & ->)]; cbn [trace_of snd];
    rewrite Hsetup, <- app_assoc; eexists; (split; [reflexivity|]);
    rewrite !count_app, Hrest, Hloop; reflexivity.
Qed.

(** X3.  In a build that defines [__APPLE__], the forward-compatibility hint
    is given only after the program's one window has been created: wherever
    that [glfwWindowHint] call stands in a run of [main], the
    [glfwCreateWindow] call stands before it and no window is created after
    it.  No other build issues the hint. *)
Theorem forward_compat_hint_follows_window vs fs env polls n :
  nth_error (trace_of (Triangle.main vs fs env polls boot)) n =
    Some (glfwWindowHint GLFW_OPENGL_FORWARD_COMPAT GL_TRUE) ->
  env_apple env = true /\
  In (glfwCreateWindow 800 600 "gl")
     (firstn n (trace_of (Triangle.main vs fs env polls boot))) /\
  count is_create_window
    (skipn n (trace_of (Triangle.main vs fs env polls boot))) = 0%nat.
Proof.
  intros Hn. pose proof (nth_error_decompose _ _ _ Hn) as Hsplit.
  destruct (Z.eq_dec (env_window env) nullptr) as [Hw | Hw].
  { exfalso. rewrite (window_creation_failure_run vs fs env polls Hw) in Hn.
    cbn [trace_of snd] in Hn.
    do 8 (destruct n as [|n]; [discriminate Hn|]). destruct n; discriminate. }
  split.
  { destruct (env_apple env) eqn:Happle; [reflexivity|]. exfalso.
    assert (Hnone : count is_forward_compat
                      (trace_of (Triangle.main vs fs env polls boot)) = 0%nat).
    { destruct (Z.eq_dec (env_glad env) 0) as [Hg | Hg].
      - rewrite (loader_prefix vs fs env polls Hw Hg), Happle. reflexivity.
      - destruct (main_cases vs fs env polls Hw Hg)
          as (its & r & d' & Hrun & Hmain).
        pose proof (loop_run_shapes _ _ _ _ _ _ Hrun) as Hshapes.
        assert (Hloop : count is_forward_compat
                          (loop_calls (env_window env) its) = 0%nat).
        { apply count_none.
          apply (loop_calls_forall _ (locals env) its);
            [reflexivity | | exact Hshapes].
          intros c [H | [H | (w & h & H)]]; cbn in H;
            repeat (destruct H as [<- | H]; [reflexivity|]); destruct H. }
        assert (Hsetup : count is_forward_compat (setup_calls vs fs env)
                         = 0%nat).
        { unfold setup_calls, diagnostic. rewrite Happle.
          destruct (to_bool (env_vertex_status env)),
            (to_bool (env_fragment_status env)),
            (to_bool (env_link_status env)); reflexivity. }
        destruct Hmain as [(_ & _ & ->) | (_ & _ & ->)]; cbn [trace_of snd];
          rewrite !count_app, Hsetup, Hloop; reflexivity. }
    rewrite Hsplit in Hnone.
    pose proof (in_elt_count is_forward_compat
                  (firstn n (trace_of (Triangle.main vs fs env polls boot)))
                  (glfwWindowHint GLFW_OPENGL_FORWARD_COMPAT GL_TRUE)
                  (skipn (S n) (trace_of (Triangle.main vs fs env polls boot)))
                  eq_refl) as Hpos.
    lia. }
  destruct (triangle_trace_startup vs fs env polls Hw)
    as (after & Htrace & Hafter).
  rewrite Htrace in Hsplit at 1.
  destruct (split_past_prefix is_forward_compat startup_calls _ _ _ _
              eq_refl Hsplit eq_refl) as (mid & Hpre & Hrest).
  split.
  { rewrite Hpre. apply in_or_app. left. cbn. tauto. }
  assert (Hskip : skipn n (trace_of (Triangle.main vs fs env polls boot)) =
                  glfwWindowHint GLFW_OPENGL_FORWARD_COMPAT GL_TRUE ::
                  skipn (S n) (trace_of (Triangle.main vs fs env polls boot))).
  { clear -Hn. revert n Hn.
    induction (trace_of (Triangle.main vs fs env polls boot)) as [|a t IH];
      intros [|n] Hn; try discriminate.
    - injection Hn as ->. reflexivity.
    - apply IH. exact Hn. }
  rewrite Hskip, count_cons. cbn [is_create_window].
  rewrite Hrest, count_app, count_cons in Hafter. cbn [is_create_window] in Hafter.
  lia.
Qed.

Lemma forward_compat_hint_follows_window_witness :
  nth_error (trace_of (Triangle.main sample_vertex_src sample_fragment_src
                         platform_apple polls_close boot)) 6 =
    Some (glfwWindowHint GLFW_OPENGL_FORWARD_COMPAT GL_TRUE) /\
  In (glfwCreateWindow 800 600 "gl")
     (firstn 6 (trace_of (Triangle.main sample_vertex_src sample_fragment_src
                            platform_apple polls_close boot))) /\
  count is_create_window
    (skipn 6 (trace_of (Triangle.main sample_vertex_src sample_fragment_src
                          platform_apple polls_close boot))) = 0%nat.
Proof.
  split; [vm_compute; reflexivity|].
  pose proof (forward_compat_hint_follows_window sample_vertex_src
                sample_fragment_src platform_apple polls_close 6) as H.
  destruct H as (_ & Hin & Hcount); [vm_compute; reflexivity|].
  split; [exact Hin | exact Hcount].
Defined.

(** X2.  Wherever a call into the GPU driver stands in a run of [main], the
    window has been created and made current and [gladLoadGLLoader] has been
    called before it, and has succeeded: the program makes no GL call before
    the entry points are loaded, and none at all when the window or the
    loader fails. *)
Theorem gl_calls_follow_loader vs fs env polls n c :
  nth_error (trace_of (Triangle.main vs fs env polls boot)) n = Some c ->
  is_gl_call c = true ->
  In (glfwMakeContextCurrent (env_window env))
     (firstn n (trace_of (Triangle.main vs fs env polls boot))) /\
  In gladLoadGLLoader
     (firstn n (trace_of (Triangle.main vs fs env polls boot))) /\
  env_window env <> nullptr /\ env_glad env <> 0.
Proof.
  intros Hn Hgl. pose proof (nth_error_decompose _ _ _ Hn) as Hsplit.
  pose proof (in_elt_count is_gl_call
                (firstn n (trace_of (Triangle.main vs fs env polls boot))) c
                (skipn (S n) (trace_of (Triangle.main vs fs env polls boot)))
                Hgl) as Hpos.
  rewrite <- Hsplit in Hpos.
  destruct (Z.eq_dec (env_window env) nullptr) as [Hw | Hw].
  { exfalso. rewrite (window_creation_failure_run vs fs env polls Hw) in Hpos.
    cbn in Hpos. lia. }
  destruct (Z.eq_dec (env_glad env) 0) as [Hg | Hg].
  { exfalso. rewrite (loader_prefix vs fs env polls Hw Hg) in Hpos.
    cbn [trace_of snd] in Hpos. destruct (env_apple env); cbn in Hpos; lia. }
  assert (Htrace : exists rest,
            trace_of (Triangle.main vs fs env polls boot) =
              (startup_calls ++ context_calls env) ++ rest).
  { assert (Hsetup : exists rest,
              setup_calls vs fs env =
                (startup_calls ++ context_calls env) ++ rest).
    { unfold setup_calls, context_calls. eexists.
      rewrite <- !app_assoc. cbn [app]. reflexivity. }
    destruct Hsetup as (rest & Hsetup).
    destruct (main_cases vs fs env polls Hw Hg)
      as (its & r & d' & _ & [(_ & _ & ->) | (_ & _ & ->)]);
      cbn [trace_of snd]; rewrite Hsetup, <- app_assoc; eexists; reflexivity. }
  destruct Htrace as (rest & Htrace).
  rewrite Htrace in Hsplit at 1.
  assert (Hquiet : count is_gl_call (startup_calls ++ context_calls env)
                   = 0%nat).
  { unfold context_calls. destruct (env_apple env); reflexivity. }
  destruct (split_past_prefix is_gl_call _ _ _ _ _ Hquiet Hsplit Hgl)
    as (mid & Hpre & _).
  rewrite Hpre. unfold context_calls.
  repeat split; try assumption;
    apply in_or_app; left; apply in_or_app; right; apply in_or_app; right;
    cbn; tauto.
Qed.

Lemma gl_calls_follow_loader_witness :
  nth_error (trace_of (Triangle.main sample_vertex_src sample_fragment_src
                         platform_ok polls_close boot)) 9 =
    Some (glViewport 0 0 800 600) /\
  is_gl_call (glViewport 0 0 800 600) = true /\
  In gladLoadGLLoader
     (firstn 9 (trace_of (Triangle.main sample_vertex_src sample_fragment_src
                            platform_ok polls_close boot))).
Proof.
  split; [vm_compute; reflexivity|]. split; [reflexivity|].
  pose proof (gl_calls_follow_loader sample_vertex_src sample_fragment_src
                platform_ok polls_close 9 (glViewport 0 0 800 600)) as H.
  destruct H as (_ & Hin & _); [vm_compute; reflexivity | reflexivity |].
  exact Hin.
Defined.

(** ** Counting frames in src/triangle.cpp *)

Lemma count_resize_callbacks (p : Call -> bool) t :
  (forall w h, List.filter p (resize_calls w h) = []) ->
  resize_callbacks t -> count p t = 0%nat.
Proof.
  intros Hp Hcb. unfold count.
  rewrite (filter_resize_callbacks p t Hp Hcb). reflexivity.
Qed.

Lemma iteration_counts l t :
  iteration_shape l t ->
  count is_draw t = 1%nat /\ count is_swap t = 1%nat /\
  count is_poll t = 1%nat /\ count is_gpu_create t = 0%nat /\
  count is_gpu_delete t = 0%nat.
Proof.
  intros (check & callbacks & -> & Hcheck & Hcb).
  rewrite !count_app.
  rewrite (count_resize_callbacks is_draw callbacks),
    (count_resize_callbacks is_swap callbacks),
    (count_resize_callbacks is_poll callbacks),
    (count_resize_callbacks is_gpu_create callbacks),
    (count_resize_callbacks is_gpu_delete callbacks);
    try reflexivity; try exact Hcb.
  destruct Hcheck as [-> | ->]; repeat split; reflexivity.
Qed.

Lemma loop_calls_count (p : Call -> bool) window iterations k :
  p (glfwWindowShouldClose window) = false ->
  Forall (fun t => count p t = k) iterations ->
  count p (loop_calls window iterations) = (k * length iterations)%nat.
Proof.
  intros Hhead Hall. unfold loop_calls. rewrite count_app.
  replace (count p [glfwWindowShouldClose window]) with 0%nat
    by (rewrite count_cons, Hhead; reflexivity).
  induction Hall as [|t rest Ht _ IH]; [cbn; lia|].
  cbn [flat_map length]. rewrite (count_app p (_ :: t)), count_cons, Hhead, Ht.
  lia.
Qed.

Lemma loop_run_running_length l polls d r d' iterations :
  loop_run l polls d r d' iterations ->
  r = Running -> length iterations = length polls.
Proof.
  induction 1; intros Hr; try discriminate; cbn [length]; auto.
Qed.

Lemma setup_calls_counts vs fs env :
  count is_draw (setup_calls vs fs env) = 0%nat /\
  count is_swap (setup_calls vs fs env) = 0%nat /\
  count is_poll (setup_calls vs fs env) = 0%nat /\
  count is_gpu_create (setup_calls vs fs env) = 6%nat /\
  count is_gpu_delete (setup_calls vs fs env) = 2%nat.
Proof.
  unfold setup_calls, diagnostic.
  destruct (env_apple env), (to_bool (env_vertex_status env)),
    (to_bool (env_fragment_status env)), (to_bool (env_link_status env));
    repeat split; reflexivity.
Qed.

(** The counts of a run that got past setup, in terms of its iterations. *)
Lemma main_counts vs fs env polls :
  env_window env <> nullptr -> env_glad env <> 0 ->
  exists iterations r d',
    loop_run (locals env) polls (setup_state env) r d' iterations /\
    (r = Running <-> result_of (Triangle.main vs fs env polls boot) = Running) /\
    (r = Done tt <-> result_of (Triangle.main vs fs env polls boot) = Exit 0) /\
    count is_draw (trace_of (Triangle.main vs fs env polls boot)) =
      length iterations /\
    count is_swap (trace_of (Triangle.main vs fs env polls boot)) =
      length iterations /\
    count is_poll (trace_of (Triangle.main vs fs env polls boot)) =
      length iterations /\
    count is_gpu_create (trace_of (Triangle.main vs fs env polls boot)) =
      6%nat /\
    count is_gpu_delete (trace_of (Triangle.main vs fs env polls boot)) =
      match r with Done _ => 6%nat | _ => 2%nat end.
Proof.
  intros Hw Hg.
  destruct (main_cases vs fs env polls Hw Hg)
    as (its & r & d' & Hrun & Hmain).
  exists its, r, d'. split; [exact Hrun|].
  pose proof (loop_run_shapes _ _ _ _ _ _ Hrun) as Hshapes.
  assert (Hit : forall p k,
            (forall t, iteration_shape (locals env) t -> count p t = k) ->
            p (glfwWindowShouldClose (env_window env)) = false ->
            count p (loop_calls (env_window env) its) = (k * length its)%nat).
  { intros p k Hp Hhead. apply loop_calls_count; [exact Hhead|].
    eapply List.Forall_impl; [|exact Hshapes]. exact Hp. }
  pose proof (Hit is_draw 1%nat
                (fun t Ht => proj1 (iteration_counts _ t Ht)) eq_refl) as Hdraw.
  pose proof (Hit is_swap 1%nat
                (fun t Ht => proj1 (proj2 (iteration_counts _ t Ht))) eq_refl)
    as Hswap.
  pose proof (Hit is_poll 1%nat
                (fun t Ht => proj1 (proj2 (proj2 (iteration_counts _ t Ht))))
                eq_refl) as Hpoll.
  pose proof (Hit is_gpu_create 0%nat
                (fun t Ht =>
                   proj1 (proj2 (proj2 (proj2 (iteration_counts _ t Ht)))))
                eq_refl) as Hcreate.
  pose proof (Hit is_gpu_delete 0%nat
                (fun t Ht =>
                   proj2 (proj2 (proj2 (proj2 (iteration_counts _ t Ht)))))
                eq_refl) as Hdelete.
  destruct (setup_calls_counts vs fs env) as (S1 & S2 & S3 & S4 & S5).
  destruct Hmain as [(-> & _ & ->) | (-> & _ & ->)];
    cbn [result_of trace_of fst snd]; rewrite !count_app;
    rewrite S1, S2, S3, S4, S5, Hdraw, Hswap, Hpoll, Hcreate, Hdelete;
    (split; [split; [discriminate || reflexivity | discriminate || reflexivity]|]);
    (split; [split; [discriminate || reflexivity | discriminate || reflexivity]|]);
    cbn; repeat split; lia.
Qed.

(** X4.  In a run of [main] that got past setup, the numbers of
    [glDrawElements], [glfwSwapBuffers] and [glfwPollEvents] calls are equal:
    each frame presented has had the triangle drawn once and is followed by
    one poll.  That number is at most the number of polls the input provides,
    and equal to it when the loop is still running at the end of the
    observation. *)
Theorem frames_are_counted vs fs env polls :
  env_window env <> nullptr -> env_glad env <> 0 ->
  count is_draw (trace_of (Triangle.main vs fs env polls boot)) =
    count is_poll (trace_of (Triangle.main vs fs env polls boot)) /\
  count is_swap (trace_of (Triangle.main vs fs env polls boot)) =
    count is_poll (trace_of (Triangle.main vs fs env polls boot)) /\
  (count is_poll (trace_of (Triangle.main vs fs env polls boot)) <=
     length polls)%nat /\
  (result_of (Triangle.main vs fs env polls boot) = Running ->
   count is_poll (trace_of (Triangle.main vs fs env polls boot)) =
     length polls).
Proof.
  intros Hw Hg.
  destruct (main_counts vs fs env polls Hw Hg)
    as (its & r & d' & Hrun & Hrunning & _ & -> & -> & -> & _).
  pose proof (loop_run_length _ _ _ _ _ _ Hrun) as Hlen.
  repeat split; try reflexivity; try exact Hlen.
  intros Hres. apply (loop_run_running_length _ _ _ _ _ _ Hrun).
  apply Hrunning. exact Hres.
Qed.

Lemma frames_are_counted_witness :
  env_window platform_ok <> nullptr /\ env_glad platform_ok <> 0 /\
  count is_draw (trace_of (Triangle.main sample_vertex_src
                             sample_fragment_src platform_ok polls_escape
                             boot)) =
  count is_poll (trace_of (Triangle.main sample_vertex_src
                             sample_fragment_src platform_ok polls_escape
                             boot)).
Proof.
  split; [vm_compute; discriminate|]. split; [vm_compute; discriminate|].
  pose proof (frames_are_counted sample_vertex_src sample_fragment_src
                platform_ok polls_escape) as H.
  destruct H as (Hdraw & _); [vm_compute; discriminate
                             | vm_compute; discriminate |].
  exact Hdraw.
Defined.

(** X5.  However many frames a run of [main] renders, it makes six calls
    that create a GPU object, all during setup, and two calls that delete
    one (the two shaders) until the loop ends; a run that returns 0 has made
    six of each. *)
Theorem gpu_objects_balance vs fs env polls :
  env_window env <> nullptr -> env_glad env <> 0 ->
  count is_gpu_create (trace_of (Triangle.main vs fs env polls boot)) = 6%nat /\
  (result_of (Triangle.main vs fs env polls boot) = Running ->
   count is_gpu_delete (trace_of (Triangle.main vs fs env polls boot))
     = 2%nat) /\
  (result_of (Triangle.main vs fs env polls boot) = Exit 0 ->
   count is_gpu_delete (trace_of (Triangle.main vs fs env polls boot))
     = 6%nat).
Proof.
  intros Hw Hg.
  destruct (main_counts vs fs env polls Hw Hg)
    as (its & r & d' & _ & Hrunning & Hdone & _ & _ & _ & -> & ->).
  split; [reflexivity|]. split; intros Hres.
  - apply Hrunning in Hres. subst r. reflexivity.
  - apply Hdone in Hres. subst r. reflexivity.
Qed.

Lemma gpu_objects_balance_witness :
  env_window platform_ok <> nullptr /\ env_glad platform_ok <> 0 /\
  count is_gpu_create (trace_of (Triangle.main sample_vertex_src
                                   sample_fragment_src platform_ok
                                   polls_close boot)) = 6%nat.
Proof.
  split; [vm_compute; discriminate|]. split; [vm_compute; discriminate|].
  pose proof (gpu_objects_balance sample_vertex_src sample_fragment_src
                platform_ok polls_close) as H.
  destruct H as (Hcreate & _); [vm_compute; discriminate
                               | vm_compute; discriminate |].
  exact Hcreate.
Defined.

(** ** The viewport over a run of src/triangle.cpp *)

Lemma last_resize_app a b :
  last_resize (a ++ b) =
    match last_resize b with Some size => Some size | None => last_resize a end.
Proof.
  induction a as [|ev a IH]; cbn [app last_resize].
  - destruct (last_resize b); reflexivity.
  - rewrite IH. destruct (last_resize b); reflexivity.
Qed.

Lemma events_state_cons ev events d :
  events_state (ev :: events) d = events_state events (event_state ev d).
Proof. reflexivity. Qed.

Lemma events_state_app a b d :
  events_state (a ++ b) d = events_state b (events_state a d).
Proof. unfold events_state. apply fold_left_app. Qed.

Lemma events_state_registered events : forall d,
  resize_callback (glfw (events_state events d)) = resize_callback (glfw d).
Proof.
  induction events as [|ev rest IH]; intros d; [reflexivity|].
  rewrite events_state_cons, IH. apply event_state_callback.
Qed.

Lemma key_check_registered d :
  resize_callback (glfw (key_check_state d)) = resize_callback (glfw d).
Proof.
  cbn [key_check_state glfw]. unfold key_check_glfw.
  destruct (escape_key (glfw d) =? GLFW_PRESS); reflexivity.
Qed.

Lemma events_state_viewport events : forall d window,
  resize_callback (glfw d) = Some window ->
  viewport (gl (events_state events d)) =
    match last_resize events with
    | Some size => viewport_of size
    | None => viewport (gl d)
    end.
Proof.
  induction events as [|ev rest IH]; intros d window Hcb; [reflexivity|].
  rewrite events_state_cons. cbn [last_resize].
  rewrite (IH (event_state ev d) window)
    by (rewrite event_state_callback; exact Hcb).
  destruct (last_resize rest); [reflexivity|].
  destruct ev as [|[] a|w h]; try reflexivity.
  cbn [event_state gl event_gl]. rewrite Hcb. reflexivity.
Qed.

Lemma loop_run_viewport l polls d r d' iterations :
  loop_run l polls d r d' iterations ->
  forall window, resize_callback (glfw d) = Some window ->
  viewport (gl d') =
    match last_resize (concat (firstn (length iterations) polls)) with
    | Some size => viewport_of size
    | None => viewport (gl d)
    end.
Proof.
  induction 1 as [| |events rest d r d' its Hflag Hrun IH];
    intros window Hcb; try reflexivity.
  cbn [length firstn concat]. rewrite last_resize_app.
  rewrite (IH window)
    by (rewrite events_state_registered, key_check_registered; exact Hcb).
  destruct (last_resize (concat (firstn (length its) rest))); [reflexivity|].
  rewrite (events_state_viewport events (key_check_state d) window)
    by (rewrite key_check_registered; exact Hcb).
  reflexivity.
Qed.

(** X6.  At the end of a run of [main] that got past setup, the viewport is
    the one set for the last resize event that the polls made so far have
    delivered, (0, 0, width, height); when they delivered none it is still
    the (0, 0, 800, 600) of setup. *)
Theorem viewport_follows_last_resize vs fs env polls :
  env_window env <> nullptr -> env_glad env <> 0 ->
  viewport (gl (driver_of (Triangle.main vs fs env polls boot))) =
    match
      last_resize
        (concat
           (firstn
              (count is_poll (trace_of (Triangle.main vs fs env polls boot)))
              polls))
    with
    | Some size => (0, 0, fst size, snd size)
    | None => (0, 0, Triangle.WINDOW_WIDTH, Triangle.WINDOW_HEIGHT)
    end.
Proof.
  intros Hw Hg.
  destruct (main_counts vs fs env polls Hw Hg)
    as (its & r & d' & Hrun & _ & _ & _ & _ & -> & _).
  pose proof (loop_run_viewport _ _ _ _ _ _ Hrun (env_window env) eq_refl)
    as Hview.
  destruct (loop_run_state _ _ _ _ _ _ Hrun) as [Hgl _].
  destruct (main_cases vs fs env polls Hw Hg)
    as (its2 & r2 & d2 & Hrun2 & Hmain).
  destruct (loop_run_deterministic _ _ _ _ _ _ Hrun _ _ _ Hrun2)
    as (<- & <- & <-).
  destruct Hmain as [(_ & _ & ->) | (_ & _ & ->)];
    cbn [driver_of fst snd].
  - rewrite replay_gl, Hgl, teardown_gl. cbn [viewport]. exact Hview.
  - exact Hview.
Qed.

Lemma viewport_follows_last_resize_witness :
  env_window platform_ok <> nullptr /\ env_glad platform_ok <> 0 /\
  viewport (gl (driver_of (Triangle.main sample_vertex_src
                             sample_fragment_src platform_ok polls_escape
                             boot))) = (0, 0, 1024, 768).
Proof.
  split; [vm_compute; discriminate|]. split; [vm_compute; discriminate|].
  rewrite (viewport_follows_last_resize sample_vertex_src sample_fragment_src
             platform_ok polls_escape);
    [reflexivity | vm_compute; discriminate | vm_compute; discriminate].
Defined.

(** ** Input that does not close the window, and input that does *)

Lemma key_check_idle w :
  escape_key w <> GLFW_PRESS -> key_check_glfw w = w.
Proof.
  intros Hkey. unfold key_check_glfw.
  destruct (Z.eqb_spec (escape_key w) GLFW_PRESS); [contradiction|reflexivity].
Qed.

Lemma quiet_event_state ev d :
  is_quiet ev = true ->
  should_close (glfw d) = 0 -> escape_key (glfw d) <> GLFW_PRESS ->
  should_close (glfw (event_state ev d)) = 0 /\
  escape_key (glfw (event_state ev d)) <> GLFW_PRESS.
Proof.
  destruct ev as [|[] a|w h]; cbn; intros Hq Hflag Hkey;
    try discriminate; auto.
  split; [exact Hflag|].
  destruct (Z.eqb_spec a GLFW_PRESS); [discriminate|assumption].
Qed.

Lemma quiet_events_state events : forall d,
  forallb is_quiet events = true ->
  should_close (glfw d) = 0 -> escape_key (glfw d) <> GLFW_PRESS ->
  should_close (glfw (events_state events d)) = 0 /\
  escape_key (glfw (events_state events d)) <> GLFW_PRESS.
Proof.
  induction events as [|ev rest IH]; intros d Hq Hflag Hkey; [auto|].
  cbn [forallb] in Hq. apply andb_prop in Hq. destruct Hq as [Hev Hrest].
  rewrite events_state_cons.
  destruct (quiet_event_state ev d Hev Hflag Hkey) as [Hflag' Hkey'].
  apply IH; assumption.
Qed.

Lemma loop_run_quiet l polls d r d' iterations :
  loop_run l polls d r d' iterations ->
  should_close (glfw d) = 0 -> escape_key (glfw d) <> GLFW_PRESS ->
  Forall (fun events => forallb is_quiet events = true) polls ->
  r = Running.
Proof.
  induction 1 as [polls d Hset| |events rest d r d' its Hflag Hrun IH];
    intros Hopen Hkey Hquiet; [|reflexivity|].
  - rewrite Hopen in Hset. discriminate.
  - inversion Hquiet as [|? ? Hev Hrest]; subst.
    assert (Hidle : key_check_state d = {| glfw := glfw d; gl := gl d |}).
    { unfold key_check_state. rewrite (key_check_idle _ Hkey). reflexivity. }
    destruct (quiet_events_state events (key_check_state d) Hev)
      as [Hflag' Hkey']; [rewrite Hidle; assumption..|].
    apply IH; assumption.
Qed.

(** X7.  The loop does not end by itself.  On input that holds no close
    request and never reports the Escape key going down, a run of [main]
    that got past setup is still in its loop when the observation ends, and
    has rendered one frame per poll. *)
Theorem quiet_input_keeps_running vs fs env polls :
  env_window env <> nullptr -> env_glad env <> 0 ->
  Forall (fun events => forallb is_quiet events = true) polls ->
  result_of (Triangle.main vs fs env polls boot) = Running /\
  count is_draw (trace_of (Triangle.main vs fs env polls boot)) =
    length polls.
Proof.
  intros Hw Hg Hquiet.
  destruct (main_counts vs fs env polls Hw Hg)
    as (its & r & d' & Hrun & Hrunning & _ & -> & _).
  assert (Hr : r = Running).
  { apply (loop_run_quiet _ _ _ _ _ _ Hrun); [reflexivity | | exact Hquiet].
    cbn. discriminate. }
  split; [apply Hrunning; exact Hr|].
  apply (loop_run_running_length _ _ _ _ _ _ Hrun Hr).
Qed.

Lemma quiet_input_keeps_running_witness :
  env_window platform_ok <> nullptr /\ env_glad platform_ok <> 0 /\
  Forall (fun events => forallb is_quiet events = true)
    [[FramebufferResized 640 480]; [KeyInput GLFW_KEY_ESCAPE GLFW_RELEASE]] /\
  result_of (Triangle.main sample_vertex_src sample_fragment_src platform_ok
               [[FramebufferResized 640 480];
                [KeyInput GLFW_KEY_ESCAPE GLFW_RELEASE]] boot) = Running.
Proof.
  split; [vm_compute; discriminate|]. split; [vm_compute; discriminate|].
  assert (Hq : Forall (fun events => forallb is_quiet events = true)
                 [[FramebufferResized 640 480];
                  [KeyInput GLFW_KEY_ESCAPE GLFW_RELEASE]])
    by (repeat constructor).
  split; [exact Hq|].
  apply (quiet_input_keeps_running sample_vertex_src sample_fragment_src
           platform_ok _); [vm_compute; discriminate
                           | vm_compute; discriminate | exact Hq].
Defined.

Lemma events_state_no_close events : forall d,
  ~ In WindowCloseRequested events ->
  should_close (glfw (events_state events d)) = should_close (glfw d).
Proof.
  induction events as [|ev rest IH]; intros d Hno; [reflexivity|].
  rewrite events_state_cons, IH by (intros H; apply Hno; right; exact H).
  destruct ev as [|[] a|w h]; try reflexivity.
  exfalso. apply Hno. left. reflexivity.
Qed.

Lemma loop_body_set_close env l events d :
  List.filter is_set_close (trace_of (Triangle.loop_body env l events d)) =
    if escape_key (glfw d) =? GLFW_PRESS
    then [glfwSetWindowShouldClose (Triangle.window l) 1] else [].
Proof.
  rewrite (loop_body_run env l events d). cbn [trace_of snd].
  rewrite !List.filter_app.
  rewrite (filter_resize_callbacks is_set_close
             (flat_map (event_calls (resize_callback (glfw d))) events));
    [|reflexivity|apply event_calls_shape].
  unfold key_check_calls.
  destruct (escape_key (glfw d) =? GLFW_PRESS); reflexivity.
Qed.

(** X8.  A key press is acted on one frame later.  When the flag is unset,
    the Escape key is up, and the poll that ends an iteration delivers no
    close request and reports last that the key went down, that iteration
    does not touch the flag; the next one sets it once, is still rendered
    in full, and is the last, whatever input follows. *)
Theorem escape_press_closes_after_next_frame env l before next rest d :
  should_close (glfw d) = 0 ->
  escape_key (glfw d) <> GLFW_PRESS ->
  ~ In WindowCloseRequested before ->
  let events := before ++ [KeyInput GLFW_KEY_ESCAPE GLFW_PRESS] in
  let first := Triangle.loop_body env l events d in
  let second := Triangle.loop_body env l next (driver_of first) in
  Triangle.render_loop env l (events :: next :: rest) d =
    (Done tt, driver_of second,
     glfwWindowShouldClose (Triangle.window l) :: trace_of first ++
     glfwWindowShouldClose (Triangle.window l) :: trace_of second ++
     [glfwWindowShouldClose (Triangle.window l)]) /\
  List.filter is_set_close (trace_of first) = [] /\
  List.filter is_set_close (trace_of second) =
    [glfwSetWindowShouldClose (Triangle.window l) 1] /\
  count is_draw (trace_of second) = 1%nat.
Proof.
  intros Hopen Hkey Hno events first second.
  assert (Hidle : key_check_state d = {| glfw := glfw d; gl := gl d |}).
  { unfold key_check_state. rewrite (key_check_idle _ Hkey). reflexivity. }
  assert (Hfirst : driver_of first = events_state events (key_check_state d)).
  { subst first. rewrite (loop_body_run env l events d). reflexivity. }
  assert (Hno' : ~ In WindowCloseRequested events).
  { subst events. intros Hin. apply in_app_or in Hin.
    destruct Hin as [Hin | [Hin | []]]; [contradiction | discriminate]. }
  assert (Hflag1 : should_close (glfw (driver_of first)) = 0).
  { rewrite Hfirst, (events_state_no_close events _ Hno'), Hidle.
    exact Hopen. }
  assert (Hkey1 : escape_key (glfw (driver_of first)) = GLFW_PRESS).
  { rewrite Hfirst. subst events. rewrite events_state_app. reflexivity. }
  split; [|split; [|split]].
  - assert (Htrace : trace_of first =
                      key_check_calls (Triangle.window l) d ++ frame_calls l ++
                      flat_map (event_calls (resize_callback (glfw d))) events)
      by (subst first; rewrite (loop_body_run env l events d); reflexivity).
    rewrite (render_loop_iteration env l events (next :: rest) d Hopen).
    cbv zeta. rewrite <- Hfirst.
    rewrite (render_loop_last_iteration env l next rest _ Hflag1
               (loop_body_sets_flag env l next _ (or_introl Hkey1))).
    cbn [result_of driver_of trace_of fst snd]. rewrite Htrace.
    reflexivity.
  - subst first. rewrite loop_body_set_close.
    destruct (Z.eqb_spec (escape_key (glfw d)) GLFW_PRESS);
      [contradiction|reflexivity].
  - subst second. rewrite loop_body_set_close, Hkey1. reflexivity.
  - subst second. rewrite (loop_body_run env l next (driver_of first)).
    cbn [trace_of snd]. rewrite !count_app.
    rewrite (count_resize_callbacks is_draw
               (flat_map (event_calls _) next));
      [|reflexivity|apply event_calls_shape].
    unfold key_check_calls. rewrite Hkey1. reflexivity.
Qed.

Lemma escape_press_closes_after_next_frame_witness :
  should_close (glfw (setup_state platform_ok)) = 0 /\
  escape_key (glfw (setup_state platform_ok)) <> GLFW_PRESS /\
  ~ In WindowCloseRequested [FramebufferResized 1024 768] /\
  result_of
    (Triangle.render_loop platform_ok (locals platform_ok)
       (([FramebufferResized 1024 768] ++
         [KeyInput GLFW_KEY_ESCAPE GLFW_PRESS]) :: [] :: [[]])
       (setup_state platform_ok)) = Done tt.
Proof.
  assert (Hno : ~ In WindowCloseRequested [FramebufferResized 1024 768])
    by (intros [H | []]; discriminate H).
  split; [reflexivity|]. split; [vm_compute; discriminate|].
  split; [exact Hno|].
  pose proof (escape_press_closes_after_next_frame platform_ok
                (locals platform_ok) [FramebufferResized 1024 768] [] [[]]
                (setup_state platform_ok)) as H.
  destruct H as (Hrun & _); [reflexivity | vm_compute; discriminate
                            | exact Hno |].
  rewrite Hrun. reflexivity.
Defined.

(** ** The loop of src/unnamed/part_001 *)

Section PlainLoop.

Variable env : Env.

Lemma plain_deliver_run ev d :
  deliver (Part001.framebuffer_resize_callback env) ev d =
    (Done tt, event_state ev d,
     plain_event_calls (resize_callback (glfw d)) ev).
Proof.
  destruct d as [w g].
  destruct ev as [|[] a|width height]; try reflexivity.
  unfold event_state. simpl. destruct (resize_callback w); reflexivity.
Qed.

Lemma plain_deliver_all_run events : forall d,
  deliver_all (Part001.framebuffer_resize_callback env) events d =
    (Done tt, events_state events d,
     flat_map (plain_event_calls (resize_callback (glfw d))) events).
Proof.
  induction events as [|ev rest IH]; intros d; [reflexivity|].
  cbn [deliver_all]. rewrite (bind_run _ _ _ _ _ _ (plain_deliver_run ev d)).
  rewrite IH. unfold result_of, driver_of, trace_of. cbn [fst snd].
  rewrite event_state_callback. reflexivity.
Qed.

Lemma part001_loop_body_run window events d :
  Part001.loop_body env window events d =
    (Done tt, events_state events (key_check_state d),
     plain_iteration_calls window events d).
Proof.
  destruct d as [w g].
  unfold Part001.loop_body, Part001.escape_key_pressed_callback,
    poll_events, plain_iteration_calls, plain_key_check_calls,
    key_check_state, key_check_glfw.
  unfold bind at 1. unfold bind at 1. cbn [ask answer glfw escape_key].
  destruct (escape_key w =? GLFW_PRESS) eqn:Hkey; cbn -[deliver_all];
    rewrite plain_deliver_all_run; cbn; reflexivity.
Qed.

(** The loop computes [plain_loop]. *)
Lemma part001_loop_is_plain window polls : forall d,
  Part001.render_loop env window polls d = plain_loop window polls d.
Proof.
  induction polls as [|events rest IH]; intros [w g];
    cbn [Part001.render_loop plain_loop]; unfold bind at 1;
    cbn [ask answer glfw exec exec_glfw exec_gl gl];
    unfold to_bool at 1 2; destruct (should_close w =? 0); cbn [negb];
    try reflexivity.
  rewrite (bind_run _ _ _ _ _ _ (part001_loop_body_run window events _)).
  rewrite IH.
  destruct (plain_loop window rest _) as [[r d'] t]. reflexivity.
Qed.

End PlainLoop.

(** ** Properties of [plain_loop] *)

Lemma plain_loop_closed window polls d :
  to_bool (should_close (glfw d)) = true ->
  plain_loop window polls d = (Done tt, d, [glfwWindowShouldClose window]).
Proof. intros H. destruct polls; cbn [plain_loop]; rewrite H; reflexivity. Qed.

Lemma plain_loop_iteration window events rest d :
  should_close (glfw d) = 0 ->
  plain_loop window (events :: rest) d =
    (result_of (plain_loop window rest
                  (events_state events (key_check_state d))),
     driver_of (plain_loop window rest
                  (events_state events (key_check_state d))),
     glfwWindowShouldClose window ::
     plain_iteration_calls window events d ++
     trace_of (plain_loop window rest
                 (events_state events (key_check_state d)))).
Proof.
  intros H. cbn [plain_loop]. rewrite H. cbn [to_bool Z.eqb negb].
  destruct (plain_loop window rest _) as [[r d'] t]. reflexivity.
Qed.

Lemma plain_loop_result window polls : forall d,
  result_of (plain_loop window polls d) = Done tt \/
  result_of (plain_loop window polls d) = Running.
Proof.
  induction polls as [|events rest IH]; intros d;
    destruct (to_bool (should_close (glfw d))) eqn:Hflag;
    try (rewrite (plain_loop_closed _ _ _ Hflag); left; reflexivity).
  - cbn [plain_loop]. rewrite Hflag. right. reflexivity.
  - apply to_bool_false in Hflag.
    rewrite (plain_loop_iteration _ _ _ _ Hflag). apply IH.
Qed.

Lemma plain_iteration_loop_calls window events d :
  Forall (plain_loop_call window) (plain_iteration_calls window events d).
Proof.
  unfold plain_iteration_calls. apply Forall_app. split; [|apply Forall_app; split].
  - unfold plain_key_check_calls.
    destruct (escape_key (glfw d) =? GLFW_PRESS);
      repeat constructor; left; cbn; tauto.
  - apply List.Forall_forall. intros c Hc. right. left. exact Hc.
  - apply List.Forall_forall. intros c Hc. right. right.
    apply in_flat_map in Hc. destruct Hc as (ev & _ & Hc).
    destruct ev as [|[] a|w h]; try destruct Hc.
    destruct (resize_callback (glfw d)); [|destruct Hc].
    destruct Hc as [<- | []]. eauto.
Qed.

Lemma plain_loop_calls window polls : forall d,
  Forall (plain_loop_call window) (trace_of (plain_loop window polls d)).
Proof.
  assert (Hhead : plain_loop_call window (glfwWindowShouldClose window))
    by (left; left; reflexivity).
  induction polls as [|events rest IH]; intros d;
    destruct (to_bool (should_close (glfw d))) eqn:Hflag;
    try (rewrite (plain_loop_closed _ _ _ Hflag);
         constructor; [exact Hhead | constructor]).
  - cbn [plain_loop]. rewrite Hflag. constructor; [exact Hhead | constructor].
  - apply to_bool_false in Hflag.
    rewrite (plain_loop_iteration _ _ _ _ Hflag). cbn [trace_of snd].
    constructor; [exact Hhead|]. apply Forall_app. split; [|apply IH].
    apply plain_iteration_loop_calls.
Qed.

Lemma plain_loop_call_kinds window c :
  plain_loop_call window c ->
  is_draw c = false /\ is_buffer_write c = false /\ is_compile c = false /\
  is_gpu_create c = false /\ is_gpu_delete c = false /\
  is_create_window c = false /\ c <> gladLoadGLLoader /\ c <> glfwTerminate.
Proof.
  intros [H | [H | (w & h & ->)]];
    [cbn in H | cbn in H | repeat split; try reflexivity; discriminate];
    repeat (destruct H as [<- | H];
            [repeat split; try reflexivity; discriminate|]);
    destruct H.
Qed.

Lemma plain_loop_gl window polls : forall d,
  only_viewport (gl d) (gl (driver_of (plain_loop window polls d))).
Proof.
  induction polls as [|events rest IH]; intros d;
    destruct (to_bool (should_close (glfw d))) eqn:Hflag;
    try (rewrite (plain_loop_closed _ _ _ Hflag); apply only_viewport_refl).
  - cbn [plain_loop]. rewrite Hflag. apply only_viewport_refl.
  - apply to_bool_false in Hflag.
    rewrite (plain_loop_iteration _ _ _ _ Hflag). cbn [driver_of fst snd].
    eapply only_viewport_trans; [|apply IH].
    apply (events_state_gl events (key_check_state d)).
Qed.

(** The loop reads nothing of the GPU state. *)
Lemma plain_loop_glfw_only window polls : forall d1 d2,
  glfw d1 = glfw d2 ->
  result_of (plain_loop window polls d1) =
    result_of (plain_loop window polls d2) /\
  trace_of (plain_loop window polls d1) =
    trace_of (plain_loop window polls d2) /\
  glfw (driver_of (plain_loop window polls d1)) =
    glfw (driver_of (plain_loop window polls d2)).
Proof.
  induction polls as [|events rest IH]; intros d1 d2 Heq;
    destruct (to_bool (should_close (glfw d1))) eqn:Hflag1;
    pose proof Hflag1 as Hflag2; rewrite Heq in Hflag2;
    try (rewrite (plain_loop_closed _ _ _ Hflag1),
           (plain_loop_closed _ _ _ Hflag2); auto).
  - cbn [plain_loop]. rewrite Hflag1, Hflag2. auto.
  - apply to_bool_false in Hflag1. apply to_bool_false in Hflag2.
    rewrite (plain_loop_iteration _ _ _ _ Hflag1),
      (plain_loop_iteration _ _ _ _ Hflag2).
    cbn [result_of driver_of trace_of fst snd].
    destruct (IH (events_state events (key_check_state d1))
                (events_state events (key_check_state d2)))
      as (Hr & Ht & Hw).
    { apply events_state_glfw_eq. cbn. rewrite Heq. reflexivity. }
    unfold plain_iteration_calls, plain_key_check_calls.
    fold (trace_of (plain_loop window rest
                      (events_state events (key_check_state d1)))).
    fold (trace_of (plain_loop window rest
                      (events_state events (key_check_state d2)))).
    rewrite Heq, Ht. auto.
Qed.

Lemma plain_loop_close_request window polls : forall d,
  Exists (fun events => In WindowCloseRequested events) polls ->
  result_of (plain_loop window polls d) = Done tt.
Proof.
  induction polls as [|events rest IH]; intros d Hex;
    inversion Hex as [? ? Hhere | ? ? Hlater]; subst;
    destruct (to_bool (should_close (glfw d))) eqn:Hflag;
    try (rewrite (plain_loop_closed _ _ _ Hflag); reflexivity);
    apply to_bool_false in Hflag;
    rewrite (plain_loop_iteration _ _ _ _ Hflag); cbn [result_of fst].
  - rewrite plain_loop_closed; [reflexivity|].
    apply events_state_close_request. exact Hhere.
  - apply IH. exact Hlater.
Qed.

Lemma plain_loop_quiet window polls : forall d,
  should_close (glfw d) = 0 -> escape_key (glfw d) <> GLFW_PRESS ->
  Forall (fun events => forallb is_quiet events = true) polls ->
  result_of (plain_loop window polls d) = Running /\
  count is_swap (trace_of (plain_loop window polls d)) = length polls.
Proof.
  induction polls as [|events rest IH]; intros d Hopen Hkey Hquiet.
  - cbn [plain_loop]. rewrite Hopen. split; reflexivity.
  - inversion Hquiet as [|? ? Hev Hrest]; subst.
    rewrite (plain_loop_iteration _ _ _ _ Hopen).
    cbn [result_of trace_of fst snd].
    assert (Hidle : key_check_state d = {| glfw := glfw d; gl := gl d |}).
    { unfold key_check_state. rewrite (key_check_idle _ Hkey). reflexivity. }
    destruct (quiet_events_state events (key_check_state d) Hev)
      as [Hflag' Hkey']; [rewrite Hidle; assumption..|].
    destruct (IH _ Hflag' Hkey' Hrest) as [Hr Hc].
    split; [exact Hr|].
    rewrite count_cons. cbn [is_swap].
    unfold plain_iteration_calls. rewrite !count_app.
    fold (trace_of (plain_loop window rest
                      (events_state events (key_check_state d)))).
    rewrite Hc.
    assert (Hcb : count is_swap
                    (flat_map (plain_event_calls (resize_callback (glfw d)))
                       events) = 0%nat).
    { apply count_none. apply List.Forall_forall. intros c Hc'.
      apply in_flat_map in Hc'. destruct Hc' as (ev & _ & Hc').
      destruct ev as [|[] a|w h]; try destruct Hc'.
      destruct (resize_callback (glfw d)); [|destruct Hc'].
      destruct Hc' as [<- | []]. reflexivity. }
    rewrite Hcb. unfold plain_key_check_calls.
    destruct (escape_key (glfw d) =? GLFW_PRESS); cbn; lia.
Qed.

(** ** Runs of [main] in src/unnamed/part_001 *)

Lemma part001_window_failure env polls :
  env_window env = nullptr ->
  Part001.main env polls boot =
    (Exit (-1), boot, glfwInit :: plain_window_failure_calls).
Proof. intros Hw. run_to_exit env. Qed.

Lemma part001_loader_failure env polls :
  env_window env <> nullptr -> env_glad env = 0 ->
  Part001.main env polls boot =
    (Exit (-1), {| glfw := plain_loader_failure_glfw; gl := gl boot |},
     glfwInit :: plain_loader_failure_calls env).
Proof. intros Hw Hg. run_to_exit env. Qed.

Lemma part001_main_run env polls :
  env_window env <> nullptr -> env_glad env <> 0 ->
  Part001.main env polls boot =
    match Part001.render_loop env (env_window env) polls
            (part001_loop_state env) with
    | (Done _, d, t) =>
        (Exit 0, exec env glfwTerminate d,
         glfwInit :: plain_startup_calls env ++ t ++ [glfwTerminate])
    | (Exit s, d, t) =>
        (Exit s, d, glfwInit :: plain_startup_calls env ++ t)
    | (Running, d, t) =>
        (Running, d, glfwInit :: plain_startup_calls env ++ t)
    | (Crashed c, d, t) =>
        (Crashed c, d, glfwInit :: plain_startup_calls env ++ t)
    end.
Proof.
  intros Hw Hg. unfold Part001.main.
  run_around_loop env Part001.render_loop.
Qed.

Lemma plain_loop_count_none (p : Call -> bool) window polls d :
  (forall c, plain_loop_call window c -> p c = false) ->
  count p (trace_of (plain_loop window polls d)) = 0%nat.
Proof.
  intros Hp. apply count_none.
  eapply List.Forall_impl; [exact Hp | apply plain_loop_calls].
Qed.

Lemma part001_cases env polls :
  env_window env <> nullptr -> env_glad env <> 0 ->
  let loop := plain_loop (env_window env) polls (part001_loop_state env) in
  (result_of loop = Done tt /\
   Part001.main env polls boot =
     (Exit 0, exec env glfwTerminate (driver_of loop),
      glfwInit :: plain_startup_calls env ++ trace_of loop ++
      [glfwTerminate])) \/
  (result_of loop = Running /\
   Part001.main env polls boot =
     (Running, driver_of loop,
      glfwInit :: plain_startup_calls env ++ trace_of loop)).
Proof.
  intros Hw Hg loop.
  rewrite (part001_main_run env polls Hw Hg), part001_loop_is_plain.
  fold loop. destruct (plain_loop_result (env_window env) polls
                         (part001_loop_state env)) as [Hr | Hr];
    fold loop in Hr; destruct loop as [[r d] t]; cbn in Hr; subst r; auto.
Qed.

(** X9.  [main] of [src/unnamed/part_001] returns -1 exactly when the
    window pointer is null or the loader returns 0; otherwise it returns 0
    or is still in its loop when the observation ends. *)
Theorem part001_exit_status env polls :
  (result_of (Part001.main env polls boot) = Exit (-1) <->
   env_window env = nullptr \/ env_glad env = 0) /\
  (result_of (Part001.main env polls boot) = Exit 0 \/
   result_of (Part001.main env polls boot) = Exit (-1) \/
   result_of (Part001.main env polls boot) = Running).
Proof.
  destruct (Z.eq_dec (env_window env) nullptr) as [Hw | Hw].
  { rewrite (part001_window_failure env polls Hw).
    cbn [result_of fst]. tauto. }
  destruct (Z.eq_dec (env_glad env) 0) as [Hg | Hg].
  { rewrite (part001_loader_failure env polls Hw Hg).
    cbn [result_of fst]. tauto. }
  destruct (part001_cases env polls Hw Hg) as [(_ & ->) | (_ & ->)];
    cbn [result_of fst];
    (repeat split; try discriminate; try tauto).
Qed.

(** X10.  [main] of [src/unnamed/part_000] cannot get past its first GL
    call.  Whatever the platform answers and whatever input is queued, the
    run is [glfwInit] followed by the death of the process at the
    [glGenBuffers] of line 53, a [gl*] function whose entry point is still
    unloaded: no window is asked for, the loader is not called, and
    [glfwTerminate] is not called either, so the window system is left
    initialised. *)
Theorem part000_dies_at_first_gl_call env polls :
  Part000.main env polls boot =
    (Crashed (glGenBuffers 1), with_glfw (set_glfw_initialized true) boot,
     [glfwInit]) /\
  is_gl_call (glGenBuffers 1) = true /\
  entry_points_loaded (gl (driver_of (Part000.main env polls boot))) =
    false /\
  count is_create_window (trace_of (Part000.main env polls boot)) = 0%nat /\
  ~ In gladLoadGLLoader (trace_of (Part000.main env polls boot)) /\
  ~ In glfwTerminate (trace_of (Part000.main env polls boot)) /\
  glfw_initialized (glfw (driver_of (Part000.main env polls boot))) = true.
Proof.
  rewrite part000_run. repeat split;
    cbn; intuition discriminate.
Qed.

Lemma part001_final_gl env polls :
  shaders (gl (driver_of (Part001.main env polls boot))) = ∅ /\
  programs (gl (driver_of (Part001.main env polls boot))) = ∅ /\
  vertex_arrays (gl (driver_of (Part001.main env polls boot))) = ∅ /\
  buffers (gl (driver_of (Part001.main env polls boot))) = ∅.
Proof.
  destruct (Z.eq_dec (env_window env) nullptr) as [Hw | Hw].
  { rewrite (part001_window_failure env polls Hw). repeat split. }
  destruct (Z.eq_dec (env_glad env) 0) as [Hg | Hg].
  { rewrite (part001_loader_failure env polls Hw Hg). repeat split. }
  pose proof (plain_loop_gl (env_window env) polls (part001_loop_state env))
    as Hgl.
  destruct (part001_cases env polls Hw Hg) as [(_ & ->) | (_ & ->)];
    cbn [driver_of fst snd exec gl exec_gl];
    rewrite Hgl; repeat split.
Qed.

(** X14.  [main] of [src/unnamed/part_001] keeps to the order its comment
    asks for: wherever a GL call stands in a run, the window has been made
    current and [gladLoadGLLoader] has been called before it, and both
    succeeded.  It creates no GPU object: no run has a creating call, and the
    driver ends with no shader, program, vertex array or buffer. *)
Theorem part001_gl_calls_follow_loader env polls :
  (forall n c,
     nth_error (trace_of (Part001.main env polls boot)) n = Some c ->
     is_gl_call c = true ->
     In (glfwMakeContextCurrent (env_window env))
        (firstn n (trace_of (Part001.main env polls boot))) /\
     In gladLoadGLLoader
        (firstn n (trace_of (Part001.main env polls boot))) /\
     env_window env <> nullptr /\ env_glad env <> 0) /\
  count is_gpu_create (trace_of (Part001.main env polls boot)) = 0%nat /\
  shaders (gl (driver_of (Part001.main env polls boot))) = ∅ /\
  programs (gl (driver_of (Part001.main env polls boot))) = ∅ /\
  vertex_arrays (gl (driver_of (Part001.main env polls boot))) = ∅ /\
  buffers (gl (driver_of (Part001.main env polls boot))) = ∅.
Proof.
  split.
  - intros n c Hn Hgl. pose proof (nth_error_decompose _ _ _ Hn) as Hsplit.
    pose proof (in_elt_count is_gl_call
                  (firstn n (trace_of (Part001.main env polls boot))) c
                  (skipn (S n) (trace_of (Part001.main env polls boot)))
                  Hgl) as Hpos.
    rewrite <- Hsplit in Hpos.
    destruct (Z.eq_dec (env_window env) nullptr) as [Hw | Hw].
    { exfalso. rewrite (part001_window_failure env polls Hw) in Hpos.
      cbn in Hpos. lia. }
    destruct (Z.eq_dec (env_glad env) 0) as [Hg | Hg].
    { exfalso. rewrite (part001_loader_failure env polls Hw Hg) in Hpos.
      cbn in Hpos. lia. }
    assert (Htrace : exists rest,
              trace_of (Part001.main env polls boot) =
                [glfwInit;
                 glfwWindowHint GLFW_CONTEXT_VERSION_MAJOR 3;
                 glfwWindowHint GLFW_CONTEXT_VERSION_MINOR 3;
                 glfwWindowHint GLFW_OPENGL_PROFILE GLFW_OPENGL_CORE_PROFILE;
                 glfwCreateWindow 800 600 "gl";
                 glfwMakeContextCurrent (env_window env);
                 gladLoadGLLoader] ++ rest).
    { destruct (part001_cases env polls Hw Hg) as [(_ & ->) | (_ & ->)];
        eexists; reflexivity. }
    destruct Htrace as (rest & Htrace).
    rewrite Htrace in Hsplit at 1.
    assert (Hquiet : count is_gl_call
              [glfwInit;
               glfwWindowHint GLFW_CONTEXT_VERSION_MAJOR 3;
               glfwWindowHint GLFW_CONTEXT_VERSION_MINOR 3;
               glfwWindowHint GLFW_OPENGL_PROFILE GLFW_OPENGL_CORE_PROFILE;
               glfwCreateWindow 800 600 "gl";
               glfwMakeContextCurrent (env_window env);
               gladLoadGLLoader] = 0%nat) by reflexivity.
    destruct (split_past_prefix is_gl_call _ _ _ _ _ Hquiet Hsplit Hgl)
      as (mid & Hpre & _).
    rewrite Hpre.
    repeat split; try assumption; apply in_or_app; left; cbn; tauto.
  - split; [|exact (part001_final_gl env polls)].
    destruct (Z.eq_dec (env_window env) nullptr) as [Hw | Hw].
    { rewrite (part001_window_failure env polls Hw). reflexivity. }
    destruct (Z.eq_dec (env_glad env) 0) as [Hg | Hg].
    { rewrite (part001_loader_failure env polls Hw Hg). reflexivity. }
    pose proof (plain_loop_count_none is_gpu_create (env_window env) polls
                  (part001_loop_state env)
                  (fun c Hc =>
                     proj1 (proj2 (proj2 (proj2
                       (plain_loop_call_kinds _ c Hc)))))) as Hcreate.
    destruct (part001_cases env polls Hw Hg) as [(_ & ->) | (_ & ->)];
      cbn [trace_of snd];
      rewrite !count_cons, !count_app, Hcreate; reflexivity.
Qed.

Lemma part001_gl_calls_follow_loader_witness :
  nth_error (trace_of (Part001.main platform_ok polls_close boot)) 7 =
    Some (glViewport 0 0 800 600) /\
  is_gl_call (glViewport 0 0 800 600) = true /\
  In gladLoadGLLoader
     (firstn 7 (trace_of (Part001.main platform_ok polls_close boot))).
Proof.
  split; [vm_compute; reflexivity|]. split; [reflexivity|].
  pose proof (part001_gl_calls_follow_loader platform_ok polls_close) as H.
  destruct H as (Horder & _).
  destruct (Horder 7%nat (glViewport 0 0 800 600)) as (_ & Hin & _);
    [vm_compute; reflexivity | reflexivity |].
  exact Hin.
Defined.

(** X15.  How the loop of [src/unnamed/part_001] ends, on a platform that
    gives it the window and the GL entry points: a close request anywhere in
    the input makes [main] return 0; on input with no close request and no
    Escape press [main] is still in its loop when the observation ends and
    has presented one frame per poll. *)
Theorem part001_loop_ends_on_request env polls :
  env_window env <> nullptr -> env_glad env <> 0 ->
  (Exists (fun events => In WindowCloseRequested events) polls ->
   result_of (Part001.main env polls boot) = Exit 0) /\
  (Forall (fun events => forallb is_quiet events = true) polls ->
   result_of (Part001.main env polls boot) = Running /\
   count is_swap (trace_of (Part001.main env polls boot)) = length polls).
Proof.
  intros Hw Hg. split.
  - intros Hclose.
    pose proof (plain_loop_close_request (env_window env) polls
                  (part001_loop_state env) Hclose) as H1.
    destruct (part001_cases env polls Hw Hg) as [(_ & ->) | (Hr1 & _)];
      [|congruence].
    reflexivity.
  - intros Hquiet.
    assert (Hkey : GLFW_RELEASE <> GLFW_PRESS) by discriminate.
    destruct (plain_loop_quiet (env_window env) polls
                (part001_loop_state env) eq_refl Hkey Hquiet) as [H1 C1].
    destruct (part001_cases env polls Hw Hg) as [(Hr1 & _) | (_ & ->)];
      [congruence|].
    cbn [result_of trace_of fst snd].
    split; [reflexivity|].
    rewrite !count_cons, !count_app, C1. reflexivity.
Qed.

Lemma part001_loop_ends_on_request_witness :
  env_window platform_ok <> nullptr /\ env_glad platform_ok <> 0 /\
  Exists (fun events => In WindowCloseRequested events) polls_close /\
  result_of (Part001.main platform_ok polls_close boot) = Exit 0.
Proof.
  assert (Hclose : Exists (fun events => In WindowCloseRequested events)
                     polls_close).
  { apply Exists_cons_tl. apply Exists_cons_hd. right. left. reflexivity. }
  split; [vm_compute; discriminate|]. split; [vm_compute; discriminate|].
  split; [exact Hclose|].
  pose proof (part001_loop_ends_on_request platform_ok polls_close) as H.
  destruct H as (Hexit & _);
    [vm_compute; discriminate | vm_compute; discriminate |].
  exact (Hexit Hclose).
Defined.

(** ** Viewport calls over a run of src/triangle.cpp *)

Lemma loop_calls_cons window t iterations :
  loop_calls window (t :: iterations) =
    glfwWindowShouldClose window :: t ++ loop_calls window iterations.
Proof.
  unfold loop_calls. cbn [flat_map app]. rewrite <- app_assoc. reflexivity.
Qed.

Lemma event_calls_viewports window events :
  count is_viewport (flat_map (event_calls (Some window)) events) =
    length (List.filter is_resize events).
Proof.
  induction events as [|ev rest IH]; [reflexivity|].
  cbn [flat_map List.filter]. rewrite count_app, IH.
  destruct ev as [|[] a|w h]; reflexivity.
Qed.

Lemma loop_run_viewports l polls d r d' iterations :
  loop_run l polls d r d' iterations ->
  forall window, resize_callback (glfw d) = Some window ->
  count is_viewport (loop_calls (Triangle.window l) iterations) =
    length (List.filter is_resize
              (concat (firstn (length iterations) polls))).
Proof.
  induction 1 as [| |events rest d r d' its Hflag Hrun IH];
    intros window Hcb; try reflexivity.
  rewrite loop_calls_cons, count_cons, !count_app.
  rewrite (IH window)
    by (rewrite events_state_registered, key_check_registered; exact Hcb).
  cbn [length firstn concat is_viewport].
  rewrite List.filter_app, length_app, Hcb, event_calls_viewports.
  unfold key_check_calls.
  destruct (escape_key (glfw d) =? GLFW_PRESS); cbn; lia.
Qed.

(** X16.  A run of [main] that got past setup issues one [glViewport] call
    during setup and, after that, exactly one for every resize event that
    the polls made so far have delivered. *)
Theorem resize_calls_are_counted vs fs env polls :
  env_window env <> nullptr -> env_glad env <> 0 ->
  count is_viewport (trace_of (Triangle.main vs fs env polls boot)) =
    S (length
         (List.filter is_resize
            (concat
               (firstn
                  (count is_poll
                     (trace_of (Triangle.main vs fs env polls boot)))
                  polls)))).
Proof.
  intros Hw Hg.
  destruct (main_counts vs fs env polls Hw Hg)
    as (its & r & d' & Hrun & _ & _ & _ & _ & -> & _).
  pose proof (loop_run_viewports _ _ _ _ _ _ Hrun (env_window env) eq_refl)
    as Hview.
  cbn [locals Triangle.window] in Hview.
  assert (Hsetup : count is_viewport (setup_calls vs fs env) = 1%nat).
  { unfold setup_calls, diagnostic.
    destruct (env_apple env), (to_bool (env_vertex_status env)),
      (to_bool (env_fragment_status env)), (to_bool (env_link_status env));
      reflexivity. }
  destruct (main_cases vs fs env polls Hw Hg)
    as (its2 & r2 & d2 & Hrun2 & Hmain).
  destruct (loop_run_deterministic _ _ _ _ _ _ Hrun _ _ _ Hrun2)
    as (<- & <- & <-).
  destruct Hmain as [(_ & _ & ->) | (_ & _ & ->)]; cbn [trace_of snd];
    rewrite !count_app, Hsetup, Hview; cbn; lia.
Qed.

Lemma resize_calls_are_counted_witness :
  env_window platform_ok <> nullptr /\ env_glad platform_ok <> 0 /\
  count is_viewport
    (trace_of (Triangle.main sample_vertex_src sample_fragment_src
                 platform_ok polls_close boot)) = 2%nat.
Proof.
  split; [vm_compute; discriminate|]. split; [vm_compute; discriminate|].
  rewrite (resize_calls_are_counted sample_vertex_src sample_fragment_src
             platform_ok polls_close);
    [reflexivity | vm_compute; discriminate | vm_compute; discriminate].
Defined.
